(** * MHT-CET cutoff parser: a shallow embedding of [final_parser.py]

    The development follows the Python source function by function.
    Page text is a [string] over code points below 256; on that
    repertoire the regular-expression class [\d] is the ten digits
    [0-9] and [str.isspace] holds of the twelve characters listed in
    [isspace].  Percentiles are binary64 values, taken from the
    IEEE-754 specification of the standard library ([SpecFloat]). *)

From Stdlib Require Import Bool Arith Lia List ZArith NArith.
From Stdlib Require Import Strings.Ascii Strings.String.
From Stdlib Require Import Floats.SpecFloat Structures.OrdersEx Structures.OrdersFacts.
From Stdlib Require Import Sorting.Sorted Sorting.Permutation.
Import ListNotations.

Open Scope string_scope.
Open Scope list_scope.

(** ** Python string primitives *)

Module PyStr.

(** [str.isspace] on one character (code points below 256). *)
Definition isspace (c : ascii) : bool :=
  let n := nat_of_ascii c in
  ((9 <=? n)%nat && (n <=? 13)%nat) || ((28 <=? n)%nat && (n <=? 32)%nat)
  || (n =? 133)%nat || (n =? 160)%nat.

Definition is_empty (s : string) : bool :=
  match s with EmptyString => true | String _ _ => false end.

Fixpoint lstrip (s : string) : string :=
  match s with
  | EmptyString => EmptyString
  | String c t => if isspace c then lstrip t else s
  end.

Fixpoint rstrip (s : string) : string :=
  match s with
  | EmptyString => EmptyString
  | String c t =>
      let r := rstrip t in
      if is_empty r && isspace c then EmptyString else String c r
  end.

(** [s.strip()] *)
Definition strip (s : string) : string := rstrip (lstrip s).

(** [s.split()]: maximal runs of non-whitespace characters.  [cur] is
    the word being read. *)
Fixpoint split_go (cur : string) (s : string) : list string :=
  match s with
  | EmptyString => if is_empty cur then [] else [cur]
  | String c t =>
      if isspace c
      then (if is_empty cur then split_go EmptyString t
            else cur :: split_go EmptyString t)
      else split_go (cur ++ String c EmptyString)%string t
  end.

Definition split (s : string) : list string := split_go EmptyString s.

(** [s.startswith(p)] *)
Definition startswith (p s : string) : bool := String.prefix p s.

(** [sub in s] *)
Fixpoint contains (sub s : string) : bool :=
  String.prefix sub s ||
  match s with
  | EmptyString => false
  | String _ t => contains sub t
  end.

Fixpoint drop (n : nat) (s : string) : string :=
  match n, s with
  | O, _ => s
  | S _, EmptyString => EmptyString
  | S n', String _ t => drop n' t
  end.

(** First occurrence of [sep] in [s]: the text before it and the text
    after it. *)
Fixpoint partition (sep s : string) : option (string * string) :=
  if String.prefix sep s then Some (EmptyString, drop (String.length sep) s)
  else match s with
       | EmptyString => None
       | String c t =>
           match partition sep t with
           | Some (a, b) => Some (String c a, b)
           | None => None
           end
       end.

(** [s.split(sep, 1)] *)
Definition split1 (sep s : string) : list string :=
  match partition sep s with
  | Some (a, b) => [a; b]
  | None => [s]
  end.

Definition newline : ascii := ascii_of_nat 10.

(** [text.split('\n')] *)
Fixpoint split_lines (s : string) : list string :=
  match s with
  | EmptyString => [EmptyString]
  | String c t =>
      if Ascii.eqb c newline then EmptyString :: split_lines t
      else match split_lines t with
           | h :: r => String c h :: r
           | [] => [String c EmptyString]
           end
  end.

(** [word in [w1, w2, ...]] *)
Definition mem (w : string) (l : list string) : bool :=
  existsb (String.eqb w) l.

End PyStr.

(** ** Regular expressions, with the backtracking order of Python's [re] *)

Module Re.

Inductive regex : Type :=
| Eps : regex
| Cls : (ascii -> bool) -> regex      (* one character of a class *)
| Cat : regex -> regex -> regex
| Opt : regex -> regex                (* greedy [r?] *)
| Star : regex -> regex               (* greedy [r*] *)
| Grp : regex -> regex                (* the capture group *)
| Eos : regex.                        (* [$] *)

Definition Plus (r : regex) : regex := Cat r (Star r).

Fixpoint Rep (n : nat) (r : regex) : regex :=
  match n with
  | O => Eps
  | S n' => Cat r (Rep n' r)
  end.

(** [r{n,}] *)
Definition AtLeast (n : nat) (r : regex) : regex := Cat (Rep n r) (Star r).

Definition Lit (c : ascii) : regex := Cls (Ascii.eqb c).

Fixpoint Str (s : string) : regex :=
  match s with
  | EmptyString => Eps
  | String c t => Cat (Lit c) (Str t)
  end.

Definition digit (c : ascii) : bool :=
  let n := nat_of_ascii c in (48 <=? n)%nat && (n <=? 57)%nat.

Definition upper (c : ascii) : bool :=
  let n := nat_of_ascii c in (65 <=? n)%nat && (n <=? 90)%nat.

Definition one_of (s : string) (c : ascii) : bool :=
  existsb (Ascii.eqb c) (list_ascii_of_string s).

Section Matcher.
Context {A : Type}.

(** [rmatch r s g k]: match [r] at the head of [s]; [g] is the text
    of the capture group so far, [k] the continuation.  Alternatives
    are tried in the order of a backtracking matcher: greedy
    operators first try one more repetition. *)
Fixpoint rmatch (r : regex) (s : string) (g : option string)
         (k : string -> option string -> option A) {struct r} : option A :=
  match r with
  | Eps => k s g
  | Cls p =>
      match s with
      | String c t => if p c then k t g else None
      | EmptyString => None
      end
  | Cat r1 r2 => rmatch r1 s g (fun s' g' => rmatch r2 s' g' k)
  | Opt r1 =>
      match rmatch r1 s g k with
      | Some x => Some x
      | None => k s g
      end
  | Star r1 =>
      (fix star (n : nat) (s : string) (g : option string) : option A :=
         match n with
         | O => k s g
         | S n' =>
             match rmatch r1 s g
                     (fun s' g' =>
                        if (String.length s' <? String.length s)%nat
                        then star n' s' g' else None) with
             | Some x => Some x
             | None => k s g
             end
         end) (String.length s) s g
  | Grp r1 =>
      rmatch r1 s g
        (fun s' _ =>
           k s' (Some (substring 0 (String.length s - String.length s') s)))
  | Eos =>
      match s with
      | EmptyString => k s g
      | String c EmptyString =>
          if Ascii.eqb c PyStr.newline then k s g else None
      | _ => None
      end
  end.
End Matcher.

(** [re.match(r, s)]: the unread rest and the group's text. *)
Definition re_match (r : regex) (s : string) : option (string * option string) :=
  rmatch r s None (fun s' g => Some (s', g)).

Definition matches (r : regex) (s : string) : bool :=
  match re_match r s with Some _ => true | None => false end.

(** [re.search(r, s)] as a truth value. *)
Fixpoint search (r : regex) (s : string) : bool :=
  matches r s ||
  match s with
  | EmptyString => false
  | String _ t => search r t
  end.

(** [re.findall(r, s)] for a pattern with one group that matches no
    empty text: the group of each match, leftmost first, matches not
    overlapping.  [skip] counts the characters still inside the last
    match. *)
Fixpoint findall_go (r : regex) (skip : nat) (s : string) : list string :=
  match s with
  | EmptyString => []
  | String _ t =>
      match skip with
      | S n => findall_go r n t
      | O =>
          match re_match r s with
          | Some (rest, g) =>
              match g with Some x => x | None => EmptyString end
              :: findall_go r (String.length s - String.length rest - 1) t
          | None => findall_go r 0 t
          end
      end
  end.

Definition findall (r : regex) (s : string) : list string := findall_go r 0 s.

End Re.

Import PyStr Re.

(** ** The patterns of the source *)

(** [^[A-Z]{2,}\d*[HOS]?$] *)
Definition category_re : regex :=
  Cat (AtLeast 2 (Cls upper))
      (Cat (Star (Cls digit)) (Cat (Opt (Cls (one_of "HOS"))) Eos)).

(** [^\d{5} - ] *)
Definition institute_re : regex := Cat (Rep 5 (Cls digit)) (Str " - ").

(** [^\d{10} - ] *)
Definition course_re : regex := Cat (Rep 10 (Cls digit)) (Str " - ").

(** [\(\d+\.\d+\)] *)
Definition paren_decimal_re : regex :=
  Cat (Lit "(") (Cat (Plus (Cls digit))
      (Cat (Lit ".") (Cat (Plus (Cls digit)) (Lit ")")))).

(** [\(([0-9]+\.?[0-9]+)\)] *)
Definition percentile_re : regex :=
  Cat (Lit "(")
      (Cat (Grp (Cat (Plus (Cls digit))
                     (Cat (Opt (Lit ".")) (Plus (Cls digit)))))
           (Lit ")")).

(** ** CategoryCorrector: [fix_category_name] *)

Definition category_fixes : list (string * string) :=
  [ ("SDEFRSEBC", "DEFRSEBCS");
    ("SEWS", "EWS");
    ("SORPHAN", "ORPHAN");
    ("SDEFRSCS", "DEFRSCS");
    ("SDEFROBCS", "DEFROBCS");
    ("SDEFRNT1S", "DEFRNT1S");
    ("SDEFRNT2S", "DEFRNT2S");
    ("SDEFRNT3S", "DEFRNT3S") ].

Fixpoint lookup {V : Type} (k : string) (d : list (string * V)) : option V :=
  match d with
  | [] => None
  | (k', v) :: d' => if String.eqb k k' then Some v else lookup k d'
  end.

Definition fix_category_name (word : string) : string :=
  match lookup word category_fixes with
  | Some fixed => fixed
  | None =>
      if startswith "S" word && (4 <? String.length word)%nat
         && negb (mem word ["STAGE"; "STATE"; "STATUS"])
      then
        let potential_fix := drop 1 word in
        if matches category_re potential_fix then potential_fix else word
      else word
  end.

(** TokenClassifier: the test applied to a corrected word. *)
Definition is_category (w : string) : bool :=
  (matches category_re w && (2 <=? String.length w)%nat) || String.eqb w "EWS".

(** ** Percentile values: Python's [float] on binary64 *)

Module PyFloat.

Definition prec : Z := 53.
Definition emax : Z := 1024.

(** Value of a run of decimal digits, most significant first; [None]
    when a character is not a digit. *)
Fixpoint digits_value (acc : Z) (s : string) : option Z :=
  match s with
  | EmptyString => Some acc
  | String c t =>
      if digit c
      then digits_value (10 * acc + Z.of_nat (nat_of_ascii c - 48)) t
      else None
  end.

(** A plain decimal numeral [ddd], [ddd.ddd], [ddd.] or [.ddd]: its
    digits read as one integer, and the number of digits after the
    point. *)
Definition parse_decimal (s : string) : option (Z * nat) :=
  match partition "." s with
  | None =>
      if is_empty s then None
      else match digits_value 0 s with
           | Some m => Some (m, O)
           | None => None
           end
  | Some (a, b) =>
      if is_empty a && is_empty b then None
      else match digits_value 0 (a ++ b)%string with
           | Some m => Some (m, String.length b)
           | None => None
           end
  end.

(** The binary64 nearest to [m / 10^k] (ties to even). *)
Definition of_decimal (m : Z) (k : nat) : spec_float :=
  match m with
  | Zpos p =>
      SFdiv prec emax (S754_finite false p 0)
            (S754_finite false (Z.to_pos (10 ^ Z.of_nat k)) 0)
  | _ => S754_zero false
  end.

(** [float(p)] on the plain decimal numerals; [None] stands for
    [ValueError].  (Python's [float] also reads signs, exponents and
    special names; the patterns of the source capture none of these.) *)
Definition float (p : string) : option spec_float :=
  match parse_decimal p with
  | Some (m, k) => Some (of_decimal m k)
  | None => None
  end.

(** [float(n)] for a non-negative integer literal. *)
Definition of_int (n : Z) : spec_float := of_decimal n 0.

Definition leb (x y : spec_float) : bool := SFleb x y.

End PyFloat.

(** [0 <= val <= 100] *)
Definition in_range (val : spec_float) : bool :=
  PyFloat.leb (PyFloat.of_int 0) val && PyFloat.leb val (PyFloat.of_int 100).

(** The body shared by both percentile loops:
    [re.findall] on the line, then [float] and the range test; a
    [ValueError] skips the capture. *)
Definition extract_percentiles (line : string) : list spec_float :=
  flat_map (fun p =>
              match PyFloat.float p with
              | Some val => if in_range val then [val] else []
              | None => []
              end)
           (findall percentile_re line).

(** ** Records *)

Record record : Type := mkRecord {
  Institute_Code : string;
  Institute_Name : string;
  Course_Code : string;
  Course : string;
  Category : string;
  Percentile : option spec_float
}.

(** [enumerate(l)] *)
Definition enumerate {X : Type} (l : list X) : list (nat * X) :=
  combine (seq 0 (List.length l)) l.

Section Course.
(** The identifiers of the enclosing institute and course. *)
Variables (institute_code institute_name course_code course_name : string).

(** RecordAssembler: the record-building loop that ends both parsers. *)
Definition make_records (categories : list string)
           (percentiles : list spec_float) : list record :=
  map (fun '(i, category) =>
         let percentile :=
           if (i <? List.length percentiles)%nat
           then nth_error percentiles i else None in
         mkRecord institute_code institute_name course_code course_name
                  category percentile)
      (enumerate categories).

(** The categories read from the words of one line. *)
Definition categories_of (words : list string) : list string :=
  filter is_category (map fix_category_name words).

(** *** SimpleTableParser: [parse_simple_table_course] *)

Definition is_main_header (line : string) : bool :=
  (contains "GOPENS" line || contains "GOPENH" line)
  && (8 <=? List.length (split line))%nat.

(** The two [break] tests of the category-collection loop. *)
Definition is_data_line (next_line : string) : bool :=
  search paren_decimal_re next_line
  || startswith "I " next_line
  || (String.length next_line =? 0)%nat.

Definition is_structural (next_line : string) : bool :=
  startswith "Home" next_line
  || startswith "Other" next_line
  || startswith "State" next_line.

(** The [while j < len(course_section)] loop; [ls] holds the lines
    from index [j] on.  Result: the categories added and
    [data_start_idx] ([None] for the initial [-1]). *)
Fixpoint collect_categories (ls : list string) (j : nat)
  : list string * option nat :=
  match ls with
  | [] => ([], None)
  | l :: rest =>
      let next_line := strip l in
      if is_data_line next_line then ([], Some j)
      else if is_structural next_line then ([], Some j)
      else
        let words :=
          match split next_line with
          | [] => [next_line]
          | ws => ws
          end in
        let '(more, d) := collect_categories rest (j + 1) in
        (categories_of words ++ more, d)
  end.

(** The [for i, line in enumerate(course_section)] loop that looks
    for the main header; [ls] holds the lines from index [i] on. *)
Fixpoint find_header (ls : list string) (i : nat)
  : list string * option nat :=
  match ls with
  | [] => ([], None)
  | l :: rest =>
      let line := strip l in
      if is_main_header line then
        let '(more, d) := collect_categories rest (i + 1) in
        (categories_of (split line) ++ more, d)
      else find_header rest (i + 1)
  end.

(** The stop test of the percentile loop, applied after extraction. *)
Definition is_percentile_stop (line : string) : bool :=
  is_empty line
  || startswith "Home University" line
  || startswith "Other Than" line
  || startswith "State" line
  || contains "Stage" line.

(** [for i in range(data_start_idx, len(course_section))]; [ls] holds
    the lines from [data_start_idx] on. *)
Fixpoint simple_percentiles (ls : list string) : list spec_float :=
  match ls with
  | [] => []
  | l :: rest =>
      let line := strip l in
      let found := extract_percentiles line in
      if is_percentile_stop line then found
      else found ++ simple_percentiles rest
  end.

Definition parse_simple_table_course (course_section : list string)
  : list record :=
  let '(all_categories, data_start_idx) := find_header course_section 0 in
  match all_categories with
  | [] => []
  | _ =>
      let percentiles :=
        match data_start_idx with
        | Some d => simple_percentiles (skipn d course_section)
        | None => []
        end in
      make_records all_categories percentiles
  end.

End Course.

(** ** MultiSectionParser: [parse_multi_section_course] *)

Section MultiSection.
Variables (institute_code institute_name course_code course_name : string).

(** The test that opens a section. *)
Definition is_section_header (line : string) : bool :=
  contains "Home University Seats Allotted to Home University" line
  || contains "Home University Seats Allotted to Other Than Home University" line
  || contains "Other Than Home University Seats Allotted to Other Than Home University" line
  || String.eqb line "State Level".

(** The [break] test of the category loop of a section. *)
Definition is_category_stop (cat_line : string) : bool :=
  startswith "I " cat_line
  || search paren_decimal_re cat_line
  || contains "Home University Seats Allotted" cat_line
  || String.eqb cat_line "State Level"
  || contains "Other Than Home University Seats Allotted" cat_line
  || contains "Legends:" cat_line.

(** The [break] test of the data loop of a section. *)
Definition is_data_stop (data_line : string) : bool :=
  contains "Stage" data_line
  || contains "Home University Seats Allotted" data_line
  || String.eqb data_line "State Level"
  || contains "Other Than Home University Seats Allotted" data_line
  || contains "Legends:" data_line.

(** First inner loop; [ls] holds the lines from index [j] on.
    Result: the final [j] and [section_categories]. *)
Fixpoint section_categories (ls : list string) (j : nat)
  : nat * list string :=
  match ls with
  | [] => (j, [])
  | l :: rest =>
      let cat_line := strip l in
      if is_category_stop cat_line then (j, [])
      else
        let here :=
          if is_empty cat_line then []
          else categories_of (split cat_line) in
        let '(j', more) := section_categories rest (j + 1) in
        (j', here ++ more)
  end.

(** Second inner loop; [ls] holds the lines from index [j] on.
    Result: the final [j] and [section_percentiles]. *)
Fixpoint section_percentiles (ls : list string) (j : nat)
  : nat * list spec_float :=
  match ls with
  | [] => (j, [])
  | l :: rest =>
      let data_line := strip l in
      let found := extract_percentiles data_line in
      if is_data_stop data_line then (j, found)
      else
        let '(j', more) := section_percentiles rest (j + 1) in
        (j', found ++ more)
  end.

(** The body of the outer loop for a section opened at line [i]:
    the value of [j] assigned to [i] at its end, and the section's
    records. *)
Definition section_at (course_section : list string) (i : nat)
  : nat * list record :=
  let '(j, cats) :=
    section_categories (skipn (i + 1) course_section) (i + 1) in
  let '(j', pcts) := section_percentiles (skipn j course_section) j in
  (j', make_records institute_code institute_name course_code course_name
                    cats pcts).

(** The outer [while i < len(course_section)] loop.  [fuel] bounds
    the number of iterations; [None] means the bound was reached
    before the loop ended. *)
Fixpoint multi_loop (fuel : nat) (course_section : list string) (i : nat)
         (records : list record) : option (list record) :=
  match fuel with
  | O => None
  | S fuel' =>
      if (i <? List.length course_section)%nat then
        let line := strip (nth i course_section EmptyString) in
        if is_section_header line then
          let '(j, recs) := section_at course_section i in
          multi_loop fuel' course_section j (records ++ recs)
        else multi_loop fuel' course_section (i + 1) records
      else Some records
  end.

Definition parse_multi_section_course (course_section : list string)
  : option (list record) :=
  multi_loop (S (List.length course_section)) course_section 0 [].

(** Ghost trace of the outer loop: the line indices at which a
    section is opened, in order. *)
Fixpoint opened_sections (fuel : nat) (course_section : list string)
         (i : nat) : list nat :=
  match fuel with
  | O => []
  | S fuel' =>
      if (i <? List.length course_section)%nat then
        let line := strip (nth i course_section EmptyString) in
        if is_section_header line then
          i :: opened_sections fuel' course_section
                 (fst (section_at course_section i))
        else opened_sections fuel' course_section (i + 1)
      else []
  end.

End MultiSection.

(** ** BlockLocator and LayoutClassifier: [parse_cutoff_page_complete] *)

(** [d[k] = v] on a dictionary kept as an association list. *)
Fixpoint dict_set {V : Type} (k : string) (v : V) (d : list (string * V))
  : list (string * V) :=
  match d with
  | [] => [(k, v)]
  | (k', v') :: d' =>
      if String.eqb k k' then (k, v) :: d' else (k', v') :: dict_set k v d'
  end.

(** [parts[0]] and [parts[1] if len(parts) > 1 else ""] of
    [line.split(' - ', 1)]. *)
Definition code_and_name (line : string) : string * string :=
  let parts := split1 " - " line in
  (nth 0 parts EmptyString,
   if (1 <? List.length parts)%nat then nth 1 parts EmptyString
   else EmptyString).

(** The institute loop: the first stripped line that matches, split
    into code and name; [None] when [institute_code] stays [None]. *)
Fixpoint find_institute (lines : list string) : option (string * string) :=
  match lines with
  | [] => None
  | l :: rest =>
      let line := strip l in
      if matches institute_re line then Some (code_and_name line)
      else find_institute rest
  end.

(** The course loop: [courses] and [course_positions] after the lines
    [ls], which start at index [i]. *)
Fixpoint find_courses (ls : list string) (i : nat)
         (courses : list (string * string))
         (course_positions : list (string * nat))
  : list (string * string) * list (string * nat) :=
  match ls with
  | [] => (courses, course_positions)
  | l :: rest =>
      let line := strip l in
      if matches course_re line then
        let '(course_code, course_name) := code_and_name line in
        find_courses rest (i + 1) (courses ++ [(course_code, course_name)])
                     (dict_set course_code i course_positions)
      else find_courses rest (i + 1) courses course_positions
  end.

(** [lines[a:b]] *)
Definition slice {X : Type} (l : list X) (a b : nat) : list X :=
  firstn (b - a) (skipn a l).

Section Page.
Variables (lines : list string) (institute_code institute_name : string).
Variables (courses : list (string * string))
          (course_positions : list (string * nat)).

(** [course_start] and [course_end] of the course at [course_idx];
    [None] stands for [KeyError]. *)
Definition course_range (course_idx : nat) (course_code : string)
  : option (nat * nat) :=
  match lookup course_code course_positions with
  | None => None
  | Some course_start =>
      if (course_idx + 1 <? List.length courses)%nat then
        match nth_error courses (course_idx + 1) with
        | Some (next_course_code, _) =>
            match lookup next_course_code course_positions with
            | Some course_end => Some (course_start, course_end)
            | None => None
            end
        | None => None
        end
      else Some (course_start, List.length lines)
  end.

Definition has_sections (course_section : list string) : bool :=
  existsb (contains "Home University Seats Allotted") course_section.

(** The loop over [enumerate(courses)]; [None] when an iteration
    does not complete. *)
Fixpoint process_courses (todo : list (nat * (string * string)))
         (records : list record) : option (list record) :=
  match todo with
  | [] => Some records
  | (course_idx, (course_code, course_name)) :: rest =>
      match course_range course_idx course_code with
      | None => None
      | Some (course_start, course_end) =>
          let course_section := slice lines course_start course_end in
          let parsed :=
            if has_sections course_section then
              parse_multi_section_course institute_code institute_name
                course_code course_name course_section
            else
              Some (parse_simple_table_course institute_code institute_name
                      course_code course_name course_section) in
          match parsed with
          | Some recs => process_courses rest (records ++ recs)
          | None => None
          end
      end
  end.
End Page.

Definition parse_cutoff_page_complete (text : string) : option (list record) :=
  let lines := split_lines text in
  match find_institute lines with
  | None => Some []
  | Some (institute_code, institute_name) =>
      if is_empty institute_code then Some []
      else
        let '(courses, course_positions) := find_courses lines 0 [] [] in
        match courses with
        | [] => Some []
        | _ =>
            process_courses lines institute_code institute_name
                            courses course_positions (enumerate courses) []
        end
  end.

(** ** DocumentOrchestrator: the record pipeline of [full_conversion]

    The page texts come from the PDF reader, and the data frame
    operations from pandas; both are outside the repository.
    [drop_duplicates] keeps the first of equal rows (a missing
    percentile equals a missing percentile), [sort_values] is the
    stable ascending sort on the listed columns, strings compared code
    point by code point. *)

Definition sf_eqb (x y : spec_float) : bool :=
  match x, y with
  | S754_zero a, S754_zero b => Bool.eqb a b
  | S754_infinity a, S754_infinity b => Bool.eqb a b
  | S754_nan, S754_nan => true
  | S754_finite a m e, S754_finite b n f =>
      Bool.eqb a b && Pos.eqb m n && Z.eqb e f
  | _, _ => false
  end.

Definition percentile_eqb (x y : option spec_float) : bool :=
  match x, y with
  | Some a, Some b => sf_eqb a b
  | None, None => true
  | _, _ => false
  end.

Definition record_eqb (a b : record) : bool :=
  String.eqb (Institute_Code a) (Institute_Code b)
  && String.eqb (Institute_Name a) (Institute_Name b)
  && String.eqb (Course_Code a) (Course_Code b)
  && String.eqb (Course a) (Course b)
  && String.eqb (Category a) (Category b)
  && percentile_eqb (Percentile a) (Percentile b).

(** [df.drop_duplicates()]; [seen] holds the rows kept so far. *)
Fixpoint drop_duplicates_go (seen : list record) (rows : list record)
  : list record :=
  match rows with
  | [] => []
  | r :: rest =>
      if existsb (record_eqb r) seen then drop_duplicates_go seen rest
      else r :: drop_duplicates_go (r :: seen) rest
  end.

Definition drop_duplicates (rows : list record) : list record :=
  drop_duplicates_go [] rows.

Definition sort_key (r : record) : string * string * string :=
  (Institute_Code r, Course_Code r, Category r).

(** Lexicographic comparison of two keys. *)
Definition key_compare (a b : string * string * string) : comparison :=
  let '(a1, a2, a3) := a in
  let '(b1, b2, b3) := b in
  match String_as_OT.compare a1 b1 with
  | Eq =>
      match String_as_OT.compare a2 b2 with
      | Eq => String_as_OT.compare a3 b3
      | c => c
      end
  | c => c
  end.

Definition key_lt (a b : record) : Prop :=
  key_compare (sort_key a) (sort_key b) = Lt.

Definition key_leb (a b : record) : bool :=
  match key_compare (sort_key a) (sort_key b) with
  | Gt => false
  | _ => true
  end.

(** Rows in ascending order of their keys. *)
Definition key_sorted : list record -> Prop :=
  StronglySorted (fun a b => key_leb a b = true).

(** Stable insertion: [r] goes before the first row with a greater key. *)
Fixpoint insert_row (r : record) (sorted : list record) : list record :=
  match sorted with
  | [] => [r]
  | x :: rest =>
      if key_leb x r then x :: insert_row r rest else r :: x :: rest
  end.

(** [df.sort_values(['Institute_Code', 'Course_Code', 'Category'])] *)
Definition sort_values (rows : list record) : list record :=
  fold_left (fun sorted r => insert_row r sorted) rows [].

(** The rows written to the CSV file. *)
Definition final_dataset (all_records : list record) : list record :=
  sort_values (drop_duplicates all_records).

(** The page loop: short pages are skipped, a page whose parse does
    not complete contributes nothing. *)
Fixpoint collect_pages (pages : list string) : list record :=
  match pages with
  | [] => []
  | text :: rest =>
      if is_empty text || (String.length (strip text) <? 50)%nat
      then collect_pages rest
      else match parse_cutoff_page_complete text with
           | Some records => records ++ collect_pages rest
           | None => collect_pages rest
           end
  end.

(** [full_conversion]: the data set written, [None] when no record was
    found (the function then returns [False] and writes nothing). *)
Definition full_conversion (pages : list string) : option (list record) :=
  match collect_pages pages with
  | [] => None
  | all_records => Some (final_dataset all_records)
  end.

(** ** Auxiliary definitions for the statements *)

(** ["\n".join(lines)] *)
Definition unlines (ls : list string) : string :=
  String.concat (String newline EmptyString) ls.

(** The Python float literal written [s]. *)
Definition pyfloat (s : string) : spec_float :=
  match PyFloat.float s with
  | Some v => v
  | None => S754_nan
  end.

(** The lines of [ls] up to and including the first one, after
    stripping, on which [stop] holds. *)
Fixpoint scanned_lines (stop : string -> bool) (ls : list string)
  : list string :=
  match ls with
  | [] => []
  | l :: rest =>
      if stop (strip l) then [strip l]
      else strip l :: scanned_lines stop rest
  end.

(** The captures of the pattern [re] on a line that read as a number
    within [[0, 100]], as numbers. *)
Definition captured_in_range (re : regex) (line : string) : list spec_float :=
  filter in_range
    (flat_map (fun p => match PyFloat.float p with
                        | Some v => [v]
                        | None => []
                        end)
              (findall re line)).

(** The pattern of the specification's percentile phase: as
    [percentile_re], but the digits after the optional point may be
    missing (a final [[0-9]] starred, not plussed). *)
Definition spec_percentile_re : regex :=
  Cat (Lit "(")
      (Cat (Grp (Cat (Plus (Cls digit))
                     (Cat (Opt (Lit ".")) (Star (Cls digit)))))
           (Lit ")")).

(** The four section markers. *)
Definition section_markers : list string :=
  [ "Home University Seats Allotted to Home University";
    "Home University Seats Allotted to Other Than Home University";
    "Other Than Home University Seats Allotted to Other Than Home University";
    "State Level" ].

(** The cursor of the outer loop of [parse_multi_section_course] after
    the iteration that starts at [i]. *)
Definition next_cursor (course_section : list string) (i : nat) : nat :=
  if is_section_header (strip (nth i course_section EmptyString))
  then fst (section_at EmptyString EmptyString EmptyString EmptyString
                       course_section i)
  else i + 1.

(** The indices of the course header lines among [ls], which start at
    index [i]. *)
Fixpoint header_positions (ls : list string) (i : nat) : list nat :=
  match ls with
  | [] => []
  | l :: rest =>
      if matches course_re (strip l) then i :: header_positions rest (i + 1)
      else header_positions rest (i + 1)
  end.

(** The code and name of each course header line among [ls], in
    document order. *)
Fixpoint header_courses (ls : list string) : list (string * string) :=
  match ls with
  | [] => []
  | l :: rest =>
      if matches course_re (strip l)
      then code_and_name (strip l) :: header_courses rest
      else header_courses rest
  end.

(** A run of assignments [d[k] = v], left to right. *)
Definition set_all {V : Type} (kvs : list (string * V)) (d : list (string * V))
  : list (string * V) :=
  fold_left (fun d kv => dict_set (fst kv) (snd kv) d) kvs d.

(** ** Pages and blocks used in the statements *)

(** The four-line block of the specification's end-to-end example. *)
Definition example_page : string :=
  unlines [ "12345 - ABC College Of Engineering";
            "1234567890 - Computer Engineering";
            "GOPENS GOPENH GSCS GSTS";
            "I 99.99 (99.99) 95.00 (95.00) 90.00 (90.00) 85.00 (85.00)" ].

(** The same block with eight categories and eight values. *)
Definition example_page8 : string :=
  unlines [ "12345 - ABC College Of Engineering";
            "1234567890 - Computer Engineering";
            "GOPENS GOPENH GSCS GSTS GVJS GNT1S GNT2S GOBCS";
            "I 99.99 (99.99) 95.00 (95.00) 90.00 (90.00) 85.00 (85.00) 80.00 (80.00) 75.00 (75.00) 70.00 (70.00) 65.00 (65.00)" ].

(** A page with a course and its table, but no institute line. *)
Definition headless_page : string :=
  unlines [ "1234567890 - Computer Engineering";
            "GOPENS GOPENH GSCS GSTS GVJS GNT1S GNT2S GOBCS";
            "I 99.99 (99.99) 95.00 (95.00)" ].

(** A simple-layout block whose data line holds a one-digit value and
    a value with a trailing point. *)
Definition short_values_block : list string :=
  [ "1234567890 - Computer Engineering";
    "GOPENS GOPENH GSCS GSTS GVJS GNT1S GNT2S GOBCS";
    "I 9 (9) 99 (99.)" ].

(** A simple-layout block whose category scan meets no stopping line:
    the values stand without a decimal point and without the row
    marker. *)
Definition unstopped_block : list string :=
  [ "1234567890 - Computer Engineering";
    "GOPENS GOPENH GSCS GSTS GVJS GNT1S GNT2S GOBCS";
    "(95) (90)";
    "(85)" ].

(** A multi-section block whose first line holds a section marker
    after other text. *)
Definition labelled_block : list string :=
  [ "Seat Type: Home University Seats Allotted to Home University";
    "GOPENS";
    "I 1 (90.5)" ].

(** A page with two sections that both list GOPENS. *)
Definition two_section_page : string :=
  unlines [ "12345 - ABC College Of Engineering";
            "1234567890 - Computer Engineering";
            "Home University Seats Allotted to Home University";
            "GOPENS GSCS";
            "I 1 (90.5) 2 (80.25)";
            "State Level";
            "GOPENS";
            "I 3 (70.5)";
            "Legends: Starting character G-General" ].

(** A page on which the same course code heads two tables. *)
Definition repeated_course_page : string :=
  unlines [ "12345 - ABC College Of Engineering";
            "1234567890 - Computer Engineering";
            "GOPENS GOPENH GSCS GSTS GVJS GNT1S GNT2S GOBCS";
            "I 1 (99.99) 2 (95.00)";
            "1234567890 - Computer Engineering";
            "GOPENS GOPENH GSCS GSTS GVJS GNT1S GNT2S GOBCS";
            "I 1 (90.00)" ].

(** The same page with the second table under another course code. *)
Definition distinct_course_page : string :=
  unlines [ "12345 - ABC College Of Engineering";
            "1234567890 - Computer Engineering";
            "GOPENS GOPENH GSCS GSTS GVJS GNT1S GNT2S GOBCS";
            "I 1 (99.99) 2 (95.00)";
            "1234567891 - Computer Engineering";
            "GOPENS GOPENH GSCS GSTS GVJS GNT1S GNT2S GOBCS";
            "I 1 (90.00)" ].

(** The lexicographic order on keys, from the standard library's
    ordered types. *)
Module StringPair := PairOrderedType String_as_OT String_as_OT.
Module Key := PairOrderedType StringPair String_as_OT.
Module KeyFacts := OrderedTypeFacts Key.

(** ** Further definitions for the statements *)

(** Every character of [s] is in the class [p]. *)
Fixpoint all_chars (p : ascii -> bool) (s : string) : bool :=
  match s with
  | EmptyString => true
  | String c t => p c && all_chars p t
  end.

(** The words a corrected category may keep after its digits: nothing,
    or one of H, O, S. *)
Definition category_suffixes : list string := [""; "H"; "O"; "S"].

(** A percentile field is absent or holds a value within [[0, 100]]. *)
Definition percentile_ok (p : option spec_float) : bool :=
  match p with
  | None => true
  | Some v => in_range v
  end.

(** A record of the given institute whose course is among [courses],
    with a valid category and percentile. *)
Definition page_record (ic iname : string) (courses : list (string * string))
           (r : record) : Prop :=
  Institute_Code r = ic
  /\ Institute_Name r = iname
  /\ In (Course_Code r, Course r) courses
  /\ is_category (Category r) = true
  /\ percentile_ok (Percentile r) = true.

(** The records of one course block: the branch on [has_sections] in
    the course loop of [parse_cutoff_page_complete]. *)
Definition block_records (ic iname code name : string)
           (course_section : list string) : list record :=
  if has_sections course_section then
    match parse_multi_section_course ic iname code name course_section with
    | Some recs => recs
    | None => []
    end
  else parse_simple_table_course ic iname code name course_section.

(** A simple table under a line that holds the layout marker but not a
    whole section marker. *)
Definition truncated_marker_block : list string :=
  [ "1234567890 - Computer Engineering";
    "Home University Seats Allotted";
    "GOPENS GOPENH GSCS GSTS GVJS GNT1S GNT2S GOBCS";
    "I 1 (99.99) 2 (95.00)" ].

(** ** The page loop of [full_conversion] with its diagnostics *)

(** What reading page [page_num] gives: the extracted text, or an
    exception of the PDF reader with its message. *)
Inductive page_source : Type :=
| PageText (text : string)
| PageRaises (message : string).

(** The reasons stored in [failed_pages]: "Empty or too short page
    content", "No records extracted", and "Exception: ..." with the
    message of the exception. *)
Inductive failure : Type :=
| TooShort
| NoRecords
| Raised (message : string).

(** The three accumulators of the loop; [page_stats] holds the pairs
    of the keys [page] and [records]. *)
Record scan : Type := mkScan {
  all_records : list record;
  failed_pages : list (nat * failure);
  page_stats : list (nat * nat)
}.

(** One iteration of [for page_num in range(pages_to_process)]. *)
Definition scan_page (page_num : nat) (p : page_source) (st : scan) : scan :=
  match p with
  | PageRaises message =>
      mkScan (all_records st)
             (failed_pages st ++ [(page_num + 1, Raised message)])
             (page_stats st)
  | PageText text =>
      if is_empty text || (String.length (strip text) <? 50)%nat then
        mkScan (all_records st)
               (failed_pages st ++ [(page_num + 1, TooShort)])
               (page_stats st)
      else
        match parse_cutoff_page_complete text with
        | Some records =>
            mkScan (all_records st ++ records)
                   (if (List.length records =? 0)%nat
                    then failed_pages st ++ [(page_num + 1, NoRecords)]
                    else failed_pages st)
                   (page_stats st ++ [(page_num + 1, List.length records)])
        | None =>
            mkScan (all_records st)
                   (failed_pages st ++ [(page_num + 1, Raised EmptyString)])
                   (page_stats st)
        end
  end.

Fixpoint scan_pages (pages : list page_source) (page_num : nat) (st : scan)
  : scan :=
  match pages with
  | [] => st
  | p :: rest => scan_pages rest (page_num + 1) (scan_page page_num p st)
  end.

(** [min(max_pages, total_pages)], with [max_pages = None] read as
    [total_pages]; a negative bound gives an empty range. *)
Definition pages_to_process (max_pages : option Z) (total_pages : nat) : nat :=
  match max_pages with
  | None => total_pages
  | Some m => Z.to_nat (Z.min m (Z.of_nat total_pages))
  end.

(** The state of [full_conversion] after its page loop. *)
Definition full_conversion_scan (pages : list page_source)
           (max_pages : option Z) : scan :=
  scan_pages (firstn (pages_to_process max_pages (List.length pages)) pages)
             0 (mkScan [] [] []).

(** [successful_pages]: the entries of [page_stats] with records. *)
Definition successful_pages (st : scan) : nat :=
  List.length (filter (fun p => (0 <? snd p)%nat) (page_stats st)).

(** [sum(total_records_per_page)] *)
Definition total_records_per_page (st : scan) : nat :=
  fold_right Nat.add 0 (map snd (page_stats st)).

(** A row as the data set admits it: a five-digit institute code, a
    ten-digit course code, a category that passes the category test
    and a percentile that is absent or within [[0, 100]]. *)
Definition row_ok (r : record) : Prop :=
  String.length (Institute_Code r) = 5
  /\ all_chars digit (Institute_Code r) = true
  /\ String.length (Course_Code r) = 10
  /\ all_chars digit (Course_Code r) = true
  /\ is_category (Category r) = true
  /\ percentile_ok (Percentile r) = true.

(** A simple table whose header is followed by a blank line. *)
Definition blank_after_header_block : list string :=
  [ "1234567890 - Computer Engineering";
    "GOPENS GOPENH GSCS GSTS GVJS GNT1S GNT2S GOBCS";
    "   ";
    "I 1 (99.99) 2 (95.00)" ].

(** ** The lookup tool: [predict] of [app.py]

    The data frame [df] is loaded once from a CSV file; the rows kept
    have a course and a percentile that is a number.  [predict] reads
    three columns only, so a row is any value with these three
    columns; the category of a row may be missing.  The comparisons
    and the arithmetic are those of binary64. *)

Module App.

(** [x - y], [x + y] and [abs(x)] on floats. *)
Definition fsub (x y : spec_float) : spec_float :=
  SFsub PyFloat.prec PyFloat.emax x y.
Definition fadd (x y : spec_float) : spec_float :=
  SFadd PyFloat.prec PyFloat.emax x y.
Definition fabs (x : spec_float) : spec_float := SFabs x.

Definition is_nan (x : spec_float) : bool :=
  match x with S754_nan => true | _ => false end.

(** The order of [sort_values] on a float column: ascending, missing
    values last. *)
Definition difference_leb (a b : spec_float) : bool :=
  if is_nan b then true
  else if is_nan a then false
  else SFleb a b.

Section Predict.
Variable Row : Type.
Variables (Course_of : Row -> string) (Category_of : Row -> option string)
          (Percentile_of : Row -> spec_float).

(** [(df['Course'] == user_branch) & (df['Category'] == user_category)] *)
Definition matches_request (user_category user_branch : string) (r : Row)
  : bool :=
  String.eqb (Course_of r) user_branch
  && match Category_of r with
     | Some c => String.eqb c user_category
     | None => false
     end.

(** [(Percentile >= user_percentile - 5) & (Percentile <= user_percentile + 5)] *)
Definition in_window (user_percentile : spec_float) (r : Row) : bool :=
  SFleb (fsub user_percentile (PyFloat.of_int 5)) (Percentile_of r)
  && SFleb (Percentile_of r) (fadd user_percentile (PyFloat.of_int 5)).

(** The column [Difference]. *)
Definition difference (user_percentile : spec_float) (r : Row) : spec_float :=
  fabs (fsub (Percentile_of r) user_percentile).

(** Insertion of a row with its difference; rows with equal
    differences keep the order of the data frame (pandas leaves their
    order open). *)
Fixpoint insert_by_difference (x : Row * spec_float)
         (sorted : list (Row * spec_float)) : list (Row * spec_float) :=
  match sorted with
  | [] => [x]
  | y :: rest =>
      if difference_leb (snd y) (snd x)
      then y :: insert_by_difference x rest
      else x :: y :: rest
  end.

(** [result_df.sort_values(by='Difference')] *)
Definition sort_by_difference (rows : list (Row * spec_float))
  : list (Row * spec_float) :=
  fold_left (fun sorted x => insert_by_difference x sorted) rows [].

(** [predict]: the rows handed to the results page, each with its
    difference. *)
Definition predict (df : list Row) (user_percentile : spec_float)
           (user_category user_branch : string) : list (Row * spec_float) :=
  let filtered_df := filter (matches_request user_category user_branch) df in
  let result_df := filter (in_window user_percentile) filtered_df in
  sort_by_difference
    (map (fun r => (r, difference user_percentile r)) result_df).

End Predict.
End App.

(** A small data set for the lookup tool, read as rows of [record]
    with a percentile in every row. *)
Definition sample_rows : list record :=
  [ mkRecord "12345" "ABC" "1234567890" "Computer Engineering" "GOPENS"
             (Some (pyfloat "99.99"));
    mkRecord "12346" "DEF" "1234600000" "Computer Engineering" "GOPENS"
             (Some (pyfloat "93.5"));
    mkRecord "12347" "GHI" "1234700000" "Computer Engineering" "GSCS"
             (Some (pyfloat "95.0"));
    mkRecord "12348" "JKL" "1234800000" "Civil Engineering" "GOPENS"
             (Some (pyfloat "95.0"));
    mkRecord "12349" "MNO" "1234900000" "Computer Engineering" "GOPENS"
             (Some (pyfloat "89.99"));
    mkRecord "12350" "PQR" "1235000000" "Computer Engineering" "GOPENS"
             (Some (pyfloat "96.0")) ].

Definition percentile_of (r : record) : spec_float :=
  match Percentile r with
  | Some v => v
  | None => S754_nan
  end.

Definition sample_predict (user_percentile : spec_float)
           (user_category user_branch : string) : list (record * spec_float) :=
  App.predict record Course (fun r => Some (Category r)) percentile_of
              sample_rows user_percentile user_category user_branch.

(** * Properties *)

(** ** Sanity checks of the primitives *)

Example strip_ex : strip "  a b  " = "a b" /\ split "  a  b c " = ["a"; "b"; "c"].
Proof. split; reflexivity. Qed.

Example split1_ex :
  code_and_name "12345 - A - B" = ("12345", "A - B")
  /\ code_and_name "12345" = ("12345", "").
Proof. split; reflexivity. Qed.

Example split_lines_ex : split_lines (unlines ["a"; ""; "b"]) = ["a"; ""; "b"].
Proof. reflexivity. Qed.

Example fix_table_ex :
  map fix_category_name (map fst category_fixes) = map snd category_fixes.
Proof. reflexivity. Qed.

Example fix_excluded_ex :
  map fix_category_name ["STATE"; "STAGE"; "STATUS"; "SGOPENS"; "GOPENS"]
  = ["STATE"; "STAGE"; "STATUS"; "GOPENS"; "GOPENS"].
Proof. reflexivity. Qed.

Example is_category_ex :
  map is_category
      ["EWS"; "GOPENS"; "GSCS"; "DEFRSEBCS"; "GNT1S"; "state"; "123"; ""; "G"]
  = [true; true; true; true; true; false; false; false; false].
Proof. reflexivity. Qed.

Example findall_ex :
  findall percentile_re "I 99.99 (99.99) 95 (95.00)(9)(99.)(100)(1.2.3)((7.5)"
  = ["99.99"; "95.00"; "100"; "7.5"].
Proof. reflexivity. Qed.

Example float_ex :
  PyFloat.float "99.99" = Some (S754_finite false 7036170730324623 (-46))
  /\ PyFloat.float "100" = Some (S754_finite false 7036874417766400 (-46))
  /\ PyFloat.float "0.0" = Some (S754_zero false)
  /\ PyFloat.float "1.2.3" = None.
Proof. repeat split; reflexivity. Qed.

(** ** CategoryCorrector *)

Lemma prefix_cons (a b : ascii) (p s : string) :
  String.prefix (String a p) (String b s) = Ascii.eqb a b && String.prefix p s.
Proof.
  cbn [String.prefix].
  destruct (ascii_dec a b) as [-> | n].
  - rewrite Ascii.eqb_refl. reflexivity.
  - apply Ascii.eqb_neq in n. rewrite n. reflexivity.
Qed.

Lemma prefix_nil (s : string) : String.prefix EmptyString s = true.
Proof. destruct s; reflexivity. Qed.

Lemma startswith_S_cons (c : ascii) (t : string) :
  startswith "S" (String c t) = Ascii.eqb c "S".
Proof.
  unfold startswith. rewrite prefix_cons, prefix_nil, Ascii.eqb_sym.
  apply andb_true_r.
Qed.

Lemma lookup_fixes_no_S (t : string) :
  startswith "S" t = false -> lookup t category_fixes = None.
Proof.
  destruct t as [| c t]; [reflexivity |].
  rewrite startswith_S_cons. intros H.
  simpl. rewrite H. reflexivity.
Qed.

Lemma fix_no_S (t : string) :
  startswith "S" t = false -> fix_category_name t = t.
Proof.
  intros H. unfold fix_category_name.
  rewrite (lookup_fixes_no_S t H), H. reflexivity.
Qed.

Lemma lookup_fixes_fixed (w v : string) :
  lookup w category_fixes = Some v -> fix_category_name v = v.
Proof.
  unfold category_fixes, lookup.
  repeat (destruct (String.eqb w _);
          [ intros [= <-]; reflexivity | ]).
  discriminate.
Qed.

(** The three ways [fix_category_name] returns. *)
Lemma fix_cases (w : string) :
  (exists v, lookup w category_fixes = Some v /\ fix_category_name w = v)
  \/ (startswith "S" w = true /\ fix_category_name w = drop 1 w)
  \/ fix_category_name w = w.
Proof.
  unfold fix_category_name.
  destruct (lookup w category_fixes) as [v |] eqn:E.
  - left. exists v. split; reflexivity.
  - destruct (startswith "S" w) eqn:HS; cbn [andb].
    + destruct ((4 <? String.length w)%nat
                && negb (mem w ["STAGE"; "STATE"; "STATUS"])).
      * destruct (matches category_re (drop 1 w)).
        -- right; left. split; reflexivity.
        -- right; right. reflexivity.
      * right; right. reflexivity.
    + right; right. reflexivity.
Qed.

(** C4 (as stated, refuted): the token [SSEWS] is corrected to [SEWS],
    and correcting [SEWS] again gives [EWS]; the corrector is not
    idempotent. *)
Lemma fix_category_name_not_idempotent :
  ~ (forall w, fix_category_name (fix_category_name w) = fix_category_name w).
Proof.
  intros H. specialize (H "SSEWS"). vm_compute in H. discriminate H.
Qed.

(** C4 (amended): on every token that does not begin with two letters
    [S], correcting twice gives the same token as correcting once. *)
Theorem fix_category_name_idempotent_no_SS (w : string) :
  startswith "SS" w = false ->
  fix_category_name (fix_category_name w) = fix_category_name w.
Proof.
  intros HSS.
  destruct (fix_cases w) as [[v [Hl Hv]] | [[HS Hd] | Hw]].
  - rewrite Hv. exact (lookup_fixes_fixed w v Hl).
  - rewrite Hd. apply fix_no_S.
    destruct w as [| c t]; [discriminate HS |].
    rewrite startswith_S_cons in HS. apply Ascii.eqb_eq in HS. subst c.
    unfold startswith in HSS. rewrite prefix_cons in HSS.
    exact HSS.
  - rewrite Hw. exact Hw.
Qed.

Lemma fix_category_name_idempotent_no_SS_witness :
  startswith "SS" "SGOPENS" = false
  /\ fix_category_name (fix_category_name "SGOPENS") = fix_category_name "SGOPENS".
Proof.
  split; [reflexivity |].
  apply (fix_category_name_idempotent_no_SS "SGOPENS"). reflexivity.
Defined.

(** ** RecordAssembler *)

Lemma nth_error_combine_seq {X : Type} (l : list X) (a i : nat) :
  nth_error (combine (seq a (List.length l)) l) i
  = option_map (pair (a + i)) (nth_error l i).
Proof.
  revert a i. induction l as [| x l IH]; intros a i.
  - destruct i; reflexivity.
  - destruct i as [| i]; simpl.
    + rewrite Nat.add_0_r. reflexivity.
    + rewrite IH. rewrite Nat.add_succ_r. reflexivity.
Qed.

Lemma nth_error_enumerate {X : Type} (l : list X) (i : nat) :
  nth_error (enumerate l) i = option_map (pair i) (nth_error l i).
Proof. unfold enumerate. apply nth_error_combine_seq. Qed.

Lemma length_enumerate {X : Type} (l : list X) :
  List.length (enumerate l) = List.length l.
Proof.
  unfold enumerate. rewrite length_combine, length_seq. apply Nat.min_id.
Qed.

Section Assembler.
Variables (ic iname cc cname : string).

Lemma length_make_records (C : list string) (P : list spec_float) :
  List.length (make_records ic iname cc cname C P) = List.length C.
Proof. unfold make_records. rewrite length_map. apply length_enumerate. Qed.

Lemma nth_error_make_records (C : list string) (P : list spec_float) (i : nat) :
  nth_error (make_records ic iname cc cname C P) i
  = option_map (fun c => mkRecord ic iname cc cname c (nth_error P i))
               (nth_error C i).
Proof.
  unfold make_records.
  rewrite nth_error_map, nth_error_enumerate.
  destruct (nth_error C i) as [c |]; simpl; [| reflexivity].
  destruct (i <? List.length P)%nat eqn:E; [reflexivity |].
  apply Nat.ltb_ge in E. apply nth_error_None in E. rewrite E. reflexivity.
Qed.

Lemma make_records_percentile_of (C : list string) (P : list spec_float) :
  forall r, In r (make_records ic iname cc cname C P) ->
            exists i, nth_error C i = Some (Category r)
                      /\ Percentile r = nth_error P i.
Proof.
  intros r Hr. apply In_nth_error in Hr. destruct Hr as [i Hi].
  rewrite nth_error_make_records in Hi.
  destruct (nth_error C i) as [c |] eqn:E; [| discriminate Hi].
  injection Hi as <-. exists i. split; [exact E | reflexivity].
Qed.
End Assembler.

(** C5: the assembler is positional.  It yields one record per
    category; record [i] carries the identifiers, category [C[i]] and
    percentile [P[i]], absent when [P] has no position [i]; elements
    of [P] from position [len(C)] on have no effect; and categories
    GOPENS, GOPENH, GSCS with percentiles 99.99, 95.0 give three
    records with percentiles 99.99, 95.0 and none. *)
Theorem make_records_positional :
  (forall ic iname cc cname (C : list string) (P : list spec_float),
      List.length (make_records ic iname cc cname C P) = List.length C
      /\ (forall i,
             nth_error (make_records ic iname cc cname C P) i
             = option_map
                 (fun c => mkRecord ic iname cc cname c (nth_error P i))
                 (nth_error C i))
      /\ make_records ic iname cc cname C P
         = make_records ic iname cc cname C (firstn (List.length C) P))
  /\ make_records "12345" "ABC" "1234567890" "Comp"
       ["GOPENS"; "GOPENH"; "GSCS"] [pyfloat "99.99"; pyfloat "95.0"]
     = [ mkRecord "12345" "ABC" "1234567890" "Comp" "GOPENS"
                  (Some (pyfloat "99.99"));
         mkRecord "12345" "ABC" "1234567890" "Comp" "GOPENH"
                  (Some (pyfloat "95.0"));
         mkRecord "12345" "ABC" "1234567890" "Comp" "GSCS" None ].
Proof.
  split; [| reflexivity].
  intros ic iname cc cname C P.
  split; [apply length_make_records |].
  split; [intros i; apply nth_error_make_records |].
  apply nth_error_ext. intros i.
  rewrite !nth_error_make_records.
  destruct (nth_error C i) as [c |] eqn:E; [| reflexivity].
  simpl. f_equal. f_equal.
  assert (Hi : (i < List.length C)%nat).
  { apply nth_error_Some. rewrite E. discriminate. }
  rewrite nth_error_firstn.
  apply Nat.ltb_lt in Hi. rewrite Hi. reflexivity.
Qed.

(** ** BlockLocator: pages without an institute line *)

Lemma find_institute_none (lines : list string) :
  existsb (fun l => matches institute_re (strip l)) lines = false ->
  find_institute lines = None.
Proof.
  induction lines as [| l rest IH]; simpl; [reflexivity |].
  intros H. apply orb_false_iff in H. destruct H as [Hl Hrest].
  rewrite Hl. exact (IH Hrest).
Qed.

(** C8: when no line of the page, once stripped, matches the
    institute pattern (five digits, then space, hyphen, space), the
    page parse returns the empty list of records, whatever else the
    page holds. *)
Theorem no_institute_no_records (text : string) :
  existsb (fun l => matches institute_re (strip l)) (split_lines text) = false ->
  parse_cutoff_page_complete text = Some [].
Proof.
  intros H. unfold parse_cutoff_page_complete.
  rewrite (find_institute_none _ H). reflexivity.
Qed.

Lemma no_institute_no_records_witness :
  existsb (fun l => matches institute_re (strip l)) (split_lines headless_page)
  = false
  /\ existsb (fun l => matches course_re (strip l)) (split_lines headless_page)
     = true
  /\ parse_cutoff_page_complete headless_page = Some [].
Proof.
  split; [vm_compute; reflexivity |].
  split; [vm_compute; reflexivity |].
  apply (no_institute_no_records headless_page). vm_compute. reflexivity.
Defined.

(** ** The end-to-end example *)

(** C1 (as stated, refuted): on the four-line block the page parse
    returns no record at all, so it does not return four. *)
Lemma example_page_no_records :
  parse_cutoff_page_complete example_page = Some []
  /\ ~ (exists recs, parse_cutoff_page_complete example_page = Some recs
                     /\ List.length recs = 4).
Proof.
  assert (E : parse_cutoff_page_complete example_page = Some [])
    by (vm_compute; reflexivity).
  split; [exact E |].
  intros [recs [H L]]. rewrite E in H. injection H as <-. discriminate L.
Qed.

(** C1 (amended): the four-line block yields no record, because its
    category line has four words and the main header needs eight; the
    block with the eight categories GOPENS GOPENH GSCS GSTS GVJS GNT1S
    GNT2S GOBCS and eight parenthesized values yields eight records,
    all with Institute_Code 12345 and Course_Code 1234567890, the
    categories paired in order with 99.99, 95.00, 90.00, 85.00, 80.00,
    75.00, 70.00, 65.00. *)
Theorem example_page_eight_categories :
  is_main_header "GOPENS GOPENH GSCS GSTS" = false
  /\ parse_cutoff_page_complete example_page = Some []
  /\ exists recs,
      parse_cutoff_page_complete example_page8 = Some recs
      /\ List.length recs = 8
      /\ Forall (fun r => Institute_Code r = "12345"
                          /\ Course_Code r = "1234567890") recs
      /\ map (fun r => (Category r, Percentile r)) recs
         = [ ("GOPENS", Some (pyfloat "99.99"));
             ("GOPENH", Some (pyfloat "95.00"));
             ("GSCS", Some (pyfloat "90.00"));
             ("GSTS", Some (pyfloat "85.00"));
             ("GVJS", Some (pyfloat "80.00"));
             ("GNT1S", Some (pyfloat "75.00"));
             ("GNT2S", Some (pyfloat "70.00"));
             ("GOBCS", Some (pyfloat "65.00")) ].
Proof.
  split; [vm_compute; reflexivity |].
  split; [vm_compute; reflexivity |].
  eexists. split; [vm_compute; reflexivity |].
  split; [reflexivity |].
  split; [repeat constructor | vm_compute; reflexivity].
Qed.

(** ** SimpleTableParser *)

Lemma extract_percentiles_captured (line : string) :
  extract_percentiles line = captured_in_range percentile_re line.
Proof.
  unfold extract_percentiles, captured_in_range.
  induction (findall percentile_re line) as [| p ps IH]; [reflexivity |].
  cbn [flat_map]. rewrite IH, filter_app. f_equal.
  destruct (PyFloat.float p) as [v |]; [| reflexivity].
  cbn [filter]. destruct (in_range v); reflexivity.
Qed.

Lemma simple_percentiles_scanned (ls : list string) :
  simple_percentiles ls
  = flat_map (captured_in_range percentile_re)
             (scanned_lines is_percentile_stop ls).
Proof.
  induction ls as [| l rest IH]; [reflexivity |].
  cbn [simple_percentiles scanned_lines].
  destruct (is_percentile_stop (strip l)).
  - cbn [flat_map]. rewrite app_nil_r. apply extract_percentiles_captured.
  - cbn [flat_map]. rewrite IH, extract_percentiles_captured. reflexivity.
Qed.

Section SimpleTable.
Variables (ic iname cc cname : string).

Lemma collect_categories_unstopped (ls : list string) (j : nat) :
  Forall (fun l => is_data_line (strip l) = false
                   /\ is_structural (strip l) = false) ls ->
  snd (collect_categories ls j) = None.
Proof.
  intros H. revert j. induction H as [| l rest [Hd Hs] _ IH]; intros j.
  - reflexivity.
  - cbn [collect_categories]. rewrite Hd, Hs.
    specialize (IH (j + 1)).
    destruct (collect_categories rest (j + 1)) as [more d].
    exact IH.
Qed.

Lemma find_header_skip (before rest : list string) (i : nat) :
  Forall (fun l => is_main_header (strip l) = false) before ->
  find_header (before ++ rest) i = find_header rest (i + List.length before).
Proof.
  intros H. revert i. induction H as [| l before Hl _ IH]; intros i.
  - simpl. rewrite Nat.add_0_r. reflexivity.
  - cbn [app find_header]. rewrite Hl, IH. f_equal.
    simpl. lia.
Qed.

Lemma parse_simple_unfold (cs : list string) :
  parse_simple_table_course ic iname cc cname cs
  = match fst (find_header cs 0) with
    | [] => []
    | _ =>
        make_records ic iname cc cname (fst (find_header cs 0))
          match snd (find_header cs 0) with
          | Some d => simple_percentiles (skipn d cs)
          | None => []
          end
    end.
Proof.
  unfold parse_simple_table_course.
  destruct (find_header cs 0) as [cats d]. reflexivity.
Qed.
End SimpleTable.

(** C3 (as stated, refuted): on a block whose data line is
    [I 9 (9) 99 (99.)] the data start is recorded at that line, the
    pattern of the claim captures 9 and 99., both within [[0, 100]],
    yet the parser's percentile list is empty. *)
Lemma short_values_not_extracted :
  snd (find_header short_values_block 0) = Some 2
  /\ flat_map (captured_in_range spec_percentile_re)
              (scanned_lines is_percentile_stop (skipn 2 short_values_block))
     = [pyfloat "9"; pyfloat "99."]
  /\ simple_percentiles (skipn 2 short_values_block) = []
  /\ simple_percentiles (skipn 2 short_values_block)
     <> flat_map (captured_in_range spec_percentile_re)
                 (scanned_lines is_percentile_stop
                                (skipn 2 short_values_block)).
Proof.
  split; [vm_compute; reflexivity |].
  split; [vm_compute; reflexivity |].
  split; [vm_compute; reflexivity |].
  vm_compute. discriminate.
Qed.

(** C3 (amended): for every course block with categories and a
    recorded data-section start, the percentile list consists of the
    captures of the pattern "open parenthesis, one or more digits, an
    optional point, one or more digits, close parenthesis" whose
    value lies in [[0, 100]], in order of appearance, over the lines
    from the data start up to and including the first stop line; so
    [(9)] and [(99.)] are not extracted, while [(95)] and [(9.5)] are. *)
Theorem simple_percentiles_are_captures
        (ic iname cc cname : string) (cs : list string)
        (cats : list string) (d : nat) :
  find_header cs 0 = (cats, Some d) ->
  cats <> [] ->
  parse_simple_table_course ic iname cc cname cs
  = make_records ic iname cc cname cats
      (flat_map (captured_in_range percentile_re)
                (scanned_lines is_percentile_stop (skipn d cs)))
  /\ captured_in_range percentile_re "(9) (99.)" = []
  /\ captured_in_range percentile_re "(95) (9.5)" = [pyfloat "95"; pyfloat "9.5"].
Proof.
  intros H Hc.
  split; [| split; vm_compute; reflexivity].
  rewrite parse_simple_unfold, H. cbn [fst snd].
  rewrite simple_percentiles_scanned.
  destruct cats; [contradiction | reflexivity].
Qed.

Lemma simple_percentiles_are_captures_witness :
  parse_simple_table_course "12345" "ABC" "1234567890" "Computer Engineering"
    [ "1234567890 - Computer Engineering";
      "GOPENS GOPENH GSCS GSTS GVJS GNT1S GNT2S GOBCS";
      "I 1 (95) 2 (9.5) 3 (9) 4 (100.5)";
      "";
      "(50.5)" ]
  = make_records "12345" "ABC" "1234567890" "Computer Engineering"
      ["GOPENS"; "GOPENH"; "GSCS"; "GSTS"; "GVJS"; "GNT1S"; "GNT2S"; "GOBCS"]
      [pyfloat "95"; pyfloat "9.5"].
Proof.
  refine (eq_trans
            (proj1 (simple_percentiles_are_captures
                      "12345" "ABC" "1234567890" "Computer Engineering"
                      _ _ 2 _ _)) _).
  - vm_compute. reflexivity.
  - discriminate.
  - vm_compute. reflexivity.
Defined.

(** C9: when the main header is found and a category is collected,
    and no later line of the block is a stopping line of the category
    scan, no data-section start is recorded, the percentile list is
    empty and every record has an absent percentile (and there is at
    least one record), whatever parenthesized values the later lines
    hold. *)
Theorem unstopped_scan_no_percentiles
        (ic iname cc cname : string)
        (before : list string) (header : string) (after : list string) :
  Forall (fun l => is_main_header (strip l) = false) before ->
  is_main_header (strip header) = true ->
  Forall (fun l => is_data_line (strip l) = false
                   /\ is_structural (strip l) = false) after ->
  fst (find_header (before ++ header :: after) 0) <> [] ->
  snd (find_header (before ++ header :: after) 0) = None
  /\ parse_simple_table_course ic iname cc cname (before ++ header :: after)
     = make_records ic iname cc cname
         (fst (find_header (before ++ header :: after) 0)) []
  /\ parse_simple_table_course ic iname cc cname (before ++ header :: after)
     <> []
  /\ Forall (fun r => Percentile r = None)
            (parse_simple_table_course ic iname cc cname
               (before ++ header :: after)).
Proof.
  intros Hb Hh Ha Hc.
  assert (Hd : snd (find_header (before ++ header :: after) 0) = None).
  { rewrite (find_header_skip before (header :: after) 0 Hb).
    cbn [find_header]. rewrite Hh.
    pose proof (collect_categories_unstopped after
                  (0 + List.length before + 1) Ha) as Hn.
    destruct (collect_categories after (0 + List.length before + 1))
      as [more d].
    exact Hn. }
  assert (Hp : parse_simple_table_course ic iname cc cname
                 (before ++ header :: after)
               = make_records ic iname cc cname
                   (fst (find_header (before ++ header :: after) 0)) []).
  { rewrite parse_simple_unfold, Hd.
    destruct (fst (find_header (before ++ header :: after) 0));
      [contradiction | reflexivity]. }
  split; [exact Hd |]. split; [exact Hp |]. split.
  - intros E. apply (f_equal (@List.length record)) in E.
    rewrite Hp, length_make_records in E.
    destruct (fst (find_header (before ++ header :: after) 0));
      [contradiction | discriminate E].
  - rewrite Hp. apply Forall_forall. intros r Hr.
    destruct (make_records_percentile_of _ _ _ _ _ _ r Hr) as [i [_ Hi]].
    rewrite Hi. destruct i; reflexivity.
Qed.

Lemma unstopped_scan_no_percentiles_witness :
  flat_map extract_percentiles (skipn 2 unstopped_block)
  = [pyfloat "95"; pyfloat "90"; pyfloat "85"]
  /\ List.length (parse_simple_table_course "12345" "ABC" "1234567890"
                    "Computer Engineering" unstopped_block) = 8
  /\ Forall (fun r => Percentile r = None)
            (parse_simple_table_course "12345" "ABC" "1234567890"
               "Computer Engineering" unstopped_block).
Proof.
  split; [vm_compute; reflexivity |].
  split; [vm_compute; reflexivity |].
  refine (proj2 (proj2 (proj2
            (unstopped_scan_no_percentiles
               "12345" "ABC" "1234567890" "Computer Engineering"
               ["1234567890 - Computer Engineering"]
               "GOPENS GOPENH GSCS GSTS GVJS GNT1S GNT2S GOBCS"
               ["(95) (90)"; "(85)"] _ _ _ _)))).
  - repeat constructor.
  - vm_compute. reflexivity.
  - repeat constructor.
  - vm_compute. discriminate.
Defined.

(** ** MultiSectionParser *)

Lemma prefix_app_l (p q s : string) :
  String.prefix (p ++ q) s = true -> String.prefix p s = true.
Proof.
  revert s. induction p as [| a p IH]; intros s H.
  - apply prefix_nil.
  - destruct s as [| b s]; [discriminate H |].
    cbn [String.append] in H. rewrite prefix_cons in *.
    apply andb_true_iff in H. destruct H as [Hab Hp].
    rewrite Hab, (IH s Hp). reflexivity.
Qed.

Lemma contains_app_l (p q s : string) :
  contains (p ++ q) s = true -> contains p s = true.
Proof.
  induction s as [| c s IH]; cbn [contains]; intros H;
    apply orb_true_iff in H; apply orb_true_iff;
    destruct H as [H | H].
  - left. exact (prefix_app_l p q _ H).
  - discriminate H.
  - left. exact (prefix_app_l p q _ H).
  - right. exact (IH H).
Qed.

Lemma contains_self (s : string) : contains s s = true.
Proof.
  assert (P : forall t, String.prefix t t = true).
  { induction t as [| a t IH]; [reflexivity |].
    rewrite prefix_cons, Ascii.eqb_refl. exact IH. }
  destruct s; cbn [contains]; rewrite P; reflexivity.
Qed.

Ltac orb_true := rewrite ?orb_true_r; reflexivity.

Lemma header_is_stop (line : string) :
  is_section_header line = true ->
  is_category_stop line = true /\ is_data_stop line = true.
Proof.
  unfold is_section_header. intros H.
  repeat (apply orb_true_iff in H; destruct H as [H | H]).
  - apply (contains_app_l "Home University Seats Allotted"
                          " to Home University") in H.
    unfold is_category_stop, is_data_stop. rewrite H. split; orb_true.
  - apply (contains_app_l "Home University Seats Allotted"
                          " to Other Than Home University") in H.
    unfold is_category_stop, is_data_stop. rewrite H. split; orb_true.
  - apply (contains_app_l "Other Than Home University Seats Allotted"
                          " to Other Than Home University") in H.
    unfold is_category_stop, is_data_stop. rewrite H. split; orb_true.
  - unfold is_category_stop, is_data_stop. rewrite H. split; orb_true.
Qed.

Lemma nth_skipn_shift {X : Type} (l : list X) (j k : nat) (d : X) :
  nth k (skipn j l) d = nth (j + k) l d.
Proof.
  revert l. induction j as [| j IH]; intros l; [reflexivity |].
  destruct l as [| x l]; simpl.
  - destruct k; reflexivity.
  - apply IH.
Qed.

(** The cursor after a section, in terms of the two inner loops. *)
Lemma fst_section_at (ic iname cc cname : string) (cs : list string) (i : nat) :
  fst (section_at ic iname cc cname cs i)
  = fst (section_percentiles
           (skipn (fst (section_categories (skipn (i + 1) cs) (i + 1))) cs)
           (fst (section_categories (skipn (i + 1) cs) (i + 1)))).
Proof.
  unfold section_at.
  destruct (section_categories (skipn (i + 1) cs) (i + 1)) as [j cats].
  cbn [fst].
  destruct (section_percentiles (skipn j cs) j) as [j' pcts].
  reflexivity.
Qed.

Section MultiSectionFacts.
Variables (ic iname cc cname : string).

Lemma section_categories_bounds (ls : list string) (j : nat) :
  j <= fst (section_categories ls j)
  /\ fst (section_categories ls j) <= j + List.length ls.
Proof.
  revert j. induction ls as [| l rest IH]; intros j; cbn [section_categories].
  - simpl. lia.
  - destruct (is_category_stop (strip l)); [simpl; lia |].
    specialize (IH (j + 1)).
    destruct (section_categories rest (j + 1)) as [j' more].
    simpl in *. lia.
Qed.

Lemma section_percentiles_bounds (ls : list string) (j : nat) :
  j <= fst (section_percentiles ls j)
  /\ fst (section_percentiles ls j) <= j + List.length ls.
Proof.
  revert j. induction ls as [| l rest IH]; intros j;
    cbn [section_percentiles].
  - simpl. lia.
  - destruct (is_data_stop (strip l)); [simpl; lia |].
    specialize (IH (j + 1)).
    destruct (section_percentiles rest (j + 1)) as [j' more].
    simpl in *. lia.
Qed.

Lemma section_categories_passed (ls : list string) (j n : nat) :
  j <= n < fst (section_categories ls j) ->
  is_category_stop (strip (nth (n - j) ls EmptyString)) = false.
Proof.
  revert j. induction ls as [| l rest IH]; intros j;
    cbn [section_categories].
  - simpl. lia.
  - destruct (is_category_stop (strip l)) eqn:E; [simpl; lia |].
    specialize (IH (j + 1)).
    destruct (section_categories rest (j + 1)) as [j' more].
    simpl in *. intros Hn.
    destruct (Nat.eq_dec n j) as [-> | Hne].
    + rewrite Nat.sub_diag. exact E.
    + replace (n - j) with (S (n - (j + 1))) by lia.
      apply IH. lia.
Qed.

Lemma section_percentiles_passed (ls : list string) (j n : nat) :
  j <= n < fst (section_percentiles ls j) ->
  is_data_stop (strip (nth (n - j) ls EmptyString)) = false.
Proof.
  revert j. induction ls as [| l rest IH]; intros j;
    cbn [section_percentiles].
  - simpl. lia.
  - destruct (is_data_stop (strip l)) eqn:E; [simpl; lia |].
    specialize (IH (j + 1)).
    destruct (section_percentiles rest (j + 1)) as [j' more].
    simpl in *. intros Hn.
    destruct (Nat.eq_dec n j) as [-> | Hne].
    + rewrite Nat.sub_diag. exact E.
    + replace (n - j) with (S (n - (j + 1))) by lia.
      apply IH. lia.
Qed.

Lemma section_at_cursor (cs : list string) (i : nat) :
  i + 1 <= fst (section_categories (skipn (i + 1) cs) (i + 1))
  /\ fst (section_categories (skipn (i + 1) cs) (i + 1))
     <= fst (section_at ic iname cc cname cs i).
Proof.
  rewrite fst_section_at.
  split.
  - apply section_categories_bounds.
  - apply section_percentiles_bounds.
Qed.

Lemma section_at_passed (cs : list string) (i n : nat) :
  i < n < fst (section_at ic iname cc cname cs i) ->
  is_section_header (strip (nth n cs EmptyString)) = false.
Proof.
  rewrite fst_section_at.
  set (j := fst (section_categories (skipn (i + 1) cs) (i + 1))).
  intros Hn.
  destruct (is_section_header (strip (nth n cs EmptyString))) eqn:E;
    [| reflexivity].
  apply header_is_stop in E. destruct E as [Ec Ed].
  destruct (Nat.lt_ge_cases n j) as [Hlt | Hge].
  - pose proof (section_categories_passed (skipn (i + 1) cs) (i + 1) n) as P.
    rewrite nth_skipn_shift in P.
    replace (i + 1 + (n - (i + 1))) with n in P by lia.
    rewrite P in Ec; [discriminate Ec | fold j; lia].
  - pose proof (section_percentiles_passed (skipn j cs) j n) as P.
    rewrite nth_skipn_shift in P.
    replace (j + (n - j)) with n in P by lia.
    rewrite P in Ed; [discriminate Ed | lia].
Qed.

Lemma next_cursor_section (cs : list string) (i : nat) :
  is_section_header (strip (nth i cs EmptyString)) = true ->
  next_cursor cs i = fst (section_at ic iname cc cname cs i).
Proof.
  intros H. unfold next_cursor. rewrite H.
  rewrite !fst_section_at. reflexivity.
Qed.

Lemma next_cursor_gt (cs : list string) (i : nat) : i < next_cursor cs i.
Proof.
  unfold next_cursor.
  destruct (is_section_header (strip (nth i cs EmptyString))); [| lia].
  pose proof (section_at_cursor cs i). 
  rewrite fst_section_at in *. lia.
Qed.

(** One iteration of the outer loop. *)
Lemma multi_loop_step (fuel : nat) (cs : list string) (i : nat)
      (records : list record) :
  multi_loop ic iname cc cname (S fuel) cs i records
  = if (i <? List.length cs)%nat
    then multi_loop ic iname cc cname fuel cs (next_cursor cs i)
           (records ++
            if is_section_header (strip (nth i cs EmptyString))
            then snd (section_at ic iname cc cname cs i) else [])
    else Some records.
Proof.
  cbn [multi_loop].
  destruct (i <? List.length cs)%nat; [| reflexivity].
  destruct (is_section_header (strip (nth i cs EmptyString))) eqn:E.
  - rewrite (next_cursor_section cs i E).
    destruct (section_at ic iname cc cname cs i) as [j recs]. reflexivity.
  - unfold next_cursor. rewrite E, app_nil_r. reflexivity.
Qed.

Lemma opened_sections_step (fuel : nat) (cs : list string) (i : nat) :
  opened_sections ic iname cc cname (S fuel) cs i
  = if (i <? List.length cs)%nat
    then (if is_section_header (strip (nth i cs EmptyString))
          then [i] else [])
         ++ opened_sections ic iname cc cname fuel cs (next_cursor cs i)
    else [].
Proof.
  cbn [opened_sections].
  destruct (i <? List.length cs)%nat; [| reflexivity].
  destruct (is_section_header (strip (nth i cs EmptyString))) eqn:E.
  - rewrite (next_cursor_section cs i E). reflexivity.
  - unfold next_cursor. rewrite E. reflexivity.
Qed.

(** With more fuel than lines left, the loop ends, and its records
    are those of the sections of the trace. *)
Lemma multi_loop_total (fuel : nat) (cs : list string) (i : nat)
      (records : list record) :
  List.length cs - i < fuel ->
  multi_loop ic iname cc cname fuel cs i records
  = Some (records ++
          flat_map (fun k => snd (section_at ic iname cc cname cs k))
                   (opened_sections ic iname cc cname fuel cs i)).
Proof.
  revert i records. induction fuel as [| fuel IH]; intros i records Hf.
  - lia.
  - rewrite multi_loop_step, opened_sections_step.
    destruct (i <? List.length cs)%nat eqn:Hi.
    + apply Nat.ltb_lt in Hi.
      pose proof (next_cursor_gt cs i) as Hn.
      rewrite IH by lia.
      rewrite flat_map_app, app_assoc. f_equal. f_equal. f_equal.
      destruct (is_section_header (strip (nth i cs EmptyString)));
        simpl; rewrite ?app_nil_r; reflexivity.
    + simpl. rewrite app_nil_r. reflexivity.
Qed.

Lemma opened_sections_sound (fuel : nat) (cs : list string) (i n : nat) :
  In n (opened_sections ic iname cc cname fuel cs i) ->
  i <= n < List.length cs
  /\ is_section_header (strip (nth n cs EmptyString)) = true.
Proof.
  revert i. induction fuel as [| fuel IH]; intros i; [intros [] |].
  rewrite opened_sections_step.
  destruct (i <? List.length cs)%nat eqn:Hi; [| intros []].
  apply Nat.ltb_lt in Hi.
  pose proof (next_cursor_gt cs i) as Hn.
  intros H. apply in_app_or in H. destruct H as [H | H].
  - destruct (is_section_header (strip (nth i cs EmptyString))) eqn:E;
      [| destruct H].
    destruct H as [<- | []]. split; [lia | exact E].
  - apply IH in H. destruct H as [Hr Hh]. split; [lia | exact Hh].
Qed.

Lemma opened_sections_complete (fuel : nat) (cs : list string) (i n : nat) :
  List.length cs - i < fuel ->
  i <= n < List.length cs ->
  is_section_header (strip (nth n cs EmptyString)) = true ->
  In n (opened_sections ic iname cc cname fuel cs i).
Proof.
  revert i. induction fuel as [| fuel IH]; intros i Hf Hn Hh; [lia |].
  rewrite opened_sections_step.
  assert (Hi : (i <? List.length cs)%nat = true) by (apply Nat.ltb_lt; lia).
  rewrite Hi. apply in_or_app.
  destruct (Nat.eq_dec n i) as [-> | Hne].
  - left. rewrite Hh. left. reflexivity.
  - right. pose proof (next_cursor_gt cs i) as Hg.
    apply IH; [lia | | exact Hh].
    split; [| lia].
    destruct (Nat.le_gt_cases (next_cursor cs i) n) as [Hle | Hgt];
      [exact Hle |].
    exfalso.
    destruct (is_section_header (strip (nth i cs EmptyString))) eqn:E.
    + rewrite (next_cursor_section cs i E) in Hgt.
      rewrite (section_at_passed cs i n) in Hh; [discriminate Hh | lia].
    + unfold next_cursor in Hgt. rewrite E in Hgt. lia.
Qed.
End MultiSectionFacts.

(** C10: [parse_multi_section_course] terminates on every block.  In
    the category and percentile phases of a section opened at [i] the
    inner index starts at [i + 1] and does not decrease; every
    iteration of the outer loop moves the cursor strictly forward, by
    one at a line that opens no section and to the inner index
    otherwise; so the loop ends within one iteration per line and the
    function returns its records. *)
Theorem parse_multi_section_course_terminates
        (ic iname cc cname : string) (cs : list string) :
  (forall i,
      i + 1 <= fst (section_categories (skipn (i + 1) cs) (i + 1))
      /\ fst (section_categories (skipn (i + 1) cs) (i + 1))
         <= fst (section_at ic iname cc cname cs i))
  /\ (forall i,
         i < next_cursor cs i
         /\ next_cursor cs i
            = if is_section_header (strip (nth i cs EmptyString))
              then fst (section_at ic iname cc cname cs i)
              else i + 1)
  /\ (forall fuel i records,
         multi_loop ic iname cc cname (S fuel) cs i records
         = if (i <? List.length cs)%nat
           then multi_loop ic iname cc cname fuel cs (next_cursor cs i)
                  (records ++
                   if is_section_header (strip (nth i cs EmptyString))
                   then snd (section_at ic iname cc cname cs i) else [])
           else Some records)
  /\ exists records,
      parse_multi_section_course ic iname cc cname cs = Some records.
Proof.
  split; [intros i; apply section_at_cursor |].
  split.
  { intros i. split; [apply (next_cursor_gt ic iname cc cname cs i) |].
    destruct (is_section_header (strip (nth i cs EmptyString))) eqn:E.
    - apply next_cursor_section. exact E.
    - unfold next_cursor. rewrite E. reflexivity. }
  split; [intros fuel i records; apply multi_loop_step |].
  unfold parse_multi_section_course.
  rewrite multi_loop_total by lia.
  eexists. reflexivity.
Qed.

(** C2 (as stated, refuted): the line
    [Seat Type: Home University Seats Allotted to Home University] is
    equal to none of the four markers, yet a section is opened at it
    and its category and percentile are read. *)
Lemma section_opened_at_unequal_line :
  ~ In (strip (nth 0 labelled_block EmptyString)) section_markers
  /\ In 0 (opened_sections "12345" "ABC" "1234567890" "Comp"
             (S (List.length labelled_block)) labelled_block 0)
  /\ parse_multi_section_course "12345" "ABC" "1234567890" "Comp"
       labelled_block
     = Some [ mkRecord "12345" "ABC" "1234567890" "Comp" "GOPENS"
                       (Some (pyfloat "90.5")) ]
  /\ ~ (forall cs n,
           In n (opened_sections "12345" "ABC" "1234567890" "Comp"
                   (S (List.length cs)) cs 0)
           <-> n < List.length cs
               /\ In (strip (nth n cs EmptyString)) section_markers).
Proof.
  assert (N : ~ In (strip (nth 0 labelled_block EmptyString)) section_markers).
  { intros H. vm_compute in H.
    repeat (destruct H as [H | H]; [discriminate H |]). exact H. }
  assert (O : In 0 (opened_sections "12345" "ABC" "1234567890" "Comp"
                      (S (List.length labelled_block)) labelled_block 0))
    by (vm_compute; left; reflexivity).
  split; [exact N |]. split; [exact O |].
  split; [vm_compute; reflexivity |].
  intros H. apply N. exact (proj2 (proj1 (H labelled_block 0) O)).
Qed.

(** C2 (amended): a section is opened at a line if and only if the
    stripped line contains one of the three markers that end in
    "Seats Allotted to ..." as a substring, or is equal to
    "State Level"; the four markers themselves satisfy this test, and
    the records returned are those of the sections so opened, in
    order. *)
Theorem section_opened_iff_header
        (ic iname cc cname : string) (cs : list string) :
  (forall n,
      In n (opened_sections ic iname cc cname (S (List.length cs)) cs 0)
      <-> n < List.length cs
          /\ (contains "Home University Seats Allotted to Home University"
                       (strip (nth n cs EmptyString))
              || contains "Home University Seats Allotted to Other Than Home University"
                          (strip (nth n cs EmptyString))
              || contains "Other Than Home University Seats Allotted to Other Than Home University"
                          (strip (nth n cs EmptyString))
              || String.eqb (strip (nth n cs EmptyString)) "State Level")
             = true)
  /\ forallb is_section_header section_markers = true
  /\ parse_multi_section_course ic iname cc cname cs
     = Some (flat_map (fun k => snd (section_at ic iname cc cname cs k))
                      (opened_sections ic iname cc cname
                                       (S (List.length cs)) cs 0)).
Proof.
  split; [| split].
  - intros n. split.
    + intros H. apply opened_sections_sound in H.
      destruct H as [Hr Hh]. split; [lia | exact Hh].
    + intros [Hn Hh].
      apply opened_sections_complete; [lia | lia | exact Hh].
  - vm_compute. reflexivity.
  - unfold parse_multi_section_course.
    rewrite multi_loop_total by lia. reflexivity.
Qed.

(** ** DocumentOrchestrator: order of the final data set *)

Lemma key_compare_Key (a b : string * string * string) :
  key_compare a b = Key.compare a b.
Proof.
  destruct a as [[a1 a2] a3], b as [[b1 b2] b3].
  change (Key.compare (a1, a2, a3) (b1, b2, b3))
    with (match (match String_as_OT.compare a1 b1 with
                 | Eq => String_as_OT.compare a2 b2
                 | Lt => Lt
                 | Gt => Gt
                 end) with
          | Eq => String_as_OT.compare a3 b3
          | Lt => Lt
          | Gt => Gt
          end).
  unfold key_compare.
  destruct (String_as_OT.compare a1 b1); [| reflexivity | reflexivity].
  destruct (String_as_OT.compare a2 b2); reflexivity.
Qed.

Lemma key_leb_nlt (a b : record) :
  key_leb a b = true <-> ~ Key.lt (sort_key b) (sort_key a).
Proof.
  unfold key_leb. rewrite key_compare_Key.
  pose proof (KeyFacts.compare_gt_iff (sort_key a) (sort_key b)) as Hc.
  change (Key.compare (sort_key a) (sort_key b) = Gt
          <-> Key.lt (sort_key b) (sort_key a)) in Hc.
  destruct (Key.compare (sort_key a) (sort_key b)); split; intros H;
    try reflexivity; try discriminate H;
    try (intros L; apply Hc in L; discriminate L).
  exfalso. apply H. apply Hc. reflexivity.
Qed.

Lemma key_lt_lt (a b : record) :
  key_lt a b <-> Key.lt (sort_key a) (sort_key b).
Proof.
  unfold key_lt. rewrite key_compare_Key. apply KeyFacts.compare_lt_iff.
Qed.

Lemma key_leb_total (a b : record) :
  key_leb a b = false -> key_leb b a = true.
Proof.
  intros H. apply key_leb_nlt. intros L.
  assert (N : ~ key_leb a b = true) by (rewrite H; discriminate).
  apply N. apply key_leb_nlt. KeyFacts.order.
Qed.

Lemma key_leb_trans (a b c : record) :
  key_leb a b = true -> key_leb b c = true -> key_leb a c = true.
Proof.
  rewrite !key_leb_nlt. intros H1 H2. KeyFacts.order.
Qed.

Lemma insert_row_Forall (P : record -> Prop) (r : record) (l : list record) :
  P r -> Forall P l -> Forall P (insert_row r l).
Proof.
  intros Hr Hl. induction Hl as [| x l Hx Hl IH]; cbn [insert_row].
  - constructor; [exact Hr | constructor].
  - destruct (key_leb x r); constructor; auto.
Qed.

Lemma insert_row_sorted (r : record) (l : list record) :
  key_sorted l -> key_sorted (insert_row r l).
Proof.
  intros Hs. induction Hs as [| x l Hs IH Hx]; cbn [insert_row].
  - constructor; constructor.
  - destruct (key_leb x r) eqn:E.
    + constructor; [exact IH |].
      apply insert_row_Forall; [exact E | exact Hx].
    + apply key_leb_total in E.
      constructor; [constructor; assumption |].
      constructor; [exact E |].
      apply Forall_impl with (2 := Hx).
      intros y Hy. exact (key_leb_trans r x y E Hy).
Qed.

Lemma sort_values_sorted (rows : list record) : key_sorted (sort_values rows).
Proof.
  unfold sort_values.
  assert (G : forall acc, key_sorted acc ->
                key_sorted (fold_left (fun sorted r => insert_row r sorted)
                                      rows acc)).
  { induction rows as [| r rows IH]; intros acc Ha; [exact Ha |].
    cbn [fold_left]. apply IH. apply insert_row_sorted. exact Ha. }
  apply G. constructor.
Qed.

Lemma key_sorted_positions (l : list record) (i j : nat) (A B : record) :
  key_sorted l -> i < j ->
  nth_error l i = Some A -> nth_error l j = Some B ->
  key_leb A B = true.
Proof.
  intros Hs. revert i j. induction Hs as [| x l Hs IH Hx]; intros i j Hij HA HB.
  - destruct i; discriminate HA.
  - destruct j as [| j]; [lia |].
    destruct i as [| i].
    + injection HA as <-. cbn [nth_error] in HB.
      apply nth_error_In in HB.
      exact (proj1 (Forall_forall _ _) Hx B HB).
    + cbn [nth_error] in HA, HB. apply (IH i j); [lia | assumption | assumption].
Qed.

(** C6 (as stated, refuted): the two-section page gives the final
    rows GOPENS 90.5, GOPENS 70.5, GSCS 80.25; the first precedes the
    second although its key is not less than the second's. *)
Lemma equal_keys_break_iff :
  full_conversion [two_section_page]
  = Some [ mkRecord "12345" "ABC College Of Engineering" "1234567890"
                    "Computer Engineering" "GOPENS" (Some (pyfloat "90.5"));
           mkRecord "12345" "ABC College Of Engineering" "1234567890"
                    "Computer Engineering" "GOPENS" (Some (pyfloat "70.5"));
           mkRecord "12345" "ABC College Of Engineering" "1234567890"
                    "Computer Engineering" "GSCS" (Some (pyfloat "80.25")) ]
  /\ ~ (forall ds i j A B,
           full_conversion [two_section_page] = Some ds ->
           nth_error ds i = Some A -> nth_error ds j = Some B ->
           (i < j <-> key_lt A B)).
Proof.
  assert (E : full_conversion [two_section_page]
              = Some [ mkRecord "12345" "ABC College Of Engineering"
                                "1234567890" "Computer Engineering" "GOPENS"
                                (Some (pyfloat "90.5"));
                       mkRecord "12345" "ABC College Of Engineering"
                                "1234567890" "Computer Engineering" "GOPENS"
                                (Some (pyfloat "70.5"));
                       mkRecord "12345" "ABC College Of Engineering"
                                "1234567890" "Computer Engineering" "GSCS"
                                (Some (pyfloat "80.25")) ])
    by (vm_compute; reflexivity).
  split; [exact E |].
  intros H.
  specialize (H _ 0 1 _ _ E eq_refl eq_refl).
  destruct H as [H _].
  specialize (H (Nat.lt_0_succ 0)).
  vm_compute in H. discriminate H.
Qed.

(** C6 (amended): in the final data set, a row whose key
    (Institute_Code, Course_Code, Category) is less than another
    row's key precedes it, and a row that precedes another has a key
    less than or equal to the other's; rows with equal keys, which
    differ in another column, keep either order. *)
Theorem final_dataset_ordered
        (all_records : list record) (i j : nat) (A B : record) :
  nth_error (final_dataset all_records) i = Some A ->
  nth_error (final_dataset all_records) j = Some B ->
  (key_lt A B -> i < j) /\ (i < j -> ~ key_lt B A).
Proof.
  intros HA HB.
  pose proof (sort_values_sorted (drop_duplicates all_records)) as Hs.
  fold (final_dataset all_records) in Hs.
  assert (R : forall i j A B,
             nth_error (final_dataset all_records) i = Some A ->
             nth_error (final_dataset all_records) j = Some B ->
             i < j -> ~ key_lt B A).
  { intros i' j' A' B' HA' HB' Hij L.
    pose proof (key_sorted_positions _ i' j' A' B' Hs Hij HA' HB') as Hle.
    apply key_leb_nlt in Hle. apply key_lt_lt in L. exact (Hle L). }
  split.
  - intros L.
    destruct (Nat.lt_trichotomy i j) as [Hlt | [Heq | Hgt]]; [exact Hlt | |].
    + subst j. rewrite HA in HB. injection HB as <-.
      apply key_lt_lt in L. exfalso. exact (KeyFacts.lt_irrefl L).
    + exfalso. exact (R j i B A HB HA Hgt L).
  - exact (R i j A B HA HB).
Qed.

Lemma final_dataset_ordered_witness :
  let rows :=
    [ mkRecord "12345" "ABC" "1234567890" "Comp" "GSCS" (Some (pyfloat "80.25"));
      mkRecord "12345" "ABC" "1234567890" "Comp" "GOPENS" None;
      mkRecord "12345" "ABC" "1234567890" "Comp" "GSCS" (Some (pyfloat "80.25")) ] in
  final_dataset rows
  = [ mkRecord "12345" "ABC" "1234567890" "Comp" "GOPENS" None;
      mkRecord "12345" "ABC" "1234567890" "Comp" "GSCS" (Some (pyfloat "80.25")) ]
  /\ (key_lt (mkRecord "12345" "ABC" "1234567890" "Comp" "GOPENS" None)
             (mkRecord "12345" "ABC" "1234567890" "Comp" "GSCS"
                       (Some (pyfloat "80.25"))) -> 0 < 1)
  /\ (0 < 1 ->
      ~ key_lt (mkRecord "12345" "ABC" "1234567890" "Comp" "GSCS"
                         (Some (pyfloat "80.25")))
               (mkRecord "12345" "ABC" "1234567890" "Comp" "GOPENS" None)).
Proof.
  intros rows.
  split; [vm_compute; reflexivity |].
  apply (final_dataset_ordered rows 0 1); vm_compute; reflexivity.
Defined.

(** ** BlockLocator: line ranges of the courses *)

(** C7 (the code at the failing input): on a page whose course code
    1234567890 heads the tables at lines 1 and 4, the position
    dictionary keeps line 4 only; the first course gets the empty
    range from 4 to 4 instead of the range from 1 to 4, and the
    records of its table are lost: the page yields the eight records
    of the second table alone.  With two distinct codes the ranges are
    1 to 4 and 4 to 7 and the page yields sixteen records. *)
Theorem repeated_course_code_range :
  let lines := split_lines repeated_course_page in
  let courses := [ ("1234567890", "Computer Engineering");
                   ("1234567890", "Computer Engineering") ] in
  header_positions lines 0 = [1; 4]
  /\ find_courses lines 0 [] [] = (courses, [("1234567890", 4)])
  /\ course_range lines courses [("1234567890", 4)] 0 "1234567890"
     = Some (4, 4)
  /\ course_range lines courses [("1234567890", 4)] 1 "1234567890"
     = Some (4, 7)
  /\ option_map (map (fun r => (Category r, Percentile r)))
                (parse_cutoff_page_complete repeated_course_page)
     = Some [ ("GOPENS", Some (pyfloat "90.00")); ("GOPENH", None);
              ("GSCS", None); ("GSTS", None); ("GVJS", None);
              ("GNT1S", None); ("GNT2S", None); ("GOBCS", None) ]
  /\ (let lines' := split_lines distinct_course_page in
      let courses' := [ ("1234567890", "Computer Engineering");
                        ("1234567891", "Computer Engineering") ] in
      let positions' := [("1234567890", 1); ("1234567891", 4)] in
      find_courses lines' 0 [] [] = (courses', positions')
      /\ course_range lines' courses' positions' 0 "1234567890" = Some (1, 4)
      /\ course_range lines' courses' positions' 1 "1234567891" = Some (4, 7)
      /\ option_map (@List.length record)
                    (parse_cutoff_page_complete distinct_course_page)
         = Some 16).
Proof.
  cbv zeta.
  repeat split; vm_compute; reflexivity.
Qed.

(** *** Pages whose course codes are pairwise distinct *)

Lemma lookup_dict_set_same {V : Type} (k : string) (v : V)
      (d : list (string * V)) :
  lookup k (dict_set k v d) = Some v.
Proof.
  induction d as [| [k' v'] d IH]; cbn [dict_set lookup].
  - rewrite String.eqb_refl. reflexivity.
  - destruct (String.eqb k k') eqn:E; cbn [lookup].
    + rewrite String.eqb_refl. reflexivity.
    + rewrite E. exact IH.
Qed.

Lemma lookup_dict_set_other {V : Type} (k k' : string) (v : V)
      (d : list (string * V)) :
  k' <> k -> lookup k' (dict_set k v d) = lookup k' d.
Proof.
  intros Hne. apply String.eqb_neq in Hne.
  induction d as [| [k0 v0] d IH]; cbn [dict_set lookup].
  - rewrite Hne. reflexivity.
  - destruct (String.eqb k k0) eqn:E; cbn [lookup].
    + apply String.eqb_eq in E. subst k0. rewrite Hne. reflexivity.
    + destruct (String.eqb k' k0); [reflexivity | exact IH].
Qed.

Lemma lookup_set_all_notin {V : Type} (key : string)
      (kvs : list (string * V)) (d : list (string * V)) :
  ~ In key (map fst kvs) -> lookup key (set_all kvs d) = lookup key d.
Proof.
  revert d. induction kvs as [| [k v] kvs IH]; intros d Hn; [reflexivity |].
  unfold set_all. cbn [fold_left fst snd]. fold (set_all kvs (dict_set k v d)).
  rewrite IH.
  - apply lookup_dict_set_other. intros ->. apply Hn. left. reflexivity.
  - intros Hin. apply Hn. right. exact Hin.
Qed.

Lemma lookup_set_all_present {V : Type} (key : string)
      (kvs : list (string * V)) (d : list (string * V)) :
  In key (map fst kvs) \/ lookup key d <> None ->
  lookup key (set_all kvs d) <> None.
Proof.
  revert d. induction kvs as [| [k v] kvs IH]; intros d H.
  - destruct H as [[] | H]. exact H.
  - unfold set_all. cbn [fold_left fst snd].
    fold (set_all kvs (dict_set k v d)).
    apply IH.
    destruct (String.eqb_spec key k) as [-> | Hne].
    + right. rewrite lookup_dict_set_same. discriminate.
    + destruct H as [[Hk | Hin] | Hd].
      * cbn [fst] in Hk. congruence.
      * left. exact Hin.
      * right. rewrite lookup_dict_set_other by exact Hne. exact Hd.
Qed.

Lemma lookup_set_all_nodup (ks : list string) (ps : list nat)
      (d : list (string * nat)) (k : nat) :
  NoDup ks -> List.length ks = List.length ps -> k < List.length ks ->
  lookup (nth k ks EmptyString) (set_all (combine ks ps) d)
  = Some (nth k ps 0).
Proof.
  intros Hnd. revert ps d k.
  induction Hnd as [| k0 ks Hk0 Hnd IH]; intros ps d k Hlen Hk.
  - simpl in Hk. lia.
  - destruct ps as [| p0 ps]; [discriminate Hlen |].
    cbn [combine]. unfold set_all. cbn [fold_left fst snd].
    fold (set_all (combine ks ps) (dict_set k0 p0 d)).
    destruct k as [| k]; cbn [nth].
    + rewrite lookup_set_all_notin.
      * apply lookup_dict_set_same.
      * intros Hin. apply Hk0.
        apply in_map_iff in Hin. destruct Hin as [[a b] [Ha Hab]].
        cbn [fst] in Ha. subst a. exact (in_combine_l _ _ _ _ Hab).
    + apply IH; simpl in *; lia.
Qed.

Lemma length_header_positions (ls : list string) (i : nat) :
  List.length (header_positions ls i) = List.length (header_courses ls).
Proof.
  revert i. induction ls as [| l ls IH]; intros i; [reflexivity |].
  cbn [header_positions header_courses].
  destruct (matches course_re (strip l)); cbn [List.length]; rewrite IH;
    reflexivity.
Qed.

Lemma find_courses_spec (ls : list string) (i : nat)
      (courses : list (string * string)) (positions : list (string * nat)) :
  find_courses ls i courses positions
  = (courses ++ header_courses ls,
     set_all (combine (map fst (header_courses ls)) (header_positions ls i))
             positions).
Proof.
  revert i courses positions.
  induction ls as [| l ls IH]; intros i courses positions.
  - cbn. rewrite app_nil_r. reflexivity.
  - cbn [find_courses header_courses header_positions].
    destruct (matches course_re (strip l)).
    + destruct (code_and_name (strip l)) as [code name].
      rewrite IH, <- app_assoc. reflexivity.
    + apply IH.
Qed.

(** On a page without a repeated course code, the range of every
    course runs from its header line to the next course header, or to
    the end of the page for the last course. *)
Lemma course_range_distinct (lines : list string) (k : nat)
      (code name : string) :
  let courses := fst (find_courses lines 0 [] []) in
  let positions := snd (find_courses lines 0 [] []) in
  NoDup (map fst courses) ->
  nth_error courses k = Some (code, name) ->
  course_range lines courses positions k code
  = Some (nth k (header_positions lines 0) 0,
          nth (k + 1) (header_positions lines 0) (List.length lines)).
Proof.
  rewrite find_courses_spec. cbn [fst snd app]. intros Hnd Hk.
  set (hc := header_courses lines) in *.
  set (hp := header_positions lines 0).
  assert (Hlen : List.length (map fst hc) = List.length hp).
  { rewrite length_map. symmetry. apply length_header_positions. }
  assert (Hk' : k < List.length hc).
  { apply nth_error_Some. rewrite Hk. discriminate. }
  assert (Hcode : forall j c n, nth_error hc j = Some (c, n) ->
                    nth j (map fst hc) EmptyString = c).
  { intros j c n Hj.
    rewrite (nth_indep _ EmptyString (fst (EmptyString, EmptyString))).
    - rewrite map_nth. rewrite (nth_error_nth _ _ _ Hj). reflexivity.
    - rewrite length_map. apply nth_error_Some. rewrite Hj. discriminate. }
  unfold course_range.
  rewrite <- (Hcode k code name Hk) at 1.
  rewrite lookup_set_all_nodup; [| exact Hnd | exact Hlen
                                 | rewrite length_map; exact Hk'].
  destruct (k + 1 <? List.length hc)%nat eqn:E.
  - apply Nat.ltb_lt in E.
    destruct (nth_error hc (k + 1)) as [[next nm] |] eqn:Hn.
    + rewrite <- (Hcode (k + 1) next nm Hn).
      rewrite lookup_set_all_nodup; [| exact Hnd | exact Hlen
                                     | rewrite length_map; exact E].
      f_equal. f_equal. apply nth_indep.
      rewrite <- Hlen, length_map. exact E.
    + apply nth_error_None in Hn. lia.
  - apply Nat.ltb_ge in E.
    rewrite (nth_overflow hp (List.length lines)); [reflexivity |].
    rewrite <- Hlen, length_map. exact E.
Qed.

(** *** The page parse always returns *)

Lemma map_fst_combine {X Y : Type} (xs : list X) (ys : list Y) :
  List.length xs = List.length ys -> map fst (combine xs ys) = xs.
Proof.
  revert ys. induction xs as [| x xs IH]; intros ys H; [reflexivity |].
  destruct ys as [| y ys]; [discriminate H |].
  cbn [combine map fst]. f_equal. apply IH. simpl in H. lia.
Qed.

Lemma in_enumerate {X : Type} (l : list X) (i : nat) (x : X) :
  In (i, x) (enumerate l) -> nth_error l i = Some x.
Proof.
  intros H. apply In_nth_error in H. destruct H as [n Hn].
  rewrite nth_error_enumerate in Hn.
  destruct (nth_error l n) as [y |] eqn:E; [| discriminate Hn].
  cbn [option_map] in Hn. injection Hn as <- <-. exact E.
Qed.

Lemma process_courses_total
      (lines : list string) (ic iname : string)
      (courses : list (string * string)) (positions : list (string * nat))
      (todo : list (nat * (string * string))) (records : list record) :
  (forall idx code name,
      In (idx, (code, name)) todo -> nth_error courses idx = Some (code, name)) ->
  (forall code, In code (map fst courses) -> lookup code positions <> None) ->
  exists out,
    process_courses lines ic iname courses positions todo records = Some out.
Proof.
  intros Htodo Hpos. revert records.
  induction todo as [| [idx [code name]] todo IH]; intros records.
  - eexists. reflexivity.
  - cbn [process_courses].
    assert (Hidx : nth_error courses idx = Some (code, name))
      by (apply Htodo; left; reflexivity).
    assert (Hr : exists a b, course_range lines courses positions idx code
                             = Some (a, b)).
    { unfold course_range.
      assert (Hc : lookup code positions <> None).
      { apply Hpos. apply nth_error_In in Hidx.
        exact (in_map fst _ _ Hidx). }
      destruct (lookup code positions) as [a |]; [| contradiction].
      destruct (idx + 1 <? List.length courses)%nat eqn:E.
      - apply Nat.ltb_lt in E.
        destruct (nth_error courses (idx + 1)) as [[next nm] |] eqn:Hn.
        + assert (Hx : lookup next positions <> None).
          { apply Hpos. apply nth_error_In in Hn.
            exact (in_map fst _ _ Hn). }
          destruct (lookup next positions) as [b |]; [| contradiction].
          eexists. eexists. reflexivity.
        + apply nth_error_None in Hn. lia.
      - eexists. eexists. reflexivity. }
    destruct Hr as [a [b Hr]]. rewrite Hr.
    destruct (has_sections (slice lines a b)).
    + unfold parse_multi_section_course.
      rewrite multi_loop_total by lia.
      apply IH. intros i c n Hin. apply Htodo. right. exact Hin.
    + apply IH. intros i c n Hin. apply Htodo. right. exact Hin.
Qed.

(** Every page text is parsed to a list of records: no dictionary
    lookup fails and every loop ends. *)
Lemma parse_cutoff_page_complete_total (text : string) :
  exists records, parse_cutoff_page_complete text = Some records.
Proof.
  unfold parse_cutoff_page_complete.
  destruct (find_institute (split_lines text)) as [[ic iname] |];
    [| eexists; reflexivity].
  destruct (is_empty ic); [eexists; reflexivity |].
  rewrite find_courses_spec. cbn [app].
  set (lines := split_lines text).
  destruct (header_courses lines) as [| c0 cs] eqn:E; [eexists; reflexivity |].
  rewrite <- E.
  apply process_courses_total.
  - intros idx code name Hin. exact (in_enumerate _ _ _ Hin).
  - intros code Hin. apply lookup_set_all_present. left.
    rewrite map_fst_combine; [exact Hin |].
    rewrite length_map. symmetry. apply length_header_positions.
Qed.

(** * Further properties of the code *)

(** ** CategoryCorrector: when and how a token changes *)

Lemma lookup_In {V : Type} (k : string) (v : V) (d : list (string * V)) :
  lookup k d = Some v -> In (k, v) d.
Proof.
  induction d as [| [k' v'] d IH]; cbn [lookup]; [discriminate |].
  destruct (String.eqb_spec k k') as [-> | Hne].
  - intros [= ->]. left. reflexivity.
  - intros H. right. exact (IH H).
Qed.

Lemma length_drop_1 (w : string) :
  String.length (drop 1 w) = String.length w - 1.
Proof. destruct w as [| c t]; cbn; [reflexivity | lia]. Qed.

(** The two ways [fix_category_name] changes a token, with the tests
    passed on the way. *)
Lemma fix_changed (w : string) :
  fix_category_name w <> w ->
  (exists v, In (w, v) category_fixes /\ fix_category_name w = v)
  \/ (startswith "S" w = true
      /\ (4 <? String.length w)%nat = true
      /\ mem w ["STAGE"; "STATE"; "STATUS"] = false
      /\ matches category_re (drop 1 w) = true
      /\ fix_category_name w = drop 1 w).
Proof.
  unfold fix_category_name.
  destruct (lookup w category_fixes) as [v |] eqn:E.
  - intros _. left. exists v. split; [exact (lookup_In _ _ _ E) | reflexivity].
  - destruct (startswith "S" w) eqn:HS; cbn [andb]; [| congruence].
    destruct (4 <? String.length w)%nat eqn:HL; cbn [andb]; [| congruence].
    destruct (mem w ["STAGE"; "STATE"; "STATUS"]) eqn:HM; cbn [negb];
      [congruence |].
    destruct (matches category_re (drop 1 w)) eqn:HR; [| congruence].
    intros _. right. repeat split; reflexivity.
Qed.

(** Case analysis on a token found in the correction table. *)
Ltac table_cases H :=
  unfold category_fixes in H; cbn [In] in H;
  repeat (destruct H as [H | H]; [injection H as <- <- |]);
  [.. | destruct H].

(** X1: a token is changed only if it starts with the letter S, is
    none of STAGE, STATE, STATUS, and is longer than four characters
    or is SEWS. *)
Theorem fix_category_name_changes_only (w : string) :
  fix_category_name w <> w ->
  startswith "S" w = true
  /\ mem w ["STAGE"; "STATE"; "STATUS"] = false
  /\ ((4 < String.length w)%nat \/ w = "SEWS").
Proof.
  intros H. destruct (fix_changed w H) as [[v [Hin _]] | [HS [HL [HM _]]]].
  - table_cases Hin;
      (split; [reflexivity | split; [reflexivity |]]);
      first [ right; reflexivity | left; cbn; lia ].
  - split; [exact HS |]. split; [exact HM |].
    left. apply Nat.ltb_lt. exact HL.
Qed.

Lemma fix_category_name_changes_only_witness :
  fix_category_name "SGOPENS" <> "SGOPENS"
  /\ startswith "S" "SGOPENS" = true
  /\ mem "SGOPENS" ["STAGE"; "STATE"; "STATUS"] = false
  /\ ((4 < String.length "SGOPENS")%nat \/ "SGOPENS" = "SEWS").
Proof.
  assert (H : fix_category_name "SGOPENS" <> "SGOPENS")
    by (vm_compute; discriminate).
  split; [exact H |].
  exact (fix_category_name_changes_only "SGOPENS" H).
Defined.

(** X2: whenever the corrector changes a token, the token it returns
    passes the category test. *)
Theorem fix_category_name_result_is_category (w : string) :
  fix_category_name w <> w ->
  is_category (fix_category_name w) = true.
Proof.
  intros H. destruct (fix_changed w H) as [[v [Hin Hv]] | [_ [HL [_ [HR Hd]]]]].
  - rewrite Hv. table_cases Hin; reflexivity.
  - rewrite Hd. unfold is_category. rewrite HR. cbn [andb].
    apply orb_true_iff. left. apply Nat.leb_le.
    rewrite length_drop_1. apply Nat.ltb_lt in HL. lia.
Qed.

Lemma fix_category_name_result_is_category_witness :
  fix_category_name "SDEFRSEBC" <> "SDEFRSEBC"
  /\ is_category (fix_category_name "SDEFRSEBC") = true.
Proof.
  assert (H : fix_category_name "SDEFRSEBC" <> "SDEFRSEBC")
    by (vm_compute; discriminate).
  split; [exact H |].
  exact (fix_category_name_result_is_category "SDEFRSEBC" H).
Defined.

(** X3: the corrector returns the token itself or the token without
    its first character, except on SDEFRSEBC, which becomes DEFRSEBCS;
    it never returns a longer token. *)
Theorem fix_category_name_shape (w : string) :
  (fix_category_name w = w
   \/ fix_category_name w = drop 1 w
   \/ (w = "SDEFRSEBC" /\ fix_category_name w = "DEFRSEBCS"))
  /\ (String.length (fix_category_name w) <= String.length w)%nat.
Proof.
  assert (S : fix_category_name w = w
              \/ fix_category_name w = drop 1 w
              \/ (w = "SDEFRSEBC" /\ fix_category_name w = "DEFRSEBCS")).
  { destruct (String.string_dec (fix_category_name w) w) as [E | N];
      [left; exact E | right].
    destruct (fix_changed w N) as [[v [Hin Hv]] | [_ [_ [_ [_ Hd]]]]].
    - rewrite Hv.
      table_cases Hin;
        first [ right; split; reflexivity | left; reflexivity ].
    - left. exact Hd. }
  split; [exact S |].
  destruct S as [E | [E | [-> E]]]; rewrite E.
  - lia.
  - rewrite length_drop_1. lia.
  - cbn. lia.
Qed.

Lemma iter_fixed_point {X : Type} (f : X -> X) (x : X) (n : nat) :
  f x = x -> Nat.iter n f x = x.
Proof.
  intros H. induction n as [| n IH]; [reflexivity |].
  change (Nat.iter (S n) f x) with (f (Nat.iter n f x)).
  rewrite IH. exact H.
Qed.

Lemma iter_shift {X : Type} (f : X -> X) (x : X) (n : nat) :
  Nat.iter (S n) f x = Nat.iter n f (f x).
Proof.
  induction n as [| n IH]; [reflexivity |].
  change (Nat.iter (S (S n)) f x) with (f (Nat.iter (S n) f x)).
  rewrite IH. reflexivity.
Qed.

Lemma fix_iter_stable (n : nat) :
  forall w, (String.length w <= n)%nat ->
            fix_category_name (Nat.iter n fix_category_name w)
            = Nat.iter n fix_category_name w.
Proof.
  induction n as [| n IH]; intros w Hlen.
  - destruct w; [reflexivity | cbn in Hlen; lia].
  - rewrite iter_shift.
    destruct (proj1 (fix_category_name_shape w)) as [E | [E | [-> E]]].
    + rewrite E. rewrite (iter_fixed_point _ _ n E). exact E.
    + rewrite E. apply IH.
      destruct w as [| c t]; cbn in *; lia.
    + rewrite E. rewrite (iter_fixed_point _ "DEFRSEBCS" n eq_refl).
      reflexivity.
Qed.

(** X4: correcting a token as many times as it has characters reaches
    a token that the corrector leaves unchanged. *)
Theorem fix_category_name_stabilises (w : string) :
  fix_category_name (Nat.iter (String.length w) fix_category_name w)
  = Nat.iter (String.length w) fix_category_name w.
Proof. apply fix_iter_stable. lia. Qed.

(** ** What the patterns accept *)

Lemma append_assoc (a b c : string) : ((a ++ b) ++ c = a ++ (b ++ c))%string.
Proof. induction a as [| x a IH]; cbn; [reflexivity | rewrite IH; reflexivity]. Qed.

Lemma length_append (a b : string) :
  String.length (a ++ b) = String.length a + String.length b.
Proof. induction a as [| x a IH]; cbn; [reflexivity | rewrite IH; reflexivity]. Qed.

Lemma all_chars_app (p : ascii -> bool) (a b : string) :
  all_chars p (a ++ b) = all_chars p a && all_chars p b.
Proof.
  induction a as [| x a IH]; cbn [String.append all_chars]; [reflexivity |].
  rewrite IH. apply andb_assoc.
Qed.

Section MatcherFacts.
Context {A : Type}.
Implicit Types (s : string) (g : option string)
         (k : string -> option string -> option A) (x : A).

Lemma rmatch_cat (r1 r2 : regex) s g k :
  rmatch (Cat r1 r2) s g k = rmatch r1 s g (fun s' g' => rmatch r2 s' g' k).
Proof. reflexivity. Qed.

Lemma rmatch_opt (r : regex) s g k :
  rmatch (Opt r) s g k
  = match rmatch r s g k with Some x => Some x | None => k s g end.
Proof. reflexivity. Qed.

Lemma rmatch_cls_sound (p : ascii -> bool) s g k x :
  rmatch (Cls p) s g k = Some x ->
  exists c t, s = String c t /\ p c = true /\ k t g = Some x.
Proof.
  cbn [rmatch]. destruct s as [| c t]; [discriminate |].
  destruct (p c) eqn:E; [| discriminate].
  intros H. exists c, t. repeat split; assumption.
Qed.

Lemma rmatch_rep_cls_sound (p : ascii -> bool) (n : nat) :
  forall s g k x,
    rmatch (Rep n (Cls p)) s g k = Some x ->
    exists a b, s = (a ++ b)%string /\ String.length a = n
                /\ all_chars p a = true /\ k b g = Some x.
Proof.
  induction n as [| n IH]; intros s g k x H.
  - exists EmptyString, s. repeat split. exact H.
  - cbn [Rep] in H. rewrite rmatch_cat in H.
    apply rmatch_cls_sound in H. destruct H as [c [t [-> [Hc H]]]].
    apply IH in H. destruct H as [a [b [-> [Hl [Ha Hk]]]]].
    exists (String c a), b. cbn. rewrite Hc, Ha, Hl. repeat split. exact Hk.
Qed.

Lemma rmatch_str_sound (lit : string) :
  forall s g k x,
    rmatch (Str lit) s g k = Some x ->
    exists b, s = (lit ++ b)%string /\ k b g = Some x.
Proof.
  induction lit as [| c lit IH]; intros s g k x H.
  - exists s. split; [reflexivity | exact H].
  - cbn [Str] in H. rewrite rmatch_cat in H.
    apply rmatch_cls_sound in H. destruct H as [c' [t [-> [Hc H]]]].
    apply Ascii.eqb_eq in Hc. subst c'.
    apply IH in H. destruct H as [b [-> Hk]].
    exists b. split; [reflexivity | exact Hk].
Qed.

Lemma rmatch_star_cls_sound (p : ascii -> bool) s g k x :
  rmatch (Star (Cls p)) s g k = Some x ->
  exists a b, s = (a ++ b)%string /\ all_chars p a = true /\ k b g = Some x.
Proof.
  cbn [rmatch]. generalize (String.length s) at 1. intros n.
  revert s g. induction n as [| n IH]; intros s g H.
  - exists EmptyString, s. repeat split. exact H.
  - destruct s as [| c t].
    + exists EmptyString, EmptyString. repeat split. exact H.
    + destruct (p c) eqn:Hc.
      * assert (L : (String.length t <? String.length (String c t))%nat = true)
          by (apply Nat.ltb_lt; cbn; lia).
        rewrite L in H.
        match type of H with
        | match ?e with _ => _ end = _ => destruct e as [y |] eqn:E
        end.
        -- injection H as <-. apply IH in E.
           destruct E as [a [b [-> [Ha Hk]]]].
           exists (String c a), b. cbn. rewrite Hc, Ha. repeat split. exact Hk.
        -- exists EmptyString, (String c t). repeat split. exact H.
      * exists EmptyString, (String c t). repeat split. exact H.
Qed.

Lemma rmatch_eos_sound s g k x :
  rmatch Eos s g k = Some x ->
  (s = EmptyString \/ s = String newline EmptyString) /\ k s g = Some x.
Proof.
  cbn [rmatch]. destruct s as [| c [| c' t]]; [| | discriminate].
  - intros H. split; [left; reflexivity | exact H].
  - destruct (Ascii.eqb_spec c newline) as [-> | _]; [| discriminate].
    intros H. split; [right; reflexivity | exact H].
Qed.
End MatcherFacts.

Lemma one_of_HOS (c : ascii) :
  one_of "HOS" c = true -> In (String c EmptyString) category_suffixes.
Proof.
  unfold one_of. cbn [list_ascii_of_string existsb]. intros H.
  repeat (apply orb_true_iff in H; destruct H as [H | H]);
    try discriminate H; apply Ascii.eqb_eq in H; subst c; cbn; tauto.
Qed.

(** X5: a token that passes the category test consists of two or more
    capital letters, then digits (possibly none), then at most one of
    H, O, S, and nothing else but a single final line feed; leading
    digits, lower case letters and punctuation are rejected. *)
Theorem is_category_shape (w : string) :
  is_category w = true ->
  exists U D H E,
    w = (U ++ D ++ H ++ E)%string
    /\ (2 <= String.length U)%nat
    /\ all_chars upper U = true
    /\ all_chars digit D = true
    /\ In H category_suffixes
    /\ (E = EmptyString \/ E = String newline EmptyString).
Proof.
  unfold is_category. intros H.
  apply orb_true_iff in H. destruct H as [H | H].
  - apply andb_true_iff in H. destruct H as [H _].
    unfold matches, re_match in H.
    match type of H with
    | match ?e with _ => _ end = _ => destruct e as [res |] eqn:E
    end; [clear H | discriminate H].
    unfold category_re, AtLeast in E. rewrite !rmatch_cat in E.
    apply rmatch_rep_cls_sound in E. destruct E as [u2 [b [-> [L2 [U2 E]]]]].
    apply rmatch_star_cls_sound in E. destruct E as [us [b' [-> [Us E]]]].
    rewrite rmatch_cat in E.
    apply rmatch_star_cls_sound in E. destruct E as [ds [b'' [-> [Ds E]]]].
    rewrite rmatch_cat, rmatch_opt in E.
    match type of E with
    | match ?e with _ => _ end = _ => destruct e as [y |] eqn:O
    end.
    + apply rmatch_cls_sound in O. destruct O as [c [t [-> [Hc O]]]].
      apply rmatch_eos_sound in O. destruct O as [Ht _].
      exists (u2 ++ us)%string, ds, (String c EmptyString), t.
      split; [rewrite append_assoc; reflexivity |].
      split; [rewrite length_append; lia |].
      split; [rewrite all_chars_app, U2, Us; reflexivity |].
      split; [exact Ds |].
      split; [exact (one_of_HOS c Hc) | exact Ht].
    + apply rmatch_eos_sound in E. destruct E as [Ht _].
      exists (u2 ++ us)%string, ds, EmptyString, b''.
      split; [rewrite append_assoc; reflexivity |].
      split; [rewrite length_append; lia |].
      split; [rewrite all_chars_app, U2, Us; reflexivity |].
      split; [exact Ds |].
      split; [cbn; tauto | exact Ht].
  - apply String.eqb_eq in H. subst w.
    exists "EWS", EmptyString, EmptyString, EmptyString.
    repeat split; cbn; auto.
Qed.

Lemma is_category_shape_witness :
  exists U D H E,
    "GNT1S" = (U ++ D ++ H ++ E)%string
    /\ (2 <= String.length U)%nat
    /\ all_chars upper U = true
    /\ all_chars digit D = true
    /\ In H category_suffixes
    /\ (E = EmptyString \/ E = String newline EmptyString).
Proof.
  apply (is_category_shape "GNT1S"). vm_compute. reflexivity.
Defined.

(** ** Institute and course header lines *)

Lemma partition_unfold (sep s : string) :
  partition sep s
  = if String.prefix sep s
    then Some (EmptyString, drop (String.length sep) s)
    else match s with
         | EmptyString => None
         | String c t =>
             match partition sep t with
             | Some (a, b) => Some (String c a, b)
             | None => None
             end
         end.
Proof. destruct s; reflexivity. Qed.

Lemma digit_not_space (c : ascii) : digit c = true -> Ascii.eqb " " c = false.
Proof.
  intros H. destruct (Ascii.eqb_spec " " c) as [<- | _]; [| reflexivity].
  vm_compute in H. discriminate H.
Qed.

Lemma partition_after_digits (code rest : string) :
  all_chars digit code = true ->
  partition " - " (code ++ " - " ++ rest) = Some (code, rest).
Proof.
  induction code as [| c code IH]; intros H; cbn [String.append] in *.
  - rewrite partition_unfold.
    rewrite !prefix_cons, !Ascii.eqb_refl, prefix_nil.
    reflexivity.
  - cbn [all_chars] in H. apply andb_true_iff in H. destruct H as [Hc H].
    rewrite partition_unfold.
    rewrite prefix_cons, (digit_not_space c Hc). cbn [andb].
    rewrite (IH H). reflexivity.
Qed.

Lemma header_line_split (n : nat) (line : string) :
  matches (Cat (Rep n (Cls digit)) (Str " - ")) line = true ->
  exists code name,
    line = (code ++ " - " ++ name)%string
    /\ String.length code = n
    /\ all_chars digit code = true
    /\ code_and_name line = (code, name).
Proof.
  unfold matches, re_match. intros H.
  match type of H with
  | match ?e with _ => _ end = _ => destruct e as [res |] eqn:E
  end; [clear H | discriminate H].
  rewrite rmatch_cat in E.
  apply rmatch_rep_cls_sound in E. destruct E as [code [b [-> [L [D E]]]]].
  apply rmatch_str_sound in E. destruct E as [name [-> _]].
  exists code, name. repeat split; try assumption.
  unfold code_and_name, split1.
  rewrite (partition_after_digits code name D). reflexivity.
Qed.

(** X7: on a stripped line that matches the institute pattern, the
    code read from it is its first five characters, all digits, and
    the name is everything after the separator that follows them; on
    a line that matches the course pattern the code is its first ten
    characters, all digits.  A separator inside the name is kept. *)
Theorem header_code_and_name (line : string) :
  (matches institute_re line = true ->
   line = (fst (code_and_name line) ++ " - " ++ snd (code_and_name line))%string
   /\ String.length (fst (code_and_name line)) = 5
   /\ all_chars digit (fst (code_and_name line)) = true)
  /\ (matches course_re line = true ->
      line = (fst (code_and_name line) ++ " - " ++ snd (code_and_name line))%string
      /\ String.length (fst (code_and_name line)) = 10
      /\ all_chars digit (fst (code_and_name line)) = true).
Proof.
  split; intros H; apply header_line_split in H;
    destruct H as [code [name [Hl [Hn [Hd Hc]]]]];
    rewrite Hc; cbn [fst snd]; repeat split; assumption.
Qed.

Lemma header_code_and_name_witness :
  code_and_name "12345 - ABC - Pune" = ("12345", "ABC - Pune")
  /\ String.length (fst (code_and_name "12345 - ABC - Pune")) = 5
  /\ String.length (fst (code_and_name "1234567890 - Civil")) = 10.
Proof.
  split; [reflexivity |].
  split.
  - apply (proj1 (header_code_and_name "12345 - ABC - Pune")).
    vm_compute. reflexivity.
  - apply (proj2 (header_code_and_name "1234567890 - Civil")).
    vm_compute. reflexivity.
Defined.

(** ** Invariants of the records of a page *)

Lemma categories_of_valid (words : list string) :
  Forall (fun c => is_category c = true) (categories_of words).
Proof.
  apply Forall_forall. intros c H. unfold categories_of in H.
  apply filter_In in H. exact (proj2 H).
Qed.

Lemma collect_categories_valid (ls : list string) (j : nat) :
  Forall (fun c => is_category c = true) (fst (collect_categories ls j)).
Proof.
  revert j. induction ls as [| l rest IH]; intros j; cbn [collect_categories].
  - constructor.
  - destruct (is_data_line (strip l)); [constructor |].
    destruct (is_structural (strip l)); [constructor |].
    specialize (IH (j + 1)).
    destruct (collect_categories rest (j + 1)) as [more d]. cbn [fst] in *.
    apply Forall_app. split; [apply categories_of_valid | exact IH].
Qed.

Lemma find_header_valid (ls : list string) (i : nat) :
  Forall (fun c => is_category c = true) (fst (find_header ls i)).
Proof.
  revert i. induction ls as [| l rest IH]; intros i; cbn [find_header].
  - constructor.
  - destruct (is_main_header (strip l)); [| apply IH].
    pose proof (collect_categories_valid rest (i + 1)) as H.
    destruct (collect_categories rest (i + 1)) as [more d]. cbn [fst] in *.
    apply Forall_app. split; [apply categories_of_valid | exact H].
Qed.

Lemma section_categories_valid (ls : list string) (j : nat) :
  Forall (fun c => is_category c = true) (snd (section_categories ls j)).
Proof.
  revert j. induction ls as [| l rest IH]; intros j; cbn [section_categories].
  - constructor.
  - destruct (is_category_stop (strip l)); [constructor |].
    specialize (IH (j + 1)).
    destruct (section_categories rest (j + 1)) as [j' more]. cbn [snd] in *.
    apply Forall_app. split; [| exact IH].
    destruct (is_empty (strip l)); [constructor | apply categories_of_valid].
Qed.

Lemma extract_percentiles_in_range (line : string) :
  Forall (fun v => in_range v = true) (extract_percentiles line).
Proof.
  rewrite extract_percentiles_captured. unfold captured_in_range.
  apply Forall_forall. intros v H. apply filter_In in H. exact (proj2 H).
Qed.

Lemma simple_percentiles_in_range (ls : list string) :
  Forall (fun v => in_range v = true) (simple_percentiles ls).
Proof.
  induction ls as [| l rest IH]; cbn [simple_percentiles]; [constructor |].
  destruct (is_percentile_stop (strip l)).
  - apply extract_percentiles_in_range.
  - apply Forall_app. split; [apply extract_percentiles_in_range | exact IH].
Qed.

Lemma section_percentiles_in_range (ls : list string) (j : nat) :
  Forall (fun v => in_range v = true) (snd (section_percentiles ls j)).
Proof.
  revert j. induction ls as [| l rest IH]; intros j;
    cbn [section_percentiles]; [constructor |].
  destruct (is_data_stop (strip l)).
  - apply extract_percentiles_in_range.
  - specialize (IH (j + 1)).
    destruct (section_percentiles rest (j + 1)) as [j' more]. cbn [snd] in *.
    apply Forall_app. split; [apply extract_percentiles_in_range | exact IH].
Qed.

Section RecordInvariant.
Variables (ic iname cc cname : string) (courses : list (string * string)).
Hypothesis Hcourse : In (cc, cname) courses.

Lemma make_records_page_record (C : list string) (P : list spec_float) :
  Forall (fun c => is_category c = true) C ->
  Forall (fun v => in_range v = true) P ->
  Forall (page_record ic iname courses) (make_records ic iname cc cname C P).
Proof.
  intros HC HP. apply Forall_forall. intros r Hr.
  apply In_nth_error in Hr. destruct Hr as [i Hi].
  rewrite nth_error_make_records in Hi.
  destruct (nth_error C i) as [c |] eqn:E; [| discriminate Hi].
  injection Hi as <-. unfold page_record. cbn.
  repeat split; try exact Hcourse.
  - apply nth_error_In in E. exact (proj1 (Forall_forall _ _) HC c E).
  - destruct (nth_error P i) as [v |] eqn:EP; [| reflexivity].
    apply nth_error_In in EP. exact (proj1 (Forall_forall _ _) HP v EP).
Qed.

Lemma parse_simple_page_record (cs : list string) :
  Forall (page_record ic iname courses)
         (parse_simple_table_course ic iname cc cname cs).
Proof.
  rewrite parse_simple_unfold.
  destruct (fst (find_header cs 0)) eqn:E; [constructor |].
  rewrite <- E. apply make_records_page_record.
  - apply find_header_valid.
  - destruct (snd (find_header cs 0)); [| constructor].
    apply simple_percentiles_in_range.
Qed.

Lemma section_at_page_record (cs : list string) (i : nat) :
  Forall (page_record ic iname courses)
         (snd (section_at ic iname cc cname cs i)).
Proof.
  unfold section_at.
  pose proof (section_categories_valid (skipn (i + 1) cs) (i + 1)) as HC.
  destruct (section_categories (skipn (i + 1) cs) (i + 1)) as [j cats].
  pose proof (section_percentiles_in_range (skipn j cs) j) as HP.
  destruct (section_percentiles (skipn j cs) j) as [j' pcts].
  cbn [snd] in *. apply make_records_page_record; assumption.
Qed.

Lemma parse_multi_page_record (cs : list string) (recs : list record) :
  parse_multi_section_course ic iname cc cname cs = Some recs ->
  Forall (page_record ic iname courses) recs.
Proof.
  unfold parse_multi_section_course.
  rewrite multi_loop_total by lia. intros [= <-]. cbn [app].
  apply Forall_forall. intros r Hr.
  apply in_flat_map in Hr. destruct Hr as [k [_ Hr]].
  exact (proj1 (Forall_forall _ _) (section_at_page_record cs k) r Hr).
Qed.
End RecordInvariant.

Lemma process_courses_page_record
      (lines : list string) (ic iname : string)
      (courses : list (string * string)) (positions : list (string * nat))
      (all : list (string * string))
      (todo : list (nat * (string * string))) (records out : list record) :
  (forall idx code name, In (idx, (code, name)) todo -> In (code, name) all) ->
  Forall (page_record ic iname all) records ->
  process_courses lines ic iname courses positions todo records = Some out ->
  Forall (page_record ic iname all) out.
Proof.
  revert records.
  induction todo as [| [idx [code name]] todo IH]; intros records Hin Hrec H.
  - cbn in H. injection H as <-. exact Hrec.
  - cbn [process_courses] in H.
    destruct (course_range lines courses positions idx code) as [[a b] |];
      [| discriminate H].
    assert (Hc : In (code, name) all) by (apply (Hin idx); left; reflexivity).
    assert (Hin' : forall i c n, In (i, (c, n)) todo -> In (c, n) all)
      by (intros i c n Hi; apply (Hin i); right; exact Hi).
    destruct (has_sections (slice lines a b)).
    + destruct (parse_multi_section_course ic iname code name (slice lines a b))
        as [recs |] eqn:E; [| discriminate H].
      apply (IH _ Hin' ) in H; [exact H |].
      apply Forall_app. split; [exact Hrec |].
      exact (parse_multi_page_record ic iname code name all Hc _ _ E).
    + apply (IH _ Hin') in H; [exact H |].
      apply Forall_app. split; [exact Hrec |].
      exact (parse_simple_page_record ic iname code name all Hc _).
Qed.

Lemma in_enumerate_In {X : Type} (l : list X) (i : nat) (x : X) :
  In (i, x) (enumerate l) -> In x l.
Proof. intros H. apply in_enumerate in H. exact (nth_error_In _ _ H). Qed.

(** Every record of a page belongs to the institute found on it. *)
Lemma page_records_invariant (text : string) (recs : list record) :
  parse_cutoff_page_complete text = Some recs ->
  forall r, In r recs ->
    exists ic iname,
      find_institute (split_lines text) = Some (ic, iname)
      /\ page_record ic iname (header_courses (split_lines text)) r.
Proof.
  unfold parse_cutoff_page_complete.
  destruct (find_institute (split_lines text)) as [[ic iname] |] eqn:EI;
    [| intros [= <-] r []].
  destruct (is_empty ic); [intros [= <-] r [] |].
  rewrite find_courses_spec. cbn [app].
  destruct (header_courses (split_lines text)) as [| c0 cs] eqn:E;
    [intros [= <-] r [] |].
  rewrite <- E. intros H r Hr.
  exists ic, iname. split; [reflexivity |].
  apply process_courses_page_record
    with (all := header_courses (split_lines text)) in H.
  - exact (proj1 (Forall_forall _ _) H r Hr).
  - intros idx code name Hin. exact (in_enumerate_In _ _ _ Hin).
  - constructor.
Qed.

Lemma find_institute_line (lines : list string) (ic iname : string) :
  find_institute lines = Some (ic, iname) ->
  exists l, In l lines /\ matches institute_re (strip l) = true
            /\ code_and_name (strip l) = (ic, iname).
Proof.
  induction lines as [| l rest IH]; cbn [find_institute]; [discriminate |].
  destruct (matches institute_re (strip l)) eqn:E.
  - intros H. exists l.
    split; [left; reflexivity |]. split; [exact E | congruence].
  - intros H. destruct (IH H) as [l' [Hin Hl']].
    exists l'. split; [right; exact Hin | exact Hl'].
Qed.

Lemma header_courses_line (lines : list string) (code name : string) :
  In (code, name) (header_courses lines) ->
  exists l, In l lines /\ matches course_re (strip l) = true
            /\ code_and_name (strip l) = (code, name).
Proof.
  induction lines as [| l rest IH]; cbn [header_courses]; [intros [] |].
  destruct (matches course_re (strip l)) eqn:E.
  - intros [H | H].
    + exists l. split; [left; reflexivity |]. split; [exact E | exact H].
    + destruct (IH H) as [l' [Hin Hl']].
      exists l'. split; [right; exact Hin | exact Hl'].
  - intros H. destruct (IH H) as [l' [Hin Hl']].
    exists l'. split; [right; exact Hin | exact Hl'].
Qed.

(** X8: in every record a page parse returns, the institute code is
    five decimal digits and the course code is ten decimal digits. *)
Theorem page_records_codes (text : string) (recs : list record) :
  parse_cutoff_page_complete text = Some recs ->
  Forall (fun r =>
            String.length (Institute_Code r) = 5
            /\ all_chars digit (Institute_Code r) = true
            /\ String.length (Course_Code r) = 10
            /\ all_chars digit (Course_Code r) = true) recs.
Proof.
  intros H. apply Forall_forall. intros r Hr.
  destruct (page_records_invariant text recs H r Hr)
    as [ic [iname [HI [Hic [_ [Hc _]]]]]].
  apply find_institute_line in HI. destruct HI as [l [_ [Hm Hcn]]].
  apply header_courses_line in Hc. destruct Hc as [l' [_ [Hm' Hcn']]].
  apply header_line_split in Hm. destruct Hm as [c [n [_ [L [D E]]]]].
  apply header_line_split in Hm'. destruct Hm' as [c' [n' [_ [L' [D' E']]]]].
  rewrite Hcn in E. injection E as <- <-.
  rewrite Hcn' in E'. injection E' as E1 E2.
  rewrite Hic, E1. repeat split; assumption.
Qed.

Lemma page_records_codes_witness :
  exists recs,
    parse_cutoff_page_complete example_page8 = Some recs
    /\ recs <> []
    /\ Forall (fun r =>
                 String.length (Institute_Code r) = 5
                 /\ all_chars digit (Institute_Code r) = true
                 /\ String.length (Course_Code r) = 10
                 /\ all_chars digit (Course_Code r) = true) recs.
Proof.
  eexists. split; [vm_compute; reflexivity |].
  split; [discriminate |].
  apply (page_records_codes example_page8). vm_compute. reflexivity.
Defined.

(** X9: every record a page parse returns carries the code and name
    read from the first institute line of the page, and the code and
    name read from one of the course header lines of the page. *)
Theorem page_records_institute_and_course (text : string) (recs : list record) :
  parse_cutoff_page_complete text = Some recs ->
  Forall (fun r =>
            find_institute (split_lines text)
            = Some (Institute_Code r, Institute_Name r)
            /\ In (Course_Code r, Course r)
                  (header_courses (split_lines text))) recs.
Proof.
  intros H. apply Forall_forall. intros r Hr.
  destruct (page_records_invariant text recs H r Hr)
    as [ic [iname [HI [Hic [Hin [Hc _]]]]]].
  rewrite Hic, Hin. split; [exact HI | exact Hc].
Qed.

Lemma page_records_institute_and_course_witness :
  exists recs,
    parse_cutoff_page_complete two_section_page = Some recs
    /\ recs <> []
    /\ Forall (fun r =>
                 find_institute (split_lines two_section_page)
                 = Some (Institute_Code r, Institute_Name r)
                 /\ In (Course_Code r, Course r)
                       (header_courses (split_lines two_section_page))) recs.
Proof.
  eexists. split; [vm_compute; reflexivity |].
  split; [discriminate |].
  apply (page_records_institute_and_course two_section_page). vm_compute. reflexivity.
Defined.

(** X10: the category of every record a page parse returns passes the
    category test. *)
Theorem page_records_categories (text : string) (recs : list record) :
  parse_cutoff_page_complete text = Some recs ->
  Forall (fun r => is_category (Category r) = true) recs.
Proof.
  intros H. apply Forall_forall. intros r Hr.
  destruct (page_records_invariant text recs H r Hr)
    as [ic [iname [_ [_ [_ [_ [Hcat _]]]]]]].
  exact Hcat.
Qed.

Lemma page_records_categories_witness :
  exists recs,
    parse_cutoff_page_complete example_page8 = Some recs
    /\ recs <> []
    /\ Forall (fun r =>
                 is_category (Category r) = true) recs.
Proof.
  eexists. split; [vm_compute; reflexivity |].
  split; [discriminate |].
  apply (page_records_categories example_page8). vm_compute. reflexivity.
Defined.

(** X11: the percentile of every record a page parse returns is
    absent or a number from 0 to 100, both included. *)
Theorem page_records_percentiles (text : string) (recs : list record) :
  parse_cutoff_page_complete text = Some recs ->
  Forall (fun r =>
            match Percentile r with
            | None => True
            | Some v => PyFloat.leb (PyFloat.of_int 0) v = true
                        /\ PyFloat.leb v (PyFloat.of_int 100) = true
            end) recs.
Proof.
  intros H. apply Forall_forall. intros r Hr.
  destruct (page_records_invariant text recs H r Hr)
    as [ic [iname [_ [_ [_ [_ [_ Hp]]]]]]].
  destruct (Percentile r) as [v |]; [| exact I].
  cbn [percentile_ok] in Hp. unfold in_range in Hp.
  apply andb_true_iff in Hp. exact Hp.
Qed.

Lemma page_records_percentiles_witness :
  exists recs,
    parse_cutoff_page_complete two_section_page = Some recs
    /\ recs <> []
    /\ Forall (fun r =>
                 match Percentile r with
                 | None => True
                 | Some v => PyFloat.leb (PyFloat.of_int 0) v = true
                             /\ PyFloat.leb v (PyFloat.of_int 100) = true
                 end) recs.
Proof.
  eexists. split; [vm_compute; reflexivity |].
  split; [discriminate |].
  apply (page_records_percentiles two_section_page). vm_compute. reflexivity.
Defined.

(** ** Pages and blocks without headers *)

Lemma header_courses_none (lines : list string) :
  existsb (fun l => matches course_re (strip l)) lines = false ->
  header_courses lines = [].
Proof.
  induction lines as [| l rest IH]; cbn [existsb header_courses];
    [reflexivity |].
  intros H. apply orb_false_iff in H. destruct H as [Hl Hr].
  rewrite Hl. exact (IH Hr).
Qed.

(** X12: a page on which no stripped line matches the course pattern
    (ten digits, space, hyphen, space) yields no records, with or
    without an institute line. *)
Theorem no_course_no_records (text : string) :
  existsb (fun l => matches course_re (strip l)) (split_lines text) = false ->
  parse_cutoff_page_complete text = Some [].
Proof.
  intros H. unfold parse_cutoff_page_complete.
  destruct (find_institute (split_lines text)) as [[ic iname] |];
    [| reflexivity].
  destruct (is_empty ic); [reflexivity |].
  rewrite find_courses_spec, (header_courses_none _ H). reflexivity.
Qed.

Lemma no_course_no_records_witness :
  find_institute
    (split_lines
       (unlines [ "12345 - ABC College Of Engineering";
                  "GOPENS GOPENH GSCS GSTS GVJS GNT1S GNT2S GOBCS";
                  "I 1 (99.99) 2 (95.00)" ]))
  = Some ("12345", "ABC College Of Engineering")
  /\ parse_cutoff_page_complete
       (unlines [ "12345 - ABC College Of Engineering";
                  "GOPENS GOPENH GSCS GSTS GVJS GNT1S GNT2S GOBCS";
                  "I 1 (99.99) 2 (95.00)" ])
     = Some [].
Proof.
  split; [vm_compute; reflexivity |].
  apply no_course_no_records. vm_compute. reflexivity.
Defined.

(** X13: a simple-layout block in which no stripped line contains
    GOPENS or GOPENH among at least eight words yields no records,
    whatever categories and values it holds. *)
Theorem no_main_header_no_records
        (ic iname cc cname : string) (cs : list string) :
  Forall (fun l => is_main_header (strip l) = false) cs ->
  parse_simple_table_course ic iname cc cname cs = [].
Proof.
  intros H. unfold parse_simple_table_course.
  pose proof (find_header_skip cs [] 0 H) as E.
  rewrite app_nil_r in E. rewrite E. reflexivity.
Qed.

Lemma no_main_header_no_records_witness :
  parse_simple_table_course "12345" "ABC" "1234567890" "Comp"
    [ "GOPENS GOPENH GSCS GSTS GVJS GNT1S GNT2S";
      "OBC SC ST VJ NT1 NT2 NT3 EWS TFWS";
      "I 1 (99.99) 2 (95.00)" ] = [].
Proof.
  apply no_main_header_no_records. repeat constructor.
Defined.

(** X14: a multi-section block in which no stripped line passes the
    section test yields no records; in particular a block that holds
    the layout marker [Home University Seats Allotted] without a whole
    section marker loses its table. *)
Theorem no_section_no_records
        (ic iname cc cname : string) (cs : list string) :
  Forall (fun l => is_section_header (strip l) = false) cs ->
  parse_multi_section_course ic iname cc cname cs = Some [].
Proof.
  intros H. unfold parse_multi_section_course.
  rewrite multi_loop_total by lia. cbn [app].
  destruct (opened_sections ic iname cc cname (S (List.length cs)) cs 0)
    as [| n rest] eqn:E; [reflexivity |].
  exfalso.
  assert (Hn : In n (opened_sections ic iname cc cname
                       (S (List.length cs)) cs 0))
    by (rewrite E; left; reflexivity).
  apply opened_sections_sound in Hn. destruct Hn as [[_ Hlt] Hh].
  pose proof (proj1 (Forall_forall _ _) H (nth n cs EmptyString)
                    (nth_In cs EmptyString Hlt)) as Hf.
  rewrite Hf in Hh. discriminate Hh.
Qed.

Lemma no_section_no_records_witness :
  has_sections truncated_marker_block = true
  /\ block_records "12345" "ABC" "1234567890" "Comp" truncated_marker_block
     = []
  /\ List.length (parse_simple_table_course "12345" "ABC" "1234567890" "Comp"
                    truncated_marker_block) = 8
  /\ parse_multi_section_course "12345" "ABC" "1234567890" "Comp"
       truncated_marker_block = Some [].
Proof.
  split; [vm_compute; reflexivity |].
  split; [vm_compute; reflexivity |].
  split; [vm_compute; reflexivity |].
  apply no_section_no_records. repeat constructor.
Defined.

(** ** SimpleTableParser: lines before the main header *)

Lemma collect_categories_shift (ls : list string) (j : nat) :
  collect_categories ls j
  = (fst (collect_categories ls 0),
     option_map (Nat.add j) (snd (collect_categories ls 0))).
Proof.
  revert j. induction ls as [| l rest IH]; intros j; cbn [collect_categories].
  - reflexivity.
  - destruct (is_data_line (strip l));
      [cbn; rewrite Nat.add_0_r; reflexivity |].
    destruct (is_structural (strip l));
      [cbn; rewrite Nat.add_0_r; reflexivity |].
    rewrite (IH (j + 1)), (IH (0 + 1)). cbn [fst snd].
    f_equal. destruct (snd (collect_categories rest 0)) as [d |];
      [| reflexivity].
    cbn. f_equal. lia.
Qed.

Lemma find_header_shift (ls : list string) (i : nat) :
  find_header ls i
  = (fst (find_header ls 0), option_map (Nat.add i) (snd (find_header ls 0))).
Proof.
  revert i. induction ls as [| l rest IH]; intros i; cbn [find_header].
  - reflexivity.
  - destruct (is_main_header (strip l)).
    + rewrite (collect_categories_shift rest (i + 1)),
        (collect_categories_shift rest (0 + 1)). cbn [fst snd].
      f_equal. destruct (snd (collect_categories rest 0)) as [d |];
        [| reflexivity].
      cbn. f_equal. lia.
    + rewrite (IH (i + 1)), (IH (0 + 1)). cbn [fst snd].
      f_equal. destruct (snd (find_header rest 0)) as [d |]; [| reflexivity].
      cbn. f_equal. lia.
Qed.

Lemma skipn_app_length {X : Type} (a b : list X) (d : nat) :
  skipn (List.length a + d) (a ++ b) = skipn d b.
Proof. induction a as [| x a IH]; [reflexivity | exact IH]. Qed.

(** X15: lines before the main header of a simple-layout block have
    no effect: when none of them is a main header, the block yields
    the same records as the block without them. *)
Theorem lines_before_header_ignored
        (ic iname cc cname : string) (before rest : list string) :
  Forall (fun l => is_main_header (strip l) = false) before ->
  parse_simple_table_course ic iname cc cname (before ++ rest)
  = parse_simple_table_course ic iname cc cname rest.
Proof.
  intros H. rewrite !parse_simple_unfold.
  rewrite (find_header_skip before rest 0 H). cbn [Nat.add].
  rewrite (find_header_shift rest (List.length before)). cbn [fst snd].
  destruct (fst (find_header rest 0)); [reflexivity |].
  f_equal. destruct (snd (find_header rest 0)) as [d |]; [| reflexivity].
  cbn [option_map]. rewrite skipn_app_length. reflexivity.
Qed.

Lemma lines_before_header_ignored_witness :
  parse_simple_table_course "12345" "ABC" "1234567890" "Comp"
    ([ "1234567890 - Computer Engineering"; "Status: (12.5) GOPENS" ]
       ++ [ "GOPENS GOPENH GSCS GSTS GVJS GNT1S GNT2S GOBCS";
            "I 1 (99.99) 2 (95.00)" ])
  = parse_simple_table_course "12345" "ABC" "1234567890" "Comp"
      [ "GOPENS GOPENH GSCS GSTS GVJS GNT1S GNT2S GOBCS";
        "I 1 (99.99) 2 (95.00)" ].
Proof.
  apply lines_before_header_ignored. repeat constructor.
Defined.

(** ** Both block parsers read stripped lines only *)

Lemma lstrip_nonspace (c : ascii) (t : string) :
  isspace c = false -> lstrip (String c t) = String c t.
Proof. intros H. cbn [lstrip]. rewrite H. reflexivity. Qed.

Lemma lstrip_head (s : string) :
  lstrip s = EmptyString
  \/ exists c t, lstrip s = String c t /\ isspace c = false.
Proof.
  induction s as [| c t IH]; [left; reflexivity |].
  cbn [lstrip]. destruct (isspace c) eqn:E; [exact IH |].
  right. exists c, t. split; [reflexivity | exact E].
Qed.

Lemma rstrip_nonspace (c : ascii) (t : string) :
  isspace c = false -> rstrip (String c t) = String c (rstrip t).
Proof. intros H. cbn [rstrip]. rewrite H, andb_false_r. reflexivity. Qed.

Lemma rstrip_idempotent (s : string) : rstrip (rstrip s) = rstrip s.
Proof.
  induction s as [| c t IH]; [reflexivity |].
  cbn [rstrip].
  destruct (is_empty (rstrip t) && isspace c) eqn:E; [reflexivity |].
  cbn [rstrip]. rewrite IH, E. reflexivity.
Qed.

Lemma strip_idempotent (s : string) : strip (strip s) = strip s.
Proof.
  unfold strip.
  destruct (lstrip_head s) as [E | [c [t [E Hc]]]]; rewrite E.
  - reflexivity.
  - rewrite (rstrip_nonspace c t Hc), (lstrip_nonspace c _ Hc).
    rewrite (rstrip_nonspace c _ Hc), rstrip_idempotent. reflexivity.
Qed.

Lemma collect_categories_strip (ls : list string) (j : nat) :
  collect_categories (map strip ls) j = collect_categories ls j.
Proof.
  revert j. induction ls as [| l rest IH]; intros j; [reflexivity |].
  cbn [map collect_categories]. rewrite strip_idempotent, IH. reflexivity.
Qed.

Lemma find_header_strip (ls : list string) (i : nat) :
  find_header (map strip ls) i = find_header ls i.
Proof.
  revert i. induction ls as [| l rest IH]; intros i; [reflexivity |].
  cbn [map find_header].
  rewrite strip_idempotent, IH, collect_categories_strip. reflexivity.
Qed.

Lemma simple_percentiles_strip (ls : list string) :
  simple_percentiles (map strip ls) = simple_percentiles ls.
Proof.
  induction ls as [| l rest IH]; [reflexivity |].
  cbn [map simple_percentiles]. rewrite strip_idempotent, IH. reflexivity.
Qed.

Lemma section_categories_strip (ls : list string) (j : nat) :
  section_categories (map strip ls) j = section_categories ls j.
Proof.
  revert j. induction ls as [| l rest IH]; intros j; [reflexivity |].
  cbn [map section_categories]. rewrite strip_idempotent, IH. reflexivity.
Qed.

Lemma section_percentiles_strip (ls : list string) (j : nat) :
  section_percentiles (map strip ls) j = section_percentiles ls j.
Proof.
  revert j. induction ls as [| l rest IH]; intros j; [reflexivity |].
  cbn [map section_percentiles]. rewrite strip_idempotent, IH. reflexivity.
Qed.

Lemma section_at_strip (ic iname cc cname : string) (cs : list string) (i : nat) :
  section_at ic iname cc cname (map strip cs) i
  = section_at ic iname cc cname cs i.
Proof.
  unfold section_at.
  rewrite skipn_map, section_categories_strip.
  destruct (section_categories (skipn (i + 1) cs) (i + 1)) as [j cats].
  rewrite skipn_map, section_percentiles_strip. reflexivity.
Qed.

Lemma nth_map_strip (cs : list string) (i : nat) :
  strip (nth i (map strip cs) EmptyString) = strip (nth i cs EmptyString).
Proof.
  change EmptyString with (strip EmptyString) at 1.
  rewrite map_nth. apply strip_idempotent.
Qed.

Lemma multi_loop_strip (ic iname cc cname : string) (fuel : nat)
      (cs : list string) (i : nat) (records : list record) :
  multi_loop ic iname cc cname fuel (map strip cs) i records
  = multi_loop ic iname cc cname fuel cs i records.
Proof.
  revert i records. induction fuel as [| fuel IH]; intros i records;
    [reflexivity |].
  cbn [multi_loop]. rewrite length_map, nth_map_strip, section_at_strip.
  destruct (i <? List.length cs)%nat; [| reflexivity].
  destruct (is_section_header (strip (nth i cs EmptyString))).
  - destruct (section_at ic iname cc cname cs i) as [j recs]. apply IH.
  - apply IH.
Qed.

(** X16: both block parsers look at their lines only after stripping
    them: white space at the start or end of any line of a course
    block changes no record. *)
Theorem block_parsers_strip_lines
        (ic iname cc cname : string) (cs : list string) :
  parse_simple_table_course ic iname cc cname (map strip cs)
  = parse_simple_table_course ic iname cc cname cs
  /\ parse_multi_section_course ic iname cc cname (map strip cs)
     = parse_multi_section_course ic iname cc cname cs.
Proof.
  split.
  - rewrite !parse_simple_unfold, find_header_strip.
    destruct (fst (find_header cs 0)); [reflexivity |].
    f_equal. destruct (snd (find_header cs 0)) as [d |]; [| reflexivity].
    rewrite skipn_map. apply simple_percentiles_strip.
  - unfold parse_multi_section_course. rewrite length_map.
    apply multi_loop_strip.
Qed.

(** ** BlockLocator: the blocks of a page with distinct course codes *)

Lemma header_positions_bounds (ls : list string) (i : nat) :
  Forall (fun p => i <= p < i + List.length ls) (header_positions ls i).
Proof.
  revert i. induction ls as [| l rest IH]; intros i;
    cbn [header_positions]; [constructor |].
  assert (H : Forall (fun p => i <= p < i + List.length (l :: rest))
                     (header_positions rest (i + 1))).
  { apply Forall_impl with (2 := IH (i + 1)). cbn. intros p Hp. lia. }
  destruct (matches course_re (strip l)); [| exact H].
  constructor; [cbn; lia | exact H].
Qed.

Lemma header_positions_nth_bounds (ls : list string) (i k : nat) :
  i <= nth k (header_positions ls i) (i + List.length ls) <= i + List.length ls.
Proof.
  destruct (Nat.lt_ge_cases k (List.length (header_positions ls i)))
    as [Hlt | Hge].
  - pose proof (proj1 (Forall_forall _ _) (header_positions_bounds ls i)
                      _ (nth_In _ (i + List.length ls) Hlt)) as H.
    cbv beta in H. lia.
  - rewrite nth_overflow by exact Hge. lia.
Qed.

(** No course header stands before the first header position. *)
Lemma header_positions_before_first (ls : list string) (i n : nat) :
  i <= n < nth 0 (header_positions ls i) (i + List.length ls) ->
  matches course_re (strip (nth (n - i) ls EmptyString)) = false.
Proof.
  revert i. induction ls as [| l rest IH]; intros i;
    cbn [header_positions].
  - cbn. lia.
  - destruct (matches course_re (strip l)) eqn:E.
    + cbn [nth]. lia.
    + intros H. replace (i + List.length (l :: rest))
        with (i + 1 + List.length rest) in H by (cbn; lia).
      destruct (Nat.eq_dec n i) as [-> | Hne].
      * rewrite Nat.sub_diag. exact E.
      * replace (n - i) with (S (n - (i + 1))) by lia.
        apply IH. lia.
Qed.

(** No course header stands strictly between two consecutive header
    positions, or after the last one. *)
Lemma header_positions_gap (ls : list string) (i k n : nat) :
  k < List.length (header_positions ls i) ->
  nth k (header_positions ls i) (i + List.length ls) < n
  < nth (k + 1) (header_positions ls i) (i + List.length ls) ->
  matches course_re (strip (nth (n - i) ls EmptyString)) = false.
Proof.
  revert i k. induction ls as [| l rest IH]; intros i k;
    cbn [header_positions].
  - cbn. lia.
  - replace (i + List.length (l :: rest))
      with (i + 1 + List.length rest) by (cbn; lia).
    destruct (matches course_re (strip l)) eqn:E.
    + destruct k as [| k]; cbn [nth Nat.add List.length]; intros Hk Hn.
      * replace (n - i) with (S (n - (i + 1))) by lia.
        apply header_positions_before_first. lia.
      * pose proof (header_positions_nth_bounds rest (i + 1) k).
        replace (n - i) with (S (n - (i + 1))) by lia.
        apply (IH (i + 1) k); [lia | exact Hn].
    + intros Hk Hn.
      pose proof (header_positions_nth_bounds rest (i + 1) k).
      replace (n - i) with (S (n - (i + 1))) by lia.
      apply (IH (i + 1) k); assumption.
Qed.

Lemma header_positions_increasing (ls : list string) (i k : nat) :
  k < List.length (header_positions ls i) ->
  nth k (header_positions ls i) (i + List.length ls)
  < nth (k + 1) (header_positions ls i) (i + List.length ls).
Proof.
  revert i k. induction ls as [| l rest IH]; intros i k;
    cbn [header_positions].
  - cbn. lia.
  - replace (i + List.length (l :: rest))
      with (i + 1 + List.length rest) by (cbn; lia).
    destruct (matches course_re (strip l)).
    + destruct k as [| k]; cbn [nth Nat.add List.length]; intros Hk.
      * pose proof (header_positions_nth_bounds rest (i + 1) 0). lia.
      * apply IH. lia.
    + apply IH.
Qed.

(** The header line behind each entry of [header_courses]. *)
Lemma header_courses_at (ls : list string) (i k : nat) (cn : string * string) :
  nth_error (header_courses ls) k = Some cn ->
  matches course_re
    (strip (nth (nth k (header_positions ls i) (i + List.length ls) - i)
                ls EmptyString)) = true
  /\ code_and_name
       (strip (nth (nth k (header_positions ls i) (i + List.length ls) - i)
                   ls EmptyString)) = cn.
Proof.
  revert i k. induction ls as [| l rest IH]; intros i k;
    cbn [header_courses header_positions].
  - destruct k; discriminate.
  - replace (i + List.length (l :: rest))
      with (i + 1 + List.length rest) by (cbn; lia).
    destruct (matches course_re (strip l)) eqn:E.
    + destruct k as [| k]; cbn [nth_error nth].
      * intros [= <-]. rewrite Nat.sub_diag. cbn [nth].
        split; [exact E | reflexivity].
      * intros H. pose proof (header_positions_nth_bounds rest (i + 1) k).
        destruct (IH (i + 1) k H) as [Hm Hc].
        replace (nth k (header_positions rest (i + 1))
                     (i + 1 + List.length rest) - i)
          with (S (nth k (header_positions rest (i + 1))
                       (i + 1 + List.length rest) - (i + 1))) by lia.
        split; assumption.
    + intros H. pose proof (header_positions_nth_bounds rest (i + 1) k).
      destruct (IH (i + 1) k H) as [Hm Hc].
      replace (nth k (header_positions rest (i + 1))
                   (i + 1 + List.length rest) - i)
        with (S (nth k (header_positions rest (i + 1))
                     (i + 1 + List.length rest) - (i + 1))) by lia.
      split; assumption.
Qed.

(** X18: on a page whose course codes are pairwise distinct, the
    range of each course starts at its own header line and ends at
    the next course header line, or at the end of the page for the
    last course; the range is not empty, lies within the page, and
    holds no course header besides its first line. *)
Theorem course_block_of_distinct_codes
        (lines : list string) (k : nat) (code name : string) :
  NoDup (map fst (header_courses lines)) ->
  nth_error (header_courses lines) k = Some (code, name) ->
  exists a b,
    course_range lines (fst (find_courses lines 0 [] []))
                 (snd (find_courses lines 0 [] [])) k code = Some (a, b)
    /\ a < b <= List.length lines
    /\ matches course_re (strip (nth a lines EmptyString)) = true
    /\ code_and_name (strip (nth a lines EmptyString)) = (code, name)
    /\ (forall n, a < n < b ->
                  matches course_re (strip (nth n lines EmptyString)) = false)
    /\ (b < List.length lines ->
        matches course_re (strip (nth b lines EmptyString)) = true).
Proof.
  intros Hnd Hk.
  set (hp := header_positions lines 0).
  assert (Hlen : k < List.length hp).
  { unfold hp. rewrite length_header_positions.
    apply nth_error_Some. rewrite Hk. discriminate. }
  assert (Ha : nth k hp 0 = nth k hp (0 + List.length lines))
    by (apply nth_indep; exact Hlen).
  exists (nth k hp 0), (nth (k + 1) hp (List.length lines)).
  split.
  { apply (course_range_distinct lines k code name).
    - rewrite find_courses_spec. exact Hnd.
    - rewrite find_courses_spec. exact Hk. }
  pose proof (header_positions_increasing lines 0 k Hlen) as Hinc.
  pose proof (header_positions_nth_bounds lines 0 (k + 1)) as Hb.
  pose proof (header_courses_at lines 0 k (code, name) Hk) as [Hm Hc].
  fold hp in Hinc, Hb, Hm, Hc. rewrite <- Ha in Hinc, Hm, Hc.
  rewrite Nat.sub_0_r in Hm, Hc. cbn [Nat.add] in *.
  split; [lia |]. split; [exact Hm |]. split; [exact Hc |]. split.
  - intros n Hn.
    pose proof (header_positions_gap lines 0 k n Hlen) as G.
    fold hp in G. cbn [Nat.add] in G. rewrite <- Ha in G.
    rewrite Nat.sub_0_r in G. apply G. exact Hn.
  - intros Hlt.
    destruct (Nat.lt_ge_cases (k + 1) (List.length hp)) as [Hin | Hout].
    + destruct (nth_error (header_courses lines) (k + 1)) as [cn |] eqn:E.
      * pose proof (header_courses_at lines 0 (k + 1) cn E) as [Hm' _].
        fold hp in Hm'. cbn [Nat.add] in Hm'.
        rewrite Nat.sub_0_r in Hm'. exact Hm'.
      * apply nth_error_None in E.
        unfold hp in Hin. rewrite length_header_positions in Hin. lia.
    + rewrite nth_overflow in Hlt by exact Hout. lia.
Qed.

Lemma course_block_of_distinct_codes_witness :
  exists a b,
    course_range (split_lines distinct_course_page)
      (fst (find_courses (split_lines distinct_course_page) 0 [] []))
      (snd (find_courses (split_lines distinct_course_page) 0 [] []))
      1 "1234567891" = Some (a, b)
    /\ a < b <= List.length (split_lines distinct_course_page)
    /\ matches course_re
         (strip (nth a (split_lines distinct_course_page) EmptyString)) = true
    /\ code_and_name
         (strip (nth a (split_lines distinct_course_page) EmptyString))
       = ("1234567891", "Computer Engineering")
    /\ (forall n, a < n < b ->
          matches course_re
            (strip (nth n (split_lines distinct_course_page) EmptyString))
          = false)
    /\ (b < List.length (split_lines distinct_course_page) ->
        matches course_re
          (strip (nth b (split_lines distinct_course_page) EmptyString))
        = true).
Proof.
  apply (course_block_of_distinct_codes
           (split_lines distinct_course_page) 1
           "1234567891" "Computer Engineering").
  - vm_compute. repeat constructor; cbn; intuition discriminate.
  - vm_compute. reflexivity.
Defined.

Lemma process_courses_flat
      (lines : list string) (ic iname : string)
      (courses : list (string * string)) (positions : list (string * nat))
      (range : nat -> nat * nat)
      (todo : list (nat * (string * string))) (records : list record) :
  (forall idx code name,
      In (idx, (code, name)) todo ->
      course_range lines courses positions idx code = Some (range idx)) ->
  process_courses lines ic iname courses positions todo records
  = Some (records ++
          flat_map (fun '(idx, (code, name)) =>
                      block_records ic iname code name
                        (slice lines (fst (range idx)) (snd (range idx))))
                   todo).
Proof.
  revert records.
  induction todo as [| [idx [code name]] todo IH]; intros records H.
  - cbn. rewrite app_nil_r. reflexivity.
  - cbn [process_courses flat_map].
    rewrite (H idx code name (or_introl eq_refl)).
    destruct (range idx) as [a b]. cbn [fst snd].
    assert (H' : forall i c n, In (i, (c, n)) todo ->
                   course_range lines courses positions i c = Some (range i))
      by (intros i c n Hi; apply (H i c n); right; exact Hi).
    unfold block_records.
    destruct (has_sections (slice lines a b)).
    + unfold parse_multi_section_course.
      rewrite multi_loop_total by lia. cbn [app].
      rewrite (IH _ H'), app_assoc. reflexivity.
    + rewrite (IH _ H'), app_assoc. reflexivity.
Qed.

Lemma find_institute_nonempty (lines : list string) (ic iname : string) :
  find_institute lines = Some (ic, iname) -> is_empty ic = false.
Proof.
  intros H. apply find_institute_line in H. destruct H as [l [_ [Hm Hc]]].
  apply header_line_split in Hm. destruct Hm as [c [n [_ [L [_ E]]]]].
  rewrite Hc in E. injection E as <- <-.
  destruct ic; [discriminate L | reflexivity].
Qed.

(** X19: on a page with an institute line and pairwise distinct
    course codes, the records are those of the course blocks, block
    after block in document order; each block runs from a course
    header line to the next one (or to the end of the page) and is
    parsed by the multi-section parser when one of its lines contains
    [Home University Seats Allotted], by the simple-table parser
    otherwise. *)
Theorem page_is_concatenation_of_blocks (text ic iname : string) :
  find_institute (split_lines text) = Some (ic, iname) ->
  NoDup (map fst (header_courses (split_lines text))) ->
  parse_cutoff_page_complete text
  = Some (flat_map
            (fun '(k, (code, name)) =>
               block_records ic iname code name
                 (slice (split_lines text)
                    (nth k (header_positions (split_lines text) 0) 0)
                    (nth (k + 1) (header_positions (split_lines text) 0)
                         (List.length (split_lines text)))))
            (enumerate (header_courses (split_lines text)))).
Proof.
  intros HI Hnd. unfold parse_cutoff_page_complete.
  rewrite HI, (find_institute_nonempty _ _ _ HI).
  destruct (find_courses (split_lines text) 0 [] []) as [courses positions]
    eqn:EF.
  pose proof (find_courses_spec (split_lines text) 0 [] []) as S.
  rewrite EF in S. cbn [app] in S. injection S as Ec Ep.
  destruct courses as [| c0 cs].
  - rewrite <- Ec. reflexivity.
  - rewrite (process_courses_flat _ _ _ _ _
               (fun k => (nth k (header_positions (split_lines text) 0) 0,
                          nth (k + 1) (header_positions (split_lines text) 0)
                              (List.length (split_lines text))))).
    + cbn [app fst snd]. rewrite <- Ec. reflexivity.
    + intros idx code name Hin. apply in_enumerate in Hin.
      pose proof (course_range_distinct (split_lines text) idx code name) as R.
      rewrite EF in R. cbn [fst snd] in R. apply R.
      * rewrite Ec. exact Hnd.
      * exact Hin.
Qed.

Lemma page_is_concatenation_of_blocks_witness :
  parse_cutoff_page_complete distinct_course_page
  = Some (block_records "12345" "ABC College Of Engineering"
            "1234567890" "Computer Engineering"
            [ "1234567890 - Computer Engineering";
              "GOPENS GOPENH GSCS GSTS GVJS GNT1S GNT2S GOBCS";
              "I 1 (99.99) 2 (95.00)" ]
          ++ block_records "12345" "ABC College Of Engineering"
               "1234567891" "Computer Engineering"
               [ "1234567891 - Computer Engineering";
                 "GOPENS GOPENH GSCS GSTS GVJS GNT1S GNT2S GOBCS";
                 "I 1 (90.00)" ]).
Proof.
  refine (eq_trans
            (page_is_concatenation_of_blocks distinct_course_page
               "12345" "ABC College Of Engineering" _ _) _).
  - vm_compute. reflexivity.
  - vm_compute. repeat constructor; cbn; intuition discriminate.
  - vm_compute. reflexivity.
Defined.

(** ** The page parse returns on every text *)

(** X20: on every page text the page parse returns a list of records:
    no lookup in the position dictionary fails, whatever course codes
    repeat, and every loop of the two block parsers ends. *)
Theorem page_parse_returns (text : string) :
  exists records, parse_cutoff_page_complete text = Some records.
Proof.
  unfold parse_cutoff_page_complete.
  destruct (find_institute (split_lines text)) as [[ic iname] |];
    [| eexists; reflexivity].
  destruct (is_empty ic); [eexists; reflexivity |].
  rewrite find_courses_spec. cbn [app].
  destruct (header_courses (split_lines text)) as [| c0 cs] eqn:E;
    [eexists; reflexivity |].
  rewrite <- E.
  apply process_courses_total.
  - intros idx code name Hin. exact (in_enumerate _ _ _ Hin).
  - intros code Hin. apply lookup_set_all_present. left.
    rewrite map_fst_combine; [exact Hin |].
    rewrite length_map. symmetry. apply length_header_positions.
Qed.

(** ** DocumentOrchestrator: the rows of the final data set *)

Lemma sf_eqb_eq (x y : spec_float) : sf_eqb x y = true <-> x = y.
Proof.
  destruct x as [a | a | | a m e], y as [b | b | | b n f]; cbn [sf_eqb];
    try (split; [discriminate | discriminate]).
  - rewrite Bool.eqb_true_iff. split; congruence.
  - rewrite Bool.eqb_true_iff. split; congruence.
  - split; reflexivity.
  - rewrite !andb_true_iff, Bool.eqb_true_iff, Pos.eqb_eq, Z.eqb_eq.
    split; [intros [[-> ->] ->]; reflexivity | intros [= -> -> ->]; auto].
Qed.

Lemma percentile_eqb_eq (x y : option spec_float) :
  percentile_eqb x y = true <-> x = y.
Proof.
  destruct x as [a |], y as [b |]; cbn [percentile_eqb];
    try (split; [discriminate | discriminate]).
  - rewrite sf_eqb_eq. split; congruence.
  - split; reflexivity.
Qed.

Lemma record_eqb_eq (a b : record) : record_eqb a b = true <-> a = b.
Proof.
  destruct a as [a1 a2 a3 a4 a5 a6], b as [b1 b2 b3 b4 b5 b6].
  unfold record_eqb. cbn.
  rewrite !andb_true_iff, !String.eqb_eq, percentile_eqb_eq.
  split.
  - intros [[[[[-> ->] ->] ->] ->] ->]. reflexivity.
  - intros [= -> -> -> -> -> ->]. auto 10.
Qed.

Lemma existsb_record_eqb (r : record) (seen : list record) :
  existsb (record_eqb r) seen = true <-> In r seen.
Proof.
  rewrite existsb_exists. split.
  - intros [x [Hin Heq]]. apply record_eqb_eq in Heq. subst x. exact Hin.
  - intros Hin. exists r. split; [exact Hin | apply record_eqb_eq; reflexivity].
Qed.

Lemma drop_duplicates_go_In (seen rows : list record) (r : record) :
  In r (drop_duplicates_go seen rows) <-> In r rows /\ ~ In r seen.
Proof.
  revert seen. induction rows as [| x rows IH]; intros seen;
    cbn [drop_duplicates_go].
  - cbn. tauto.
  - destruct (existsb (record_eqb x) seen) eqn:E.
    + apply existsb_record_eqb in E. rewrite IH. cbn [In].
      split; [tauto |]. intros [[-> | H] Hn]; [contradiction | tauto].
    + assert (Hx : ~ In x seen).
      { intros H. apply existsb_record_eqb in H. congruence. }
      cbn [In]. rewrite IH. cbn [In].
      split.
      * intros [-> | [H Hn]]; [tauto |]. split; [tauto |].
        intros Hs. apply Hn. right. exact Hs.
      * intros [[-> | H] Hn]; [tauto |].
        destruct (existsb (record_eqb r) [x]) eqn:Er.
        -- apply existsb_record_eqb in Er. destruct Er as [-> | []]. tauto.
        -- right. split; [exact H |]. intros [-> | Hs]; [| tauto].
           cbn in Er. rewrite (proj2 (record_eqb_eq r r) eq_refl) in Er.
           discriminate Er.
Qed.

Lemma drop_duplicates_go_NoDup (seen rows : list record) :
  NoDup (drop_duplicates_go seen rows).
Proof.
  revert seen. induction rows as [| x rows IH]; intros seen;
    cbn [drop_duplicates_go]; [constructor |].
  destruct (existsb (record_eqb x) seen); [apply IH |].
  constructor; [| apply IH].
  rewrite drop_duplicates_go_In. intros [_ Hn]. apply Hn. left. reflexivity.
Qed.

Lemma insert_row_perm (r : record) (l : list record) :
  Permutation (insert_row r l) (r :: l).
Proof.
  induction l as [| x l IH]; cbn [insert_row]; [reflexivity |].
  destruct (key_leb x r); [| reflexivity].
  rewrite IH. apply perm_swap.
Qed.

Lemma sort_values_perm (rows : list record) :
  Permutation (sort_values rows) rows.
Proof.
  unfold sort_values.
  assert (G : forall acc,
             Permutation (fold_left (fun sorted r => insert_row r sorted)
                                    rows acc) (rows ++ acc)).
  { induction rows as [| r rows IH]; intros acc; [reflexivity |].
    cbn [fold_left app]. rewrite IH, insert_row_perm.
    symmetry. apply Permutation_middle. }
  rewrite G, app_nil_r. reflexivity.
Qed.

(** X21: the final data set holds exactly the rows that were parsed,
    each of them once: no row is lost or invented by the removal of
    duplicates and the sort, and no two rows of the result agree in
    all six columns. *)
Theorem final_dataset_rows (all_records : list record) :
  NoDup (final_dataset all_records)
  /\ (forall r, In r (final_dataset all_records) <-> In r all_records)
  /\ Permutation (final_dataset all_records) (drop_duplicates all_records).
Proof.
  unfold final_dataset.
  pose proof (sort_values_perm (drop_duplicates all_records)) as P.
  split; [| split; [| exact P]].
  - apply (Permutation_NoDup (Permutation_sym P)).
    apply drop_duplicates_go_NoDup.
  - intros r. split.
    + intros H. apply (Permutation_in _ P) in H.
      apply drop_duplicates_go_In in H. tauto.
    + intros H. apply (Permutation_in _ (Permutation_sym P)).
      apply drop_duplicates_go_In. split; [exact H | intros []].
Qed.

(** ** DocumentOrchestrator: the diagnostics of the page loop *)

Lemma fold_right_add_app (a b : list nat) :
  fold_right Nat.add 0 (a ++ b)
  = fold_right Nat.add 0 a + fold_right Nat.add 0 b.
Proof. induction a as [| x a IH]; cbn; [reflexivity | rewrite IH; lia]. Qed.

(** What one iteration adds to the counts. *)
Lemma scan_page_counts (page_num : nat) (p : page_source) (st : scan) :
  let st' := scan_page page_num p st in
  successful_pages st' + List.length (failed_pages st')
  = successful_pages st + List.length (failed_pages st) + 1
  /\ total_records_per_page st' + List.length (all_records st)
     = total_records_per_page st + List.length (all_records st')
  /\ (forall bound,
         Forall (fun e => 1 <= fst e <= bound) (failed_pages st) ->
         Forall (fun e => 1 <= fst e <= bound) (page_stats st) ->
         page_num < bound ->
         Forall (fun e => 1 <= fst e <= bound) (failed_pages st')
         /\ Forall (fun e => 1 <= fst e <= bound) (page_stats st')).
Proof.
  assert (A : forall (X : Type) (l : list (nat * X)) (x : X) bound,
             Forall (fun e => 1 <= fst e <= bound) l -> page_num < bound ->
             Forall (fun e => 1 <= fst e <= bound) (l ++ [(page_num + 1, x)])).
  { intros X l x bound Hl Hb. apply Forall_app. split; [exact Hl |].
    constructor; [cbn; lia | constructor]. }
  unfold scan_page, successful_pages, total_records_per_page.
  destruct p as [text | message]; cbn zeta.
  - destruct (is_empty text || (String.length (strip text) <? 50)%nat).
    + cbn [all_records failed_pages page_stats]. rewrite length_app.
      cbn [List.length]. repeat split; try lia; auto.
    + destruct (parse_cutoff_page_complete text) as [records |].
      * cbn [all_records failed_pages page_stats].
        rewrite filter_app, map_app, fold_right_add_app, !length_app.
        cbn [filter map snd fold_right List.length].
        destruct (List.length records) as [| n] eqn:E; cbn [Nat.eqb Nat.ltb Nat.leb].
        -- rewrite length_app. cbn [List.length].
           repeat split; try lia; auto.
        -- cbn [List.length]. repeat split; try lia; auto.
      * cbn [all_records failed_pages page_stats]. rewrite length_app.
        cbn [List.length]. repeat split; try lia; auto.
  - cbn [all_records failed_pages page_stats]. rewrite length_app.
    cbn [List.length]. repeat split; try lia; auto.
Qed.

Lemma scan_pages_counts (pages : list page_source) (page_num : nat) (st : scan) :
  let st' := scan_pages pages page_num st in
  successful_pages st' + List.length (failed_pages st')
  = successful_pages st + List.length (failed_pages st) + List.length pages
  /\ total_records_per_page st' + List.length (all_records st)
     = total_records_per_page st + List.length (all_records st')
  /\ (Forall (fun e => 1 <= fst e <= page_num + List.length pages)
             (failed_pages st) ->
      Forall (fun e => 1 <= fst e <= page_num + List.length pages)
             (page_stats st) ->
      Forall (fun e => 1 <= fst e <= page_num + List.length pages)
             (failed_pages st')
      /\ Forall (fun e => 1 <= fst e <= page_num + List.length pages)
                (page_stats st')).
Proof.
  revert page_num st. induction pages as [| p pages IH]; intros page_num st.
  - cbn. repeat split; try lia; tauto.
  - cbn [scan_pages List.length]. cbn zeta.
    destruct (scan_page_counts page_num p st) as [S1 [S2 S3]].
    destruct (IH (page_num + 1) (scan_page page_num p st)) as [I1 [I2 I3]].
    cbn zeta in *.
    split; [lia |]. split; [lia |].
    intros Hf Hs.
    replace (page_num + S (List.length pages))
      with (page_num + 1 + List.length pages) in * by lia.
    destruct (S3 (page_num + 1 + List.length pages) Hf Hs) as [Hf' Hs'];
      [lia |].
    exact (I3 Hf' Hs').
Qed.

Lemma scan_pages_records (texts : list string) (page_num : nat) (st : scan) :
  all_records (scan_pages (map PageText texts) page_num st)
  = all_records st ++ collect_pages texts.
Proof.
  revert page_num st. induction texts as [| text texts IH]; intros page_num st.
  - cbn. rewrite app_nil_r. reflexivity.
  - cbn [map scan_pages collect_pages]. rewrite IH. unfold scan_page.
    destruct (is_empty text || (String.length (strip text) <? 50)%nat);
      [reflexivity |].
    destruct (parse_cutoff_page_complete text) as [records |];
      cbn [all_records]; [| reflexivity].
    rewrite app_assoc. reflexivity.
Qed.

Lemma pages_to_process_le (max_pages : option Z) (total_pages : nat) :
  pages_to_process max_pages total_pages <= total_pages.
Proof. unfold pages_to_process. destruct max_pages as [z |]; lia. Qed.

(** X22: after the page loop of [full_conversion], every page of the
    range processed is counted once, as a page with data or as a page
    with issues; the record counts kept per page add up to the number
    of records collected; every page number reported lies between 1
    and the number of pages processed, which never exceeds the number
    of pages of the document. *)
Theorem full_conversion_accounting
        (pages : list page_source) (max_pages : option Z) :
  let st := full_conversion_scan pages max_pages in
  let n := pages_to_process max_pages (List.length pages) in
  successful_pages st + List.length (failed_pages st) = n
  /\ total_records_per_page st = List.length (all_records st)
  /\ Forall (fun e => 1 <= fst e <= n) (failed_pages st)
  /\ Forall (fun e => 1 <= fst e <= n) (page_stats st)
  /\ n <= List.length pages.
Proof.
  cbn zeta. unfold full_conversion_scan.
  set (m := pages_to_process max_pages (List.length pages)).
  assert (Hm : m <= List.length pages) by apply pages_to_process_le.
  destruct (scan_pages_counts (firstn m pages) 0 (mkScan [] [] []))
    as [C1 [C2 C3]].
  cbn zeta in *. rewrite length_firstn, (Nat.min_l _ _ Hm) in *.
  unfold successful_pages, total_records_per_page in *.
  cbn [page_stats failed_pages all_records filter map fold_right List.length
       Nat.add] in *.
  destruct (C3 (Forall_nil _) (Forall_nil _)) as [Hf Hs].
  split; [lia |]. split; [lia |]. split; [exact Hf |]. split; [exact Hs |].
  exact Hm.
Qed.

Lemma page_record_row_ok (text : string) (recs : list record) (r : record) :
  parse_cutoff_page_complete text = Some recs -> In r recs -> row_ok r.
Proof.
  intros H Hr.
  destruct (page_records_invariant text recs H r Hr)
    as [ic [iname [HI [Hic [_ [Hc [Hcat Hp]]]]]]].
  apply find_institute_line in HI. destruct HI as [l [_ [Hm Hcn]]].
  apply header_courses_line in Hc. destruct Hc as [l' [_ [Hm' Hcn']]].
  apply header_line_split in Hm. destruct Hm as [c [n [_ [L [D E]]]]].
  apply header_line_split in Hm'. destruct Hm' as [c' [n' [_ [L' [D' E']]]]].
  rewrite Hcn in E. injection E as <- <-.
  rewrite Hcn' in E'. injection E' as E1 E2.
  unfold row_ok. rewrite Hic, E1. repeat split; assumption.
Qed.

Lemma collect_pages_In (texts : list string) (r : record) :
  In r (collect_pages texts) ->
  exists text recs,
    In text texts /\ parse_cutoff_page_complete text = Some recs /\ In r recs.
Proof.
  induction texts as [| text texts IH]; cbn [collect_pages]; [intros [] |].
  assert (K : In r (collect_pages texts) ->
              exists t recs, In t (text :: texts)
                             /\ parse_cutoff_page_complete t = Some recs
                             /\ In r recs).
  { intros H. destruct (IH H) as [t [recs [Ht Hp]]].
    exists t, recs. split; [right; exact Ht | exact Hp]. }
  destruct (is_empty text || (String.length (strip text) <? 50)%nat);
    [exact K |].
  destruct (parse_cutoff_page_complete text) as [recs |] eqn:E; [| exact K].
  intros H. apply in_app_or in H. destruct H as [H | H]; [| exact (K H)].
  exists text, recs. split; [left; reflexivity | split; [exact E | exact H]].
Qed.

(** X23: when [full_conversion] writes a data set, the data set is not
    empty, its rows are pairwise different and in ascending order of
    (Institute_Code, Course_Code, Category), and every row has a
    five-digit institute code, a ten-digit course code, a category
    that passes the category test and a percentile that is absent or
    within 0 to 100. *)
Theorem full_conversion_dataset (texts : list string) (ds : list record) :
  full_conversion texts = Some ds ->
  ds <> []
  /\ NoDup ds
  /\ key_sorted ds
  /\ Forall row_ok ds.
Proof.
  unfold full_conversion.
  destruct (collect_pages texts) as [| r0 rs] eqn:E; [discriminate |].
  rewrite <- E. intros [= <-].
  pose proof (sort_values_perm (drop_duplicates (collect_pages texts))) as P.
  fold (final_dataset (collect_pages texts)) in P.
  assert (Hin : forall r, In r (final_dataset (collect_pages texts))
                          <-> In r (collect_pages texts)).
  { intros r. split.
    - intros H. apply (Permutation_in _ P) in H.
      apply drop_duplicates_go_In in H. tauto.
    - intros H. apply (Permutation_in _ (Permutation_sym P)).
      apply drop_duplicates_go_In. split; [exact H | intros []]. }
  split; [| split; [| split]].
  - intros Hnil. assert (Hr : In r0 (collect_pages texts))
      by (rewrite E; left; reflexivity).
    apply Hin in Hr. rewrite Hnil in Hr. destruct Hr.
  - apply (Permutation_NoDup (Permutation_sym P)).
    apply drop_duplicates_go_NoDup.
  - apply sort_values_sorted.
  - apply Forall_forall. intros r Hr. apply Hin in Hr.
    destruct (collect_pages_In texts r Hr) as [text [recs [_ [Hp Hrr]]]].
    exact (page_record_row_ok text recs r Hp Hrr).
Qed.

Lemma full_conversion_dataset_witness :
  exists ds,
    full_conversion [two_section_page; example_page; example_page8] = Some ds
    /\ List.length ds = 11
    /\ NoDup ds
    /\ key_sorted ds
    /\ Forall row_ok ds.
Proof.
  eexists. split; [vm_compute; reflexivity |].
  split; [reflexivity |].
  apply (full_conversion_dataset
           [two_section_page; example_page; example_page8]).
  vm_compute. reflexivity.
Defined.

(** ** TokenClassifier: every token of the category shape is accepted *)

(** A greedy star over a class that reads the whole run [a], when the
    text goes on with a character outside the class (or ends) and the
    continuation succeeds there. *)
Lemma rmatch_star_cls_run {A : Type} (p : ascii -> bool) (a b : string)
      (g : option string) (k : string -> option string -> option A) (x : A) :
  all_chars p a = true ->
  (forall c t, b = String c t -> p c = false) ->
  k b g = Some x ->
  rmatch (Star (Cls p)) (a ++ b) g k = Some x.
Proof.
  intros Ha Hb Hk. cbn [rmatch].
  assert (G : forall n, (String.length a <= n)%nat ->
              (fix star (n : nat) (s : string) (g : option string)
                 : option A :=
                 match n with
                 | O => k s g
                 | S n' =>
                     match
                       match s with
                       | String c t =>
                           if p c
                           then (if (String.length t <? String.length s)%nat
                                 then star n' t g else None)
                           else None
                       | EmptyString => None
                       end
                     with
                     | Some x => Some x
                     | None => k s g
                     end
                 end) n (a ++ b)%string g = Some x).
  { clear -Ha Hb Hk. induction a as [| c a IH]; intros n Hn.
    - cbn [String.append]. destruct n as [| n]; [exact Hk |].
      destruct b as [| c t]; [exact Hk |].
      rewrite (Hb c t eq_refl). exact Hk.
    - cbn [all_chars] in Ha. apply andb_true_iff in Ha. destruct Ha as [Hc Ha].
      destruct n as [| n]; [cbn in Hn; lia |].
      cbn [String.append]. rewrite Hc.
      assert (L : (String.length (a ++ b) <? String.length (String c (a ++ b)))%nat
                  = true) by (apply Nat.ltb_lt; cbn; lia).
      rewrite L. rewrite (IH Ha n) by (cbn in Hn; lia). reflexivity. }
  apply G. rewrite length_append. lia.
Qed.

Lemma upper_not_digit (c : ascii) : upper c = true -> digit c = false.
Proof.
  unfold upper, digit. intros H. apply andb_true_iff in H.
  destruct H as [H _]. apply Nat.leb_le in H.
  apply andb_false_iff. right. apply Nat.leb_gt. lia.
Qed.

Lemma digit_not_upper (c : ascii) : digit c = true -> upper c = false.
Proof.
  unfold upper, digit. intros H. apply andb_true_iff in H.
  destruct H as [_ H]. apply Nat.leb_le in H.
  apply andb_false_iff. left. apply Nat.leb_gt. lia.
Qed.

(** The tail of the category pattern on a suffix and an end. *)
Lemma category_tail_matches (H E : string) :
  In H category_suffixes ->
  E = EmptyString \/ E = String newline EmptyString ->
  rmatch (Cat (Opt (Cls (one_of "HOS"))) Eos) (H ++ E) None
         (fun s' g => Some (s', g))
  = Some (E, None).
Proof.
  intros HH HE. cbn [category_suffixes In] in HH.
  destruct HH as [<- | [<- | [<- | [<- | []]]]];
    destruct HE as [-> | ->]; reflexivity.
Qed.

Lemma suffix_end_head (H E : string) (c : ascii) (t : string) :
  In H category_suffixes ->
  E = EmptyString \/ E = String newline EmptyString ->
  (H ++ E)%string = String c t -> digit c = false.
Proof.
  intros HH HE. cbn [category_suffixes In] in HH.
  destruct HH as [<- | [<- | [<- | [<- | []]]]];
    destruct HE as [-> | ->]; cbn; intros [= <- <-]; reflexivity.
Qed.

(** A fixed number of characters of a class, all read. *)
Lemma rmatch_rep_cls_run {A : Type} (p : ascii -> bool) (n : nat) :
  forall (a b : string) (g : option string)
         (k : string -> option string -> option A),
    String.length a = n -> all_chars p a = true ->
    rmatch (Rep n (Cls p)) (a ++ b) g k = k b g.
Proof.
  induction n as [| n IH]; intros a b g k Hl Ha.
  - destruct a; [reflexivity | discriminate Hl].
  - destruct a as [| c a]; [discriminate Hl |].
    cbn [all_chars] in Ha. apply andb_true_iff in Ha. destruct Ha as [Hc Ha].
    cbn [Rep String.append]. rewrite rmatch_cat. cbn [rmatch]. rewrite Hc.
    apply IH; [cbn in Hl; lia | exact Ha].
Qed.

(** X6: every token made of two or more capital letters, then any
    digits, then at most one of H, O, S passes the category test; so
    does any word in capitals, such as STAGE, STATE or STATUS. *)
Theorem is_category_complete (U D H E : string) :
  (2 <= String.length U)%nat ->
  all_chars upper U = true ->
  all_chars digit D = true ->
  In H category_suffixes ->
  E = EmptyString \/ E = String newline EmptyString ->
  is_category (U ++ D ++ H ++ E) = true.
Proof.
  intros HL HU HD HH HE.
  unfold is_category. apply orb_true_iff. left. apply andb_true_iff.
  split; [| apply Nat.leb_le; rewrite length_append; lia].
  destruct U as [| u1 [| u2 U]]; try (cbn in HL; lia).
  cbn [all_chars] in HU. apply andb_true_iff in HU. destruct HU as [H1 HU].
  apply andb_true_iff in HU. destruct HU as [H2 HU].
  assert (T : rmatch (Cat (Opt (Cls (one_of "HOS"))) Eos) (H ++ E) None
                     (fun s' g => Some (s', g)) = Some (E, None))
    by (apply category_tail_matches; assumption).
  assert (M : re_match category_re
                (String u1 (String u2 (U ++ D ++ H ++ E))) = Some (E, None)).
  { unfold re_match, category_re, AtLeast. rewrite !rmatch_cat.
    change (String u1 (String u2 (U ++ D ++ H ++ E)))
      with (String u1 (String u2 EmptyString) ++ (U ++ D ++ H ++ E))%string.
    rewrite (rmatch_rep_cls_run upper 2);
      [| reflexivity | cbn [all_chars]; rewrite H1, H2; reflexivity].
    destruct D as [| d D].
    - (* no digits: the letters run on into the suffix *)
      cbn [String.append].
      assert (HUH : all_chars upper (U ++ H) = true).
      { rewrite all_chars_app, HU. cbn [category_suffixes In] in HH.
        destruct HH as [<- | [<- | [<- | [<- | []]]]]; reflexivity. }
      rewrite <- append_assoc.
      apply (rmatch_star_cls_run upper (U ++ H) E); [exact HUH | |].
      + intros c t Hc. destruct HE as [-> | ->]; [discriminate Hc |].
        injection Hc as <- <-. reflexivity.
      + rewrite rmatch_cat.
        apply (rmatch_star_cls_run digit EmptyString E); [reflexivity | |].
        * intros c t Hc. destruct HE as [-> | ->]; [discriminate Hc |].
          injection Hc as <- <-. reflexivity.
        * destruct HE as [-> | ->]; reflexivity.
    - (* digits stop the letters *)
      cbn [all_chars] in HD. apply andb_true_iff in HD.
      destruct HD as [Hd HD].
      apply (rmatch_star_cls_run upper U (String d D ++ H ++ E));
        [exact HU | |].
      + cbn [String.append]. intros c t [= <- <-].
        exact (digit_not_upper d Hd).
      + rewrite rmatch_cat.
        apply (rmatch_star_cls_run digit (String d D) (H ++ E));
          [cbn [all_chars]; rewrite Hd, HD; reflexivity | | exact T].
        intros c t Hc. exact (suffix_end_head H E c t HH HE Hc). }
  unfold matches. cbn [String.append]. rewrite M. reflexivity.
Qed.

Lemma is_category_complete_witness :
  is_category "STAGE" = true /\ is_category "GNT1S" = true.
Proof.
  split.
  - apply (is_category_complete "STAGE" "" "" "");
      [cbn; lia | reflexivity | reflexivity | cbn; tauto | left; reflexivity].
  - apply (is_category_complete "GNT" "1" "S" "");
      [cbn; lia | reflexivity | reflexivity | cbn; tauto | left; reflexivity].
Defined.

(** ** SimpleTableParser: a stopping line that also ends the data *)

Lemma collect_categories_until (mid : list string) (stop : string)
      (after : list string) (j : nat) :
  Forall (fun l => is_data_line (strip l) = false
                   /\ is_structural (strip l) = false) mid ->
  is_data_line (strip stop) || is_structural (strip stop) = true ->
  snd (collect_categories (mid ++ stop :: after) j)
  = Some (j + List.length mid).
Proof.
  intros Hm Hs. revert j.
  induction Hm as [| l mid [Hd Hst] _ IH]; intros j.
  - cbn [app collect_categories List.length].
    apply orb_true_iff in Hs. rewrite Nat.add_0_r.
    destruct (is_data_line (strip stop)); [reflexivity |].
    destruct Hs as [Hs | Hs]; [discriminate Hs |].
    rewrite Hs. reflexivity.
  - cbn [app collect_categories]. rewrite Hd, Hst.
    specialize (IH (j + 1)).
    destruct (collect_categories (mid ++ stop :: after) (j + 1)) as [more d].
    cbn [snd] in *. rewrite IH. f_equal. cbn [List.length]. lia.
Qed.

(** X17: when the line that stops the category scan of a simple table
    is itself a stop line of the percentile loop (a blank line, a line
    that starts with [Home University], [Other Than] or [State], or a
    line that contains [Stage]), the percentiles are those of that
    one line and the lines after it are not read; after a blank line
    every record has an absent percentile. *)
Theorem stop_line_ends_percentiles
        (ic iname cc cname : string)
        (before : list string) (header : string)
        (mid : list string) (stop : string) (after : list string) :
  Forall (fun l => is_main_header (strip l) = false) before ->
  is_main_header (strip header) = true ->
  Forall (fun l => is_data_line (strip l) = false
                   /\ is_structural (strip l) = false) mid ->
  is_data_line (strip stop) || is_structural (strip stop) = true ->
  is_percentile_stop (strip stop) = true ->
  parse_simple_table_course ic iname cc cname
    (before ++ header :: mid ++ stop :: after)
  = make_records ic iname cc cname
      (fst (find_header (before ++ header :: mid ++ stop :: after) 0))
      (extract_percentiles (strip stop))
  /\ (strip stop = EmptyString ->
      Forall (fun r => Percentile r = None)
             (parse_simple_table_course ic iname cc cname
                (before ++ header :: mid ++ stop :: after))).
Proof.
  intros Hb Hh Hm Hs Hp.
  set (cs := before ++ header :: mid ++ stop :: after).
  assert (Hd : snd (find_header cs 0)
               = Some (List.length before + 1 + List.length mid)).
  { unfold cs. rewrite (find_header_skip before _ 0 Hb).
    cbn [find_header Nat.add]. rewrite Hh.
    pose proof (collect_categories_until mid stop after
                  (List.length before + 1) Hm Hs) as Hc.
    destruct (collect_categories (mid ++ stop :: after)
                                 (List.length before + 1)) as [more d].
    exact Hc. }
  assert (Hk : skipn (List.length before + 1 + List.length mid) cs
               = stop :: after).
  { unfold cs.
    replace (List.length before + 1 + List.length mid)
      with (List.length before + (S (List.length mid) + 0)) by lia.
    rewrite skipn_app_length.
    exact (skipn_app_length (header :: mid) (stop :: after) 0). }
  assert (E : parse_simple_table_course ic iname cc cname cs
              = make_records ic iname cc cname (fst (find_header cs 0))
                             (extract_percentiles (strip stop))).
  { rewrite parse_simple_unfold, Hd, Hk. cbn [simple_percentiles].
    rewrite Hp. destruct (fst (find_header cs 0)); reflexivity. }
  split; [exact E |].
  intros Hblank. rewrite E, Hblank. apply Forall_forall. intros r Hr.
  destruct (make_records_percentile_of _ _ _ _ _ _ r Hr) as [i [_ Hi]].
  rewrite Hi. destruct i; reflexivity.
Qed.

Lemma stop_line_ends_percentiles_witness :
  List.length (parse_simple_table_course "12345" "ABC" "1234567890" "Comp"
                 blank_after_header_block) = 8
  /\ Forall (fun r => Percentile r = None)
            (parse_simple_table_course "12345" "ABC" "1234567890" "Comp"
               blank_after_header_block).
Proof.
  split; [vm_compute; reflexivity |].
  refine (proj2 (stop_line_ends_percentiles
                   "12345" "ABC" "1234567890" "Comp"
                   ["1234567890 - Computer Engineering"]
                   "GOPENS GOPENH GSCS GSTS GVJS GNT1S GNT2S GOBCS"
                   [] "   " ["I 1 (99.99) 2 (95.00)"] _ _ _ _ _) _).
  - repeat constructor.
  - vm_compute. reflexivity.
  - constructor.
  - vm_compute. reflexivity.
  - vm_compute. reflexivity.
  - vm_compute. reflexivity.
Defined.

(** ** The lookup tool *)

Ltac compare_cases :=
  repeat match goal with
         | H : context [Z.compare ?x ?y] |- _ =>
             destruct (Z.compare_spec x y)
         | |- context [Z.compare ?x ?y] =>
             destruct (Z.compare_spec x y)
         | H : context [Pos.compare_cont Eq ?x ?y] |- _ =>
             change (Pos.compare_cont Eq x y) with (Pos.compare x y) in *;
             destruct (Pos.compare_spec x y)
         | |- context [Pos.compare_cont Eq ?x ?y] =>
             change (Pos.compare_cont Eq x y) with (Pos.compare x y) in *;
             destruct (Pos.compare_spec x y)
         end.

Lemma SFleb_total (a b : spec_float) :
  App.is_nan a = false -> App.is_nan b = false ->
  SFleb a b = false -> SFleb b a = true.
Proof.
  unfold SFleb, SFcompare.
  destruct a as [sa | sa | | sa ma ea], b as [sb | sb | | sb mb eb];
    cbn [App.is_nan]; intros Ha Hb; try discriminate;
    try destruct sa; try destruct sb; try discriminate; try reflexivity;
    intros H; compare_cases; subst; cbn in *;
    try discriminate; try reflexivity; lia.
Qed.

Lemma SFleb_trans (a b c : spec_float) :
  SFleb a b = true -> SFleb b c = true -> SFleb a c = true.
Proof.
  unfold SFleb, SFcompare.
  destruct a as [sa | sa | | sa ma ea], b as [sb | sb | | sb mb eb],
           c as [sc | sc | | sc mc ec];
    try discriminate;
    try destruct sa; try destruct sb; try destruct sc;
    try discriminate; try reflexivity;
    intros H1 H2; compare_cases; subst; cbn in *;
    try discriminate; try reflexivity; lia.
Qed.

Lemma difference_leb_total (a b : spec_float) :
  App.difference_leb a b = false -> App.difference_leb b a = true.
Proof.
  unfold App.difference_leb.
  destruct (App.is_nan b) eqn:Hb; [discriminate |].
  destruct (App.is_nan a) eqn:Ha; [reflexivity |].
  apply SFleb_total; assumption.
Qed.

Lemma difference_leb_trans (a b c : spec_float) :
  App.difference_leb a b = true -> App.difference_leb b c = true ->
  App.difference_leb a c = true.
Proof.
  unfold App.difference_leb.
  destruct (App.is_nan c) eqn:Hc; [reflexivity |].
  destruct (App.is_nan b) eqn:Hb; [discriminate |].
  destruct (App.is_nan a) eqn:Ha; [discriminate |].
  apply SFleb_trans.
Qed.

Section PredictFacts.
Variable Row : Type.
Variables (Course_of : Row -> string) (Category_of : Row -> option string)
          (Percentile_of : Row -> spec_float).

Lemma insert_by_difference_perm (x : Row * spec_float)
      (l : list (Row * spec_float)) :
  Permutation (App.insert_by_difference Row x l) (x :: l).
Proof.
  induction l as [| y l IH]; cbn [App.insert_by_difference]; [reflexivity |].
  destruct (App.difference_leb (snd y) (snd x)); [| reflexivity].
  rewrite IH. apply perm_swap.
Qed.

Lemma sort_by_difference_perm (rows : list (Row * spec_float)) :
  Permutation (App.sort_by_difference Row rows) rows.
Proof.
  unfold App.sort_by_difference.
  assert (G : forall acc,
             Permutation
               (fold_left (fun sorted x => App.insert_by_difference Row x sorted)
                          rows acc) (rows ++ acc)).
  { induction rows as [| r rows IH]; intros acc; [reflexivity |].
    cbn [fold_left app]. rewrite IH, insert_by_difference_perm.
    symmetry. apply Permutation_middle. }
  rewrite G, app_nil_r. reflexivity.
Qed.

Lemma insert_by_difference_sorted (x : Row * spec_float)
      (l : list (Row * spec_float)) :
  StronglySorted (fun a b => App.difference_leb (snd a) (snd b) = true) l ->
  StronglySorted (fun a b => App.difference_leb (snd a) (snd b) = true)
                 (App.insert_by_difference Row x l).
Proof.
  intros Hs. induction Hs as [| y l Hs IH Hy]; cbn [App.insert_by_difference].
  - constructor; constructor.
  - destruct (App.difference_leb (snd y) (snd x)) eqn:E.
    + constructor; [exact IH |].
      apply (Permutation_Forall (Permutation_sym (insert_by_difference_perm x l))).
      constructor; assumption.
    + apply difference_leb_total in E.
      constructor; [constructor; assumption |].
      constructor; [exact E |].
      apply Forall_impl with (2 := Hy).
      intros z Hz. exact (difference_leb_trans _ _ _ E Hz).
Qed.

Lemma sort_by_difference_sorted (rows : list (Row * spec_float)) :
  StronglySorted (fun a b => App.difference_leb (snd a) (snd b) = true)
                 (App.sort_by_difference Row rows).
Proof.
  unfold App.sort_by_difference.
  assert (G : forall acc,
             StronglySorted
               (fun a b => App.difference_leb (snd a) (snd b) = true) acc ->
             StronglySorted
               (fun a b => App.difference_leb (snd a) (snd b) = true)
               (fold_left (fun sorted x => App.insert_by_difference Row x sorted)
                          rows acc)).
  { induction rows as [| r rows IH]; intros acc Ha; [exact Ha |].
    cbn [fold_left]. apply IH. apply insert_by_difference_sorted. exact Ha. }
  apply G. constructor.
Qed.

(** X24: [predict] returns exactly the rows of the data set whose
    course and category equal the ones asked for and whose percentile
    lies between the asked percentile minus 5 and plus 5 (computed and
    compared as floats), each as often as it occurs, with its distance
    to the asked percentile; when the asked percentile is not a number
    it returns nothing. *)
Theorem predict_rows (df : list Row) (user_percentile : spec_float)
        (user_category user_branch : string) :
  Permutation
    (App.predict Row Course_of Category_of Percentile_of df
                 user_percentile user_category user_branch)
    (map (fun r => (r, App.fabs (App.fsub (Percentile_of r) user_percentile)))
         (filter (fun r =>
                    String.eqb (Course_of r) user_branch
                    && match Category_of r with
                       | Some c => String.eqb c user_category
                       | None => false
                       end
                    && SFleb (App.fsub user_percentile (PyFloat.of_int 5))
                             (Percentile_of r)
                    && SFleb (Percentile_of r)
                             (App.fadd user_percentile (PyFloat.of_int 5)))
                 df))
  /\ (forall r d,
         In (r, d) (App.predict Row Course_of Category_of Percentile_of df
                                user_percentile user_category user_branch) ->
         In r df
         /\ Course_of r = user_branch
         /\ Category_of r = Some user_category
         /\ SFleb (App.fsub user_percentile (PyFloat.of_int 5))
                  (Percentile_of r) = true
         /\ SFleb (Percentile_of r)
                  (App.fadd user_percentile (PyFloat.of_int 5)) = true
         /\ d = App.fabs (App.fsub (Percentile_of r) user_percentile))
  /\ (user_percentile = S754_nan ->
      App.predict Row Course_of Category_of Percentile_of df
                  user_percentile user_category user_branch = []).
Proof.
  assert (F : filter (App.in_window Row Percentile_of user_percentile)
                (filter (App.matches_request Row Course_of Category_of
                           user_category user_branch) df)
              = filter (fun r =>
                          String.eqb (Course_of r) user_branch
                          && match Category_of r with
                             | Some c => String.eqb c user_category
                             | None => false
                             end
                          && SFleb (App.fsub user_percentile (PyFloat.of_int 5))
                                   (Percentile_of r)
                          && SFleb (Percentile_of r)
                                   (App.fadd user_percentile (PyFloat.of_int 5)))
                       df).
  { induction df as [| r df IH]; [reflexivity |].
    cbn [filter]. unfold App.matches_request at 1.
    destruct (String.eqb (Course_of r) user_branch
              && match Category_of r with
                 | Some c => String.eqb c user_category
                 | None => false
                 end); cbn [andb filter].
    - unfold App.in_window at 1.
      destruct (SFleb (App.fsub user_percentile (PyFloat.of_int 5))
                      (Percentile_of r)); cbn [andb].
      + destruct (SFleb (Percentile_of r)
                        (App.fadd user_percentile (PyFloat.of_int 5)));
          rewrite IH; reflexivity.
      + exact IH.
    - exact IH. }
  assert (P : Permutation
                (App.predict Row Course_of Category_of Percentile_of df
                             user_percentile user_category user_branch)
                (map (fun r => (r, App.fabs (App.fsub (Percentile_of r)
                                                       user_percentile)))
                     (filter (App.in_window Row Percentile_of user_percentile)
                        (filter (App.matches_request Row Course_of Category_of
                                   user_category user_branch) df)))).
  { unfold App.predict. apply sort_by_difference_perm. }
  split; [rewrite <- F; exact P |]. split.
  - intros r d H. apply (Permutation_in _ P) in H.
    apply in_map_iff in H. destruct H as [r' [E H]].
    injection E as -> <-.
    apply filter_In in H. destruct H as [H Hw].
    apply filter_In in H. destruct H as [Hin Hm].
    unfold App.in_window in Hw. apply andb_true_iff in Hw.
    unfold App.matches_request in Hm. apply andb_true_iff in Hm.
    destruct Hm as [Hc Hcat]. apply String.eqb_eq in Hc.
    destruct (Category_of r) as [c |]; [| discriminate Hcat].
    apply String.eqb_eq in Hcat. subst c.
    repeat split; tauto.
  - intros ->. unfold App.predict.
    assert (E : forall l,
               filter (App.in_window Row Percentile_of S754_nan) l = []).
    { clear. induction l as [| r l IH]; [reflexivity | exact IH]. }
    rewrite E. reflexivity.
Qed.

(** X25: the rows returned by [predict] come closest first: each row's
    distance to the asked percentile is at most the distance of every
    row after it (a distance that is not a number comes last). *)
Theorem predict_closest_first (df : list Row) (user_percentile : spec_float)
        (user_category user_branch : string) :
  StronglySorted (fun a b => App.difference_leb (snd a) (snd b) = true)
                 (App.predict Row Course_of Category_of Percentile_of df
                              user_percentile user_category user_branch).
Proof. unfold App.predict. apply sort_by_difference_sorted. Qed.

End PredictFacts.

Example sample_predict_ex :
  map (fun x => (Institute_Code (fst x), snd x))
      (sample_predict (pyfloat "95") "GOPENS" "Computer Engineering")
  = [ ("12350", pyfloat "1.0"); ("12346", pyfloat "1.5");
      ("12345", pyfloat "4.989999999999995") ].
Proof. vm_compute. reflexivity. Qed.

Lemma predict_rows_witness :
  In (mkRecord "12346" "DEF" "1234600000" "Computer Engineering" "GOPENS"
               (Some (pyfloat "93.5")))
     sample_rows
  /\ SFleb (App.fsub (pyfloat "95") (PyFloat.of_int 5)) (pyfloat "93.5") = true
  /\ SFleb (pyfloat "93.5") (App.fadd (pyfloat "95") (PyFloat.of_int 5)) = true.
Proof.
  pose proof (proj1 (proj2 (predict_rows record Course
                              (fun r => Some (Category r)) percentile_of
                              sample_rows (pyfloat "95")
                              "GOPENS" "Computer Engineering"))
                    (mkRecord "12346" "DEF" "1234600000"
                              "Computer Engineering" "GOPENS"
                              (Some (pyfloat "93.5")))
                    (pyfloat "1.5")) as H.
  assert (Hin : In (mkRecord "12346" "DEF" "1234600000"
                             "Computer Engineering" "GOPENS"
                             (Some (pyfloat "93.5")), pyfloat "1.5")
                   (App.predict record Course (fun r => Some (Category r))
                                percentile_of sample_rows (pyfloat "95")
                                "GOPENS" "Computer Engineering")).
  { vm_compute. right. left. reflexivity. }
  destruct (H Hin) as [H1 [_ [_ [H4 [H5 _]]]]].
  split; [exact H1 |]. split; [exact H4 | exact H5].
Defined.
